(** * hello-expo: mood journal and food tracker over a hosted backend

    A shallow embedding of the three screens of the application
    ([app/(tabs)/food.tsx], the mood journal in its current and its earlier
    form, the profile screen) and of [lib/supabase.ts], followed by the
    properties the specification states about them.

    Layout:
    - [Js]: the fragment of the JavaScript standard library the screens use
      (UTF-16 strings, [trim], [parseInt], truthiness, [Math.round]);
    - [Supabase]: the client module and the query builder;
    - rows, third-party response bodies and component state;
    - the calls a screen makes as a signature [cmd], async function bodies
      as programs over it, and [run], which executes a program against the
      component state and an arbitrary world;
    - one module per screen, translated function by function;
    - the vocabulary of the statements and some concrete worlds;
    - facts about runs and traces, then the properties C1 to C10;
    - further properties of the same functions and of those around them,
      X1 to X20, and some runs in scripted worlds. *)

From Stdlib Require Import List String Ascii ZArith NArith QArith Qround Bool Lia.
From Stdlib Require Import DecimalString DecimalPos.
Import ListNotations.

Set Implicit Arguments.
Close Scope Q_scope.
Open Scope Z_scope.

(* ===================================================================== *)
(** * JavaScript values used by the screens *)
(* ===================================================================== *)

Module Js.

(** A JavaScript string is a sequence of UTF-16 code units; [length] counts
    code units. *)
Definition code_unit := N.
Definition jsstring := list code_unit.

(** ASCII literals of the source text. *)
Definition str (s : string) : jsstring :=
  map N_of_ascii (list_ascii_of_string s).

Definition length (s : jsstring) : Z := Z.of_nat (List.length s).

(** [!s] is true exactly for the empty string. *)
Definition truthy (s : jsstring) : bool :=
  match s with [] => false | _ :: _ => true end.

(** [a === b] on strings. *)
Fixpoint eqb (a b : jsstring) : bool :=
  match a, b with
  | [], [] => true
  | x :: a', y :: b' => (x =? y)%N && eqb a' b'
  | _, _ => false
  end.

(** [s || null] on a string, and [x || null] on a nullable string. *)
Definition nonEmpty (s : jsstring) : option jsstring :=
  if truthy s then Some s else None.

Definition truthyOpt (o : option jsstring) : bool :=
  match o with Some s => truthy s | None => false end.

(** ECMAScript WhiteSpace and LineTerminator code points, which are what
    [String.prototype.trim] and the first step of [parseInt] strip:
    TAB, LF, VT, FF, CR, SP, NBSP, U+1680, U+2000..U+200A, U+2028, U+2029,
    U+202F, U+205F, U+3000 and U+FEFF. *)
Definition isWhiteSpace (c : code_unit) : bool :=
  (existsb (N.eqb c)
     [9; 10; 11; 12; 13; 32; 160; 5760; 8232; 8233; 8239; 8287; 12288; 65279]
   || ((8192 <=? c) && (c <=? 8202)))%N.

Fixpoint dropWhile (p : code_unit -> bool) (s : jsstring) : jsstring :=
  match s with
  | [] => []
  | c :: s' => if p c then dropWhile p s' else s
  end.

Definition trimStart (s : jsstring) : jsstring := dropWhile isWhiteSpace s.
Definition trimEnd (s : jsstring) : jsstring := rev (dropWhile isWhiteSpace (rev s)).
Definition trim (s : jsstring) : jsstring := trimEnd (trimStart s).

(** The global replace of [sanitizeInput]: every occurrence of one of the
    five characters less-than, greater-than, ampersand, double quote and
    single quote is removed. *)
Definition isMarkup (c : code_unit) : bool :=
  existsb (N.eqb c) [60; 62; 38; 34; 39]%N.

Definition stripMarkup (s : jsstring) : jsstring :=
  filter (fun c => negb (isMarkup c)) s.

(** ** Numbers

    The integer-valued results of [parseInt] and [Math.round] are kept as
    mathematical integers, [None] standing for [NaN].  The conversion to a
    double is monotone and exact below 2^53, so every comparison the screens
    make (against 0, 1, 3, 5 and 10000) and every value that passes one of
    them is the same on both sides; [-0] is [0], which [||] cannot tell
    apart either. *)
Definition number := option Z.

(** The value of a code unit as a digit in radix [r]: 0-9, a-z, A-Z. *)
Definition digitValue (r : Z) (c : code_unit) : option Z :=
  let v :=
    if ((48 <=? c) && (c <=? 57))%N then Some (Z.of_N c - 48)
    else if ((97 <=? c) && (c <=? 122))%N then Some (Z.of_N c - 87)
    else if ((65 <=? c) && (c <=? 90))%N then Some (Z.of_N c - 55)
    else None in
  match v with
  | Some d => if d <? r then Some d else None
  | None => None
  end.

(** The longest prefix of radix-[r] digits, read as an integer; [None] when
    the prefix is empty. *)
Fixpoint digits (r : Z) (acc : option Z) (s : jsstring) : option Z :=
  match s with
  | [] => acc
  | c :: s' =>
      match digitValue r c with
      | Some d =>
          digits r (Some (r * match acc with Some a => a | None => 0 end + d)) s'
      | None => acc
      end
  end.

(** [parseInt(string, radix)] as ECMA-262 defines it: leading white space
    is skipped, one sign is read, a [0x] prefix is dropped when the radix is
    16 or unspecified (0), and the digits are read as far as they go. *)
Definition parseInt (s : jsstring) (radix : Z) : number :=
  let s1 := trimStart s in
  let sign := match s1 with c :: _ => if (c =? 45)%N then (-1) else 1 | [] => 1 end in
  let s2 := match s1 with
            | c :: rest => if ((c =? 45) || (c =? 43))%N then rest else s1
            | [] => s1
            end in
  if negb (radix =? 0) && ((radix <? 2) || (36 <? radix)) then None
  else
    let stripPrefix := (radix =? 0) || (radix =? 16) in
    let r0 := if radix =? 0 then 10 else radix in
    let '(r, s3) :=
      match s2 with
      | c0 :: c1 :: rest =>
          if stripPrefix && (c0 =? 48)%N && ((c1 =? 120) || (c1 =? 88))%N
          then (16, rest) else (r0, s2)
      | _ => (r0, s2)
      end in
    option_map (Z.mul sign) (digits r None s3).

(** The decimal numeral of an integer. *)
Definition decimal (z : Z) : jsstring :=
  str (NilZero.string_of_int (Z.to_int z)).

Definition MAX_SAFE_INTEGER : Z := 9007199254740991.

(** [x.toString()] on an integer-valued number [x].  Up to
    [Number.MAX_SAFE_INTEGER] in absolute value the result is the decimal
    numeral of the integer.  Beyond it the digits are the shortest that
    read back as the same binary64 value, and from 1e21 on the notation is
    exponential ('1e+21'); both depend on the binary64 representation,
    which is not modelled: [large] stands for the result there, and what
    is proved holds for every such function. *)
Definition toString (large : Z -> jsstring) (z : Z) : jsstring :=
  if Z.abs z <=? MAX_SAFE_INTEGER then decimal z else large z.

(** [n || d] on a number: [NaN] and [0] are falsy. *)
Definition orNumber (n : number) (d : Z) : Z :=
  match n with
  | Some z => if z =? 0 then d else z
  | None => d
  end.

(** [n || null] on an integer. *)
Definition orNull (n : Z) : option Z :=
  if n =? 0 then None else Some n.

(** [Math.round] on a finite number: the nearest integer, ties towards
    plus infinity. *)
Definition Math_round (x : Q) : Z := Qfloor (x + (1 # 2))%Q.

(** [x || 0] on a nullable rational. *)
Definition orZeroQ (x : option Q) : Q :=
  match x with Some q => q | None => 0%Q end.

(** The pieces of a template literal, in source order: literal text, an
    interpolated string, an interpolated number, and an interpolated string
    passed through [encodeURIComponent]. *)
Inductive piece : Type :=
| Lit (s : string)
| Str (s : jsstring)
| Int (z : Z)
| Num (q : Q)
| Enc (s : jsstring).

Definition template := list piece.

(** [s.isWellFormed()]: no code unit of a surrogate pair stands alone.
    [encodeURIComponent(s)] throws a [URIError] exactly when this fails. *)
Definition isLeadingSurrogate (c : code_unit) : bool :=
  ((55296 <=? c) && (c <=? 56319))%N.
Definition isTrailingSurrogate (c : code_unit) : bool :=
  ((56320 <=? c) && (c <=? 57343))%N.

Fixpoint isWellFormed (s : jsstring) : bool :=
  match s with
  | [] => true
  | c :: rest =>
      if isLeadingSurrogate c then
        match rest with
        | d :: rest' => isTrailingSurrogate d && isWellFormed rest'
        | [] => false
        end
      else if isTrailingSurrogate c then false
      else isWellFormed rest
  end.

(** [ToIntegerOrInfinity] on a finite number: truncation towards zero. *)
Definition truncate (x : Q) : Z := Z.quot (Qnum x) (Zpos (Qden x)).

(** [s.repeat(count)]: [None] stands for the [RangeError] that a negative
    count throws. *)
Definition repeat (s : jsstring) (count : Q) : option jsstring :=
  let n := truncate count in
  if n <? 0 then None
  else Some (List.concat (List.repeat s (Z.to_nat n))).

(** [array[x]] for a number [x]: the element when [x] is an integer that
    is an index of the array, [undefined] (here [None]) otherwise. *)
Definition at_index {A : Type} (array : list A) (x : Q) : option A :=
  if (Z.rem (Qnum x) (Zpos (Qden x)) =? 0) && (0 <=? truncate x)
  then nth_error array (Z.to_nat (truncate x))
  else None.

End Js.

Import Js.

(** [x || null] on a nullable string kept as a test: the string when it is
    truthy. *)
Definition asTruthy (o : option jsstring) : option jsstring :=
  match o with
  | Some s => nonEmpty s
  | None => None
  end.

(** A JavaScript object literal with scalar fields, in source order. *)
Inductive jsvalue : Type :=
| VNull
| VNum (q : Q)
| VStr (s : jsstring).

Definition jsobject := list (string * jsvalue).

Fixpoint get (k : string) (o : jsobject) : option jsvalue :=
  match o with
  | [] => None
  | (k', v) :: o' => if String.eqb k k' then Some v else get k o'
  end.

Definition VInt (z : Z) : jsvalue := VNum (inject_Z z).
Definition ofString (o : option jsstring) : jsvalue :=
  match o with Some s => VStr s | None => VNull end.
Definition ofNumber (o : option Q) : jsvalue :=
  match o with Some q => VNum q | None => VNull end.
Definition ofInt (o : option Z) : jsvalue :=
  match o with Some z => VInt z | None => VNull end.

(** What a statement list completes with: normally, or by a thrown
    error carrying a message. *)
Inductive completion (A : Type) : Type :=
| Normal (a : A)
| ThrowError (message : jsstring).
Arguments ThrowError {A} message.

(** [process.env], as far as the application reads it. *)
Record ProcessEnv : Type := {
  EXPO_PUBLIC_SUPABASE_URL : option jsstring;
  EXPO_PUBLIC_SUPABASE_KEY : option jsstring;
  EXPO_PUBLIC_FOOD_API_KEY : option jsstring;
  EXPO_PUBLIC_WEATHER_API_KEY : option jsstring
}.

(* ===================================================================== *)
(** * lib/supabase.ts and the SDK surface the screens call *)
(* ===================================================================== *)

Module Supabase.

(** The client that [createClient(url, anonKey)] returns, when it
    returns. *)
Record SupabaseClient : Type := Client {
  supabaseUrl : jsstring;
  supabaseKey : jsstring
}.

(** What lib/supabase.ts depends on of @supabase/supabase-js, which is not
    part of the repository: [createClient] throws on a URL it does not
    accept (a string that is not an http or https URL).  [acceptsUrl] is
    that test and [refusal] the message of what is thrown. *)
Record SupabaseJs : Type := {
  acceptsUrl : jsstring -> bool;
  refusal : jsstring -> jsstring
}.

(** [createClient(url, anonKey)] on two non-empty strings. *)
Definition createClient (sdk : SupabaseJs) (url anonKey : jsstring) :
  completion SupabaseClient :=
  if acceptsUrl sdk url
  then Normal {| supabaseUrl := url; supabaseKey := anonKey |}
  else ThrowError (refusal sdk url).

(** Evaluation of the module: the two guards, then the one export. *)
Definition supabase (sdk : SupabaseJs) (env : ProcessEnv) :
  completion SupabaseClient :=
  let url := EXPO_PUBLIC_SUPABASE_URL env in
  let anonKey := EXPO_PUBLIC_SUPABASE_KEY env in
  match asTruthy url with
  | None => ThrowError (str "Missing EXPO_PUBLIC_SUPABASE_URL")
  | Some url =>
      match asTruthy anonKey with
      | None => ThrowError (str "Missing EXPO_PUBLIC_SUPABASE_KEY")
      | Some anonKey => createClient sdk url anonKey
      end
  end.

Record PostgrestError : Type := {
  message : jsstring;
  code : jsstring
}.

(** [PostgrestSingleResponse<T>]: the union of the success shape
    [{ data: T, error: null }] and the failure shape
    [{ data: null, error: PostgrestError }]. *)
Inductive PostgrestResponse (T : Type) : Type :=
| Success (data : T)
| Failure (error : PostgrestError).
Arguments Failure {T} error.

Definition data_of {T} (r : PostgrestResponse T) : option T :=
  match r with Success d => Some d | Failure _ => None end.
Definition error_of {T} (r : PostgrestResponse T) : option PostgrestError :=
  match r with Success _ => None | Failure e => Some e end.

(** The read request that a chain
    [from(t).select(c).eq(k, v).order(k, { ascending }).limit(n)] builds. *)
Record Query : Type := {
  q_table : string;
  q_columns : string;
  q_eq : list (string * option jsstring);
  q_order : list (string * bool);
  q_limit : option Z
}.

Definition from_select (table columns : string) : Query :=
  {| q_table := table; q_columns := columns; q_eq := []; q_order := [];
     q_limit := None |}.
Definition eq (column : string) (v : option jsstring) (q : Query) : Query :=
  {| q_table := q_table q; q_columns := q_columns q;
     q_eq := q_eq q ++ [(column, v)]; q_order := q_order q;
     q_limit := q_limit q |}.
Definition order (column : string) (ascending : bool) (q : Query) : Query :=
  {| q_table := q_table q; q_columns := q_columns q; q_eq := q_eq q;
     q_order := q_order q ++ [(column, ascending)]; q_limit := q_limit q |}.
Definition limit (n : Z) (q : Query) : Query :=
  {| q_table := q_table q; q_columns := q_columns q; q_eq := q_eq q;
     q_order := q_order q; q_limit := Some n |}.

(** [User], as far as the screens read it. *)
Module User.
Record t : Type := {
  id : jsstring;
  email : option jsstring
}.
End User.

Record AuthError : Type := {
  auth_message : jsstring
}.

End Supabase.

Import Supabase.

(* ===================================================================== *)
(** * Rows and third-party responses *)
(* ===================================================================== *)

(** [type FoodEntry] of food.tsx. *)
Inductive MealType : Type := breakfast | lunch | dinner | snack.

Definition mealName (m : MealType) : jsstring :=
  match m with
  | breakfast => str "breakfast"
  | lunch => str "lunch"
  | dinner => str "dinner"
  | snack => str "snack"
  end.

Definition MealType_eqb (a b : MealType) : bool :=
  match a, b with
  | breakfast, breakfast | lunch, lunch | dinner, dinner | snack, snack => true
  | _, _ => false
  end.

Module FoodEntry.
Record t : Type := {
  id : jsstring;
  food_name : jsstring;
  calories : option Q;
  protein : option Q;
  carbs : option Q;
  fat : option Q;
  fiber : option Q;
  meal_type : MealType;
  rating : option Q;
  notes : option jsstring;
  created_at : option jsstring;
  user_id : jsstring
}.
End FoodEntry.

(** [type NutritionInfo] of food.tsx; every number is a [Math.round]. *)
Module NutritionInfo.
Record t : Type := {
  name : jsstring;
  calories : Z;
  protein : Z;
  carbs : Z;
  fat : Z
}.
End NutritionInfo.

(** [type Entry] of the mood journal. *)
Module Entry.
Record t : Type := {
  id : jsstring;
  text : jsstring;
  mood : option Q;
  created_at : option jsstring;
  lat : option Q;
  lng : option Q;
  weather : option jsstring;
  temperature : option Q;
  user_id : jsstring
}.
End Entry.

(** [type Entry] of the earlier mood journal: no temperature, no user. *)
Module LegacyEntry.
Record t : Type := {
  id : jsstring;
  text : jsstring;
  mood : option Q;
  created_at : option jsstring;
  lat : option Q;
  lng : option Q;
  weather : option jsstring
}.
End LegacyEntry.

(** The body of a FoodData Central search, at the shape [searchFoodAPI]
    reads: every property it touches may be missing. *)
Module Usda.
Record Nutrient : Type := {
  nutrientId : Q;
  value : option Q
}.
Record Food : Type := {
  description : option jsstring;
  foodNutrients : option (list Nutrient)
}.
Record SearchResult : Type := {
  foods : option (list Food)
}.
End Usda.

(** The body of an OpenWeatherMap current-weather answer, at the shape
    [fetchWeather] reads. *)
Module OpenWeather.
Record Condition : Type := {
  main : option jsstring
}.
Record Main : Type := {
  temp : option Q
}.
Record Data : Type := {
  weather : option (list Condition);
  data_main : option Main
}.
End OpenWeather.

(** What [fetch] resolves to.  [json] is the value [await resp.json()]
    yields; [None] when that promise rejects or the parsed value makes a
    property access of the reader throw. *)
Record Response (D : Type) : Type := {
  ok : bool;
  status : Z;
  json : option D
}.

(** [pos.coords] of expo-location. *)
Record Coords : Type := {
  latitude : Q;
  longitude : Q
}.

(* ===================================================================== *)
(** * Component state *)
(* ===================================================================== *)

(** The value [calculateDailySummary] stores. *)
Module MealCounts.
Record t : Type := {
  breakfast : Z;
  lunch : Z;
  dinner : Z;
  snack : Z
}.
End MealCounts.

Module DailySummary.
Record t : Type := {
  totalCalories : Q;
  totalProtein : Q;
  totalCarbs : Q;
  totalFat : Q;
  totalFiber : Q;
  mealCounts : MealCounts.t;
  averageRating : Q
}.
End DailySummary.

(** [FoodScreen] of food.tsx. *)
Module FoodState.
Record t : Type := mk {
  foodName : jsstring;
  calories : jsstring;
  mealType : MealType;
  rating : jsstring;
  notes : jsstring;
  selectedNutrition : option NutritionInfo.t;
  items : list FoodEntry.t;
  loading : bool;
  inserting : bool;
  refreshing : bool;
  error : option jsstring;
  userId : option jsstring;
  showNutritionModal : bool;
  nutritionResults : list NutritionInfo.t;
  showSummary : bool;
  dailySummary : option DailySummary.t
}.

(** One setter per [useState] cell. *)
Inductive setter : Type :=
| setFoodName (v : jsstring)
| setCalories (v : jsstring)
| setMealType (v : MealType)
| setRating (v : jsstring)
| setNotes (v : jsstring)
| setSelectedNutrition (v : option NutritionInfo.t)
| setItems (v : list FoodEntry.t)
| setLoading (v : bool)
| setInserting (v : bool)
| setRefreshing (v : bool)
| setError (v : option jsstring)
| setUserId (v : option jsstring)
| setShowNutritionModal (v : bool)
| setNutritionResults (v : list NutritionInfo.t)
| setShowSummary (v : bool)
| setDailySummary (v : option DailySummary.t).

Definition apply (a : setter) (s : t) : t :=
  match a with
  | setFoodName v =>
      mk v (calories s) (mealType s) (rating s) (notes s) (selectedNutrition
        s) (items s) (loading s) (inserting s) (refreshing s) (error s)
        (userId s) (showNutritionModal s) (nutritionResults s) (showSummary s)
        (dailySummary s)
  | setCalories v =>
      mk (foodName s) v (mealType s) (rating s) (notes s) (selectedNutrition
        s) (items s) (loading s) (inserting s) (refreshing s) (error s)
        (userId s) (showNutritionModal s) (nutritionResults s) (showSummary s)
        (dailySummary s)
  | setMealType v =>
      mk (foodName s) (calories s) v (rating s) (notes s) (selectedNutrition
        s) (items s) (loading s) (inserting s) (refreshing s) (error s)
        (userId s) (showNutritionModal s) (nutritionResults s) (showSummary s)
        (dailySummary s)
  | setRating v =>
      mk (foodName s) (calories s) (mealType s) v (notes s)
        (selectedNutrition s) (items s) (loading s) (inserting s) (refreshing
        s) (error s) (userId s) (showNutritionModal s) (nutritionResults s)
        (showSummary s) (dailySummary s)
  | setNotes v =>
      mk (foodName s) (calories s) (mealType s) (rating s) v
        (selectedNutrition s) (items s) (loading s) (inserting s) (refreshing
        s) (error s) (userId s) (showNutritionModal s) (nutritionResults s)
        (showSummary s) (dailySummary s)
  | setSelectedNutrition v =>
      mk (foodName s) (calories s) (mealType s) (rating s) (notes s) v
        (items s) (loading s) (inserting s) (refreshing s) (error s) (userId
        s) (showNutritionModal s) (nutritionResults s) (showSummary s)
        (dailySummary s)
  | setItems v =>
      mk (foodName s) (calories s) (mealType s) (rating s) (notes s)
        (selectedNutrition s) v (loading s) (inserting s) (refreshing s)
        (error s) (userId s) (showNutritionModal s) (nutritionResults s)
        (showSummary s) (dailySummary s)
  | setLoading v =>
      mk (foodName s) (calories s) (mealType s) (rating s) (notes s)
        (selectedNutrition s) (items s) v (inserting s) (refreshing s) (error
        s) (userId s) (showNutritionModal s) (nutritionResults s) (showSummary
        s) (dailySummary s)
  | setInserting v =>
      mk (foodName s) (calories s) (mealType s) (rating s) (notes s)
        (selectedNutrition s) (items s) (loading s) v (refreshing s) (error s)
        (userId s) (showNutritionModal s) (nutritionResults s) (showSummary s)
        (dailySummary s)
  | setRefreshing v =>
      mk (foodName s) (calories s) (mealType s) (rating s) (notes s)
        (selectedNutrition s) (items s) (loading s) (inserting s) v (error s)
        (userId s) (showNutritionModal s) (nutritionResults s) (showSummary s)
        (dailySummary s)
  | setError v =>
      mk (foodName s) (calories s) (mealType s) (rating s) (notes s)
        (selectedNutrition s) (items s) (loading s) (inserting s) (refreshing
        s) v (userId s) (showNutritionModal s) (nutritionResults s)
        (showSummary s) (dailySummary s)
  | setUserId v =>
      mk (foodName s) (calories s) (mealType s) (rating s) (notes s)
        (selectedNutrition s) (items s) (loading s) (inserting s) (refreshing
        s) (error s) v (showNutritionModal s) (nutritionResults s)
        (showSummary s) (dailySummary s)
  | setShowNutritionModal v =>
      mk (foodName s) (calories s) (mealType s) (rating s) (notes s)
        (selectedNutrition s) (items s) (loading s) (inserting s) (refreshing
        s) (error s) (userId s) v (nutritionResults s) (showSummary s)
        (dailySummary s)
  | setNutritionResults v =>
      mk (foodName s) (calories s) (mealType s) (rating s) (notes s)
        (selectedNutrition s) (items s) (loading s) (inserting s) (refreshing
        s) (error s) (userId s) (showNutritionModal s) v (showSummary s)
        (dailySummary s)
  | setShowSummary v =>
      mk (foodName s) (calories s) (mealType s) (rating s) (notes s)
        (selectedNutrition s) (items s) (loading s) (inserting s) (refreshing
        s) (error s) (userId s) (showNutritionModal s) (nutritionResults s) v
        (dailySummary s)
  | setDailySummary v =>
      mk (foodName s) (calories s) (mealType s) (rating s) (notes s)
        (selectedNutrition s) (items s) (loading s) (inserting s) (refreshing
        s) (error s) (userId s) (showNutritionModal s) (nutritionResults s)
        (showSummary s) v
  end.

(** The initial values passed to [useState]. *)
Definition initial : t :=
  mk [] [] breakfast (str "3") [] None [] false false false None None
    false [] false None.
End FoodState.

(** [HomeScreen], the mood journal. *)
Module MoodState.
Record t : Type := mk {
  text : jsstring;
  mood : jsstring;
  useLocation : bool;
  items : list Entry.t;
  loading : bool;
  inserting : bool;
  refreshing : bool;
  error : option jsstring;
  userId : option jsstring
}.

(** One setter per [useState] cell. *)
Inductive setter : Type :=
| setText (v : jsstring)
| setMood (v : jsstring)
| setUseLocation (v : bool)
| setItems (v : list Entry.t)
| setLoading (v : bool)
| setInserting (v : bool)
| setRefreshing (v : bool)
| setError (v : option jsstring)
| setUserId (v : option jsstring).

Definition apply (a : setter) (s : t) : t :=
  match a with
  | setText v =>
      mk v (mood s) (useLocation s) (items s) (loading s) (inserting s)
        (refreshing s) (error s) (userId s)
  | setMood v =>
      mk (text s) v (useLocation s) (items s) (loading s) (inserting s)
        (refreshing s) (error s) (userId s)
  | setUseLocation v =>
      mk (text s) (mood s) v (items s) (loading s) (inserting s) (refreshing
        s) (error s) (userId s)
  | setItems v =>
      mk (text s) (mood s) (useLocation s) v (loading s) (inserting s)
        (refreshing s) (error s) (userId s)
  | setLoading v =>
      mk (text s) (mood s) (useLocation s) (items s) v (inserting s)
        (refreshing s) (error s) (userId s)
  | setInserting v =>
      mk (text s) (mood s) (useLocation s) (items s) (loading s) v
        (refreshing s) (error s) (userId s)
  | setRefreshing v =>
      mk (text s) (mood s) (useLocation s) (items s) (loading s) (inserting
        s) v (error s) (userId s)
  | setError v =>
      mk (text s) (mood s) (useLocation s) (items s) (loading s) (inserting
        s) (refreshing s) v (userId s)
  | setUserId v =>
      mk (text s) (mood s) (useLocation s) (items s) (loading s) (inserting
        s) (refreshing s) (error s) v
  end.

(** The initial values passed to [useState]. *)
Definition initial : t :=
  mk [] (str "3") false [] false false false None None.
End MoodState.

(** [HomeScreen] of the earlier mood journal, which has no user. *)
Module LegacyState.
Record t : Type := mk {
  text : jsstring;
  mood : jsstring;
  useLocation : bool;
  items : list LegacyEntry.t;
  loading : bool;
  inserting : bool;
  refreshing : bool;
  error : option jsstring
}.

(** One setter per [useState] cell. *)
Inductive setter : Type :=
| setText (v : jsstring)
| setMood (v : jsstring)
| setUseLocation (v : bool)
| setItems (v : list LegacyEntry.t)
| setLoading (v : bool)
| setInserting (v : bool)
| setRefreshing (v : bool)
| setError (v : option jsstring).

Definition apply (a : setter) (s : t) : t :=
  match a with
  | setText v =>
      mk v (mood s) (useLocation s) (items s) (loading s) (inserting s)
        (refreshing s) (error s)
  | setMood v =>
      mk (text s) v (useLocation s) (items s) (loading s) (inserting s)
        (refreshing s) (error s)
  | setUseLocation v =>
      mk (text s) (mood s) v (items s) (loading s) (inserting s) (refreshing
        s) (error s)
  | setItems v =>
      mk (text s) (mood s) (useLocation s) v (loading s) (inserting s)
        (refreshing s) (error s)
  | setLoading v =>
      mk (text s) (mood s) (useLocation s) (items s) v (inserting s)
        (refreshing s) (error s)
  | setInserting v =>
      mk (text s) (mood s) (useLocation s) (items s) (loading s) v
        (refreshing s) (error s)
  | setRefreshing v =>
      mk (text s) (mood s) (useLocation s) (items s) (loading s) (inserting
        s) v (error s)
  | setError v =>
      mk (text s) (mood s) (useLocation s) (items s) (loading s) (inserting
        s) (refreshing s) v
  end.

(** The initial values passed to [useState]. *)
Definition initial : t :=
  mk [] (str "3") false [] false false false None.
End LegacyState.

(** [ProfileScreen]. *)
Module ProfileState.
Record t : Type := mk {
  user : option User.t;
  loading : bool
}.

(** One setter per [useState] cell. *)
Inductive setter : Type :=
| setUser (v : option User.t)
| setLoading (v : bool).

Definition apply (a : setter) (s : t) : t :=
  match a with
  | setUser v =>
      mk v (loading s)
  | setLoading v =>
      mk (user s) v
  end.

(** The initial values passed to [useState]. *)
Definition initial : t :=
  mk None true.
End ProfileState.

(* ===================================================================== *)
(** * Effects and programs *)
(* ===================================================================== *)

(** What a rejected promise or a [throw] carries. *)
Inductive exn : Type :=
| Error (message : template)
| URIError
| Rejection (source : string).

(** The three tables' row types, as [.returns<T[]>()] declares them. *)
Inductive table_kind : Type := FoodRows | MoodRows | LegacyRows.

Definition rows (k : table_kind) : Type :=
  match k with
  | FoodRows => list FoodEntry.t
  | MoodRows => list Entry.t
  | LegacyRows => list LegacyEntry.t
  end.

Inductive api : Type := FoodDataCentral | OpenWeatherMap.

Definition body (a : api) : Type :=
  match a with
  | FoodDataCentral => Usda.SearchResult
  | OpenWeatherMap => OpenWeather.Data
  end.

Inductive db_call : Type :=
| CallGetUser | CallSignOut | CallSelect | CallInsert | CallDelete.

Section Programs.

(** [S] is the type of state setters of the component the program belongs
    to. *)
Variable S : Type.

(** Every call a screen makes that leaves the function: a React state
    setter, an alert or a console line, a call on the Supabase client, an
    HTTP request, a call into expo-location, a reading of the clock.  The
    index is the type of what the call evaluates or resolves to; [None]
    where a promise may reject. *)
Inductive cmd : Type -> Type :=
| SetState (a : S) : cmd unit
| Alert (title message : template) (buttons : list string) : cmd unit
| Console (level : string) (text : string) : cmd unit
| AuthGetUser (c : SupabaseClient) : cmd (option User.t)
| AuthSignOut (c : SupabaseClient) : cmd (option AuthError)
| DbSelect (k : table_kind) (c : SupabaseClient) (q : Query) :
    cmd (PostgrestResponse (rows k))
| DbInsert (c : SupabaseClient) (table : string) (row : jsobject) :
    cmd (PostgrestResponse unit)
| DbDelete (c : SupabaseClient) (table : string)
    (filters : list (string * option jsstring)) :
    cmd (PostgrestResponse unit)
| Fetch (a : api) (url : template) : cmd (option (Response (body a)))
| RequestForegroundPermissions : cmd (option jsstring)
| GetCurrentPosition : cmd (option Coords)
| Today : cmd (jsstring -> bool).

(** An async function body: it returns, throws, or makes a call and goes
    on with the answer. *)
Inductive prog (A : Type) : Type :=
| Ret (a : A)
| Throw (e : exn)
| Vis (R : Type) (c : cmd R) (k : R -> prog A).
Arguments Throw {A} e.

Fixpoint bind {A B : Type} (p : prog A) (f : A -> prog B) : prog B :=
  match p with
  | Ret a => f a
  | Throw e => Throw e
  | Vis c k => Vis c (fun r => bind (k r) f)
  end.

(** [try { p } catch (e) { h e }]. *)
Fixpoint try_catch {A : Type} (p : prog A) (h : exn -> prog A) : prog A :=
  match p with
  | Ret a => Ret a
  | Throw e => h e
  | Vis c k => Vis c (fun r => try_catch (k r) h)
  end.

Definition call {R : Type} (c : cmd R) : prog R := Vis c (fun r => Ret r).

(** [await p] for a promise that may reject. *)
Definition await {R : Type} (source : string) (c : cmd (option R)) : prog R :=
  Vis c (fun r => match r with
                  | Some v => Ret v
                  | None => Throw (Rejection source)
                  end).

(** ** Running a program

    One call of the trace: the command and what it answered. *)
Inductive event : Type :=
| Ev (R : Type) (c : cmd R) (r : R).

(** How a run ended. *)
Inductive outcome (A : Type) : Type :=
| Returned (a : A)
| Threw (e : exn).
Arguments Threw {A} e.

Record result (St X A : Type) : Type := {
  trace : list event;
  out : outcome A;
  final : St;
  world : X
}.

Section Run.

(** The component state and its setters' meaning; the rest of the world
    and how it answers each call. *)
Variables (St X : Type).
Variable react : S -> St -> St.
Variable ext : forall R : Type, cmd R -> X -> R * X.

Definition update {R : Type} (c : cmd R) (st : St) : St :=
  match c with
  | SetState a => react a st
  | _ => st
  end.

Fixpoint run {A : Type} (p : prog A) (st : St) (x : X) : result St X A :=
  match p with
  | Ret a => {| trace := []; out := Returned a; final := st; world := x |}
  | Throw e => {| trace := []; out := Threw e; final := st; world := x |}
  | Vis c k =>
      let rx := ext c x in
      let rest := run (k (fst rx)) (update c st) (snd rx) in
      {| trace := Ev c (fst rx) :: trace rest; out := out rest;
         final := final rest; world := world rest |}
  end.

End Run.

(** ** Reading a trace *)

Definition is_insert (e : event) : bool :=
  match e with Ev (DbInsert _ _ _) _ => true | _ => false end.
Definition is_select (e : event) : bool :=
  match e with Ev (DbSelect _ _ _) _ => true | _ => false end.
Definition is_fetch (e : event) : bool :=
  match e with Ev (Fetch _ _) _ => true | _ => false end.

Definition inserted_row (e : event) : option jsobject :=
  match e with Ev (DbInsert _ _ row) _ => Some row | _ => None end.
Definition selected (e : event) : option Query :=
  match e with Ev (DbSelect _ _ q) _ => Some q | _ => None end.
Definition state_set (e : event) : option S :=
  match e with Ev (SetState a) _ => Some a | _ => None end.

(** The client a database or auth call is made on. *)
Definition client_of (e : event) : option SupabaseClient :=
  match e with
  | Ev (AuthGetUser c) _ | Ev (AuthSignOut c) _ | Ev (DbSelect _ c _) _
  | Ev (DbInsert c _ _) _ | Ev (DbDelete c _ _) _ => Some c
  | _ => None
  end.

(** The error a database call answered with, if it failed. *)
Definition failure_of (e : event) : option PostgrestError :=
  match e with
  | Ev c r =>
      match c in cmd R return R -> option PostgrestError with
      | DbSelect _ _ _ => fun r => error_of r
      | DbInsert _ _ _ => fun r => error_of r
      | DbDelete _ _ _ => fun r => error_of r
      | _ => fun _ => None
      end r
  end.

(** Database and auth calls by kind. *)
Definition db_call_of (e : event) : option db_call :=
  match e with
  | Ev (AuthGetUser _) _ => Some CallGetUser
  | Ev (AuthSignOut _) _ => Some CallSignOut
  | Ev (DbSelect _ _ _) _ => Some CallSelect
  | Ev (DbInsert _ _ _) _ => Some CallInsert
  | Ev (DbDelete _ _ _) _ => Some CallDelete
  | _ => None
  end.

Definition count (p : event -> bool) (t : list event) : nat :=
  List.length (filter p t).

Definition pick {B : Type} (f : event -> option B) (t : list event) : list B :=
  flat_map (fun e => match f e with Some b => [b] | None => [] end) t.

(** The queries issued, the rows handed to [insert], and the errors of the
    selects and of the inserts that failed, each in trace order. *)
Definition queries : list event -> list Query := pick selected.
Definition rows_inserted : list event -> list jsobject := pick inserted_row.
Definition failed_selects (t : list event) : list PostgrestError :=
  pick failure_of (filter is_select t).
Definition failed_inserts (t : list event) : list PostgrestError :=
  pick failure_of (filter is_insert t).

Definition db_calls : list event -> list db_call := pick db_call_of.

Definition select_failed (t : list event) : bool :=
  match failed_selects t with [] => false | _ :: _ => true end.
Definition insert_failed (t : list event) : bool :=
  match failed_inserts t with [] => false | _ :: _ => true end.

End Programs.

Arguments Ret {S A} a.
Arguments Throw {S A} e.
Arguments Alert {S} title message buttons.
Arguments Console {S} level text.
Arguments AuthGetUser {S} c.
Arguments AuthSignOut {S} c.
Arguments DbSelect {S} k c q.
Arguments DbInsert {S} c table row.
Arguments DbDelete {S} c table filters.
Arguments Fetch {S} a url.
Arguments RequestForegroundPermissions {S}.
Arguments GetCurrentPosition {S}.
Arguments Today {S}.
Arguments Returned {A} a.
Arguments Threw {A} e.

Declare Scope prog_scope.
Delimit Scope prog_scope with prog.
Notation "x <- p ;; q" := (bind p (fun x => q))
  (at level 61, p at next level, right associativity) : prog_scope.
Notation "p ;; q" := (bind p (fun _ => q))
  (at level 61, right associativity) : prog_scope.
Open Scope prog_scope.

(* ===================================================================== *)
(** * app/(tabs)/food.tsx *)
(* ===================================================================== *)

Module FoodScreen.
Import FoodState.

Definition FOOD_TABLE : string := "food_entries".

Definition set (a : setter) : prog setter unit := call (SetState a).
Definition alert (title message : template) : prog setter unit :=
  call (Alert title message []).

(** [Math.round(nutrients.find((n) => n.nutrientId === id)?.value || 0)] *)
Definition nutrientValue (id : Z) (nutrients : list Usda.Nutrient) : Z :=
  Math_round
    (orZeroQ
       (match find (fun n => Qeq_bool (Usda.nutrientId n) (inject_Z id))
                   nutrients with
        | Some n => Usda.value n
        | None => None
        end)).

(** The callback of [data.foods?.map] in [searchFoodAPI]. *)
Definition toNutritionInfo (food : Usda.Food) : NutritionInfo.t :=
  let nutrients :=
    match Usda.foodNutrients food with Some l => l | None => [] end in
  {| NutritionInfo.name :=
       match asTruthy (Usda.description food) with
       | Some d => d
       | None => str "Unknown Food"
       end;
     NutritionInfo.calories := nutrientValue 1008 nutrients;
     NutritionInfo.protein := nutrientValue 1003 nutrients;
     NutritionInfo.carbs := nutrientValue 1005 nutrients;
     NutritionInfo.fat := nutrientValue 1004 nutrients |}.

Definition searchFoodAPI (env : ProcessEnv) (query : jsstring) :
  prog setter (list NutritionInfo.t) :=
  match asTruthy (EXPO_PUBLIC_FOOD_API_KEY env) with
  | None =>
      alert [Lit "Error"] [Lit "Food API key not configured"];;
      Ret []
  | Some API_KEY =>
      try_catch
        (if negb (isWellFormed query) then Throw URIError
         else
           response <- await "fetch"
             (Fetch FoodDataCentral
                [Lit "https://api.nal.usda.gov/fdc/v1/foods/search?query=";
                 Enc query; Lit "&api_key="; Str API_KEY;
                 Lit "&pageSize=10"]);;
           if negb (ok response)
           then Throw (Error [Lit "API Error: "; Int (status response)])
           else
             match json response with
             | None => Throw (Rejection "json")
             | Some data =>
                 Ret (match Usda.foods data with
                      | Some foods => map toNutritionInfo foods
                      | None => []
                      end)
             end)
        (fun error =>
           call (Console "error" "Food API Error:");;
           alert [Lit "Error"] [Lit "Failed to search food database"];;
           Ret [])
  end.

(** [sanitizeInput] and the two change handlers. *)
Definition sanitizeInput (input : jsstring) : jsstring :=
  trim (stripMarkup input).

Definition handleFoodNameChange (text : jsstring) : prog setter unit :=
  set (setFoodName (sanitizeInput text)).

Definition handleNotesChange (text : jsstring) : prog setter unit :=
  set (setNotes (sanitizeInput text)).

Definition sumQ {A : Type} (f : A -> Q) (l : list A) : Q :=
  fold_left (fun sum entry => (sum + f entry)%Q) l 0%Q.

Definition countMeal (m : MealType) (l : list FoodEntry.t) : Z :=
  Z.of_nat (List.length
              (filter (fun e => MealType_eqb (FoodEntry.meal_type e) m) l)).

Definition calculateDailySummary (entries : list FoodEntry.t) :
  prog setter unit :=
  isToday <- call Today;;
  let todayEntries :=
    filter (fun e => match FoodEntry.created_at e with
                     | Some c => truthy c && isToday c
                     | None => false
                     end) entries in
  let ratingsSum := sumQ (fun e => orZeroQ (FoodEntry.rating e)) todayEntries in
  set (setDailySummary (Some
    {| DailySummary.totalCalories :=
         sumQ (fun e => orZeroQ (FoodEntry.calories e)) todayEntries;
       DailySummary.totalProtein :=
         sumQ (fun e => orZeroQ (FoodEntry.protein e)) todayEntries;
       DailySummary.totalCarbs :=
         sumQ (fun e => orZeroQ (FoodEntry.carbs e)) todayEntries;
       DailySummary.totalFat :=
         sumQ (fun e => orZeroQ (FoodEntry.fat e)) todayEntries;
       DailySummary.totalFiber :=
         sumQ (fun e => orZeroQ (FoodEntry.fiber e)) todayEntries;
       DailySummary.mealCounts :=
         {| MealCounts.breakfast := countMeal breakfast todayEntries;
            MealCounts.lunch := countMeal lunch todayEntries;
            MealCounts.dinner := countMeal dinner todayEntries;
            MealCounts.snack := countMeal snack todayEntries |};
       DailySummary.averageRating :=
         match todayEntries with
         | [] => 0%Q
         | _ :: _ =>
             (ratingsSum / inject_Z (Z.of_nat (List.length todayEntries)))%Q
         end |})).

Section WithClient.

(** [import { supabase } from '../../lib/supabase'] *)
Variable supabase : SupabaseClient.

(** The effect that loads the user id on mount. *)
Definition getCurrentUser : prog setter unit :=
  user <- call (AuthGetUser supabase);;
  set (setUserId (asTruthy (option_map User.id user))).

(** The functions below close over the state [s] of the render they were
    created in: they read [s] and write through the setters. *)
Definition fetchItems (s : t) : prog setter unit :=
  if negb (truthyOpt (userId s)) then Ret tt
  else
    set (setRefreshing true);;
    set (setError None);;
    r <- call (DbSelect FoodRows supabase
                 (limit 50
                    (order "created_at" false
                       (eq "user_id" (userId s)
                          (from_select FOOD_TABLE "*")))));;
    match error_of r with
    | Some qErr => set (setError (Some (message qErr)))
    | None => Ret tt
    end;;
    set (setItems (match data_of r with Some data => data | None => [] end));;
    match data_of r with
    | Some data => calculateDailySummary data
    | None => Ret tt
    end;;
    set (setRefreshing false).

(** The effect that loads the list once the user id is known. *)
Definition loadOnMount (s : t) : prog setter unit :=
  if truthyOpt (userId s)
  then set (setLoading true);; fetchItems s;; set (setLoading false)
  else Ret tt.

(** The object literal passed to [insert]. *)
Definition foodRow (s : t) (trimmedName : jsstring)
  (caloriesNumber ratingNumber : Z) : jsobject :=
  let selected f := match selectedNutrition s with
                    | Some n => orNull (f n)
                    | None => None
                    end in
  [ ("food_name", VStr trimmedName);
    ("calories", VInt caloriesNumber);
    ("protein", ofInt (selected NutritionInfo.protein));
    ("carbs", ofInt (selected NutritionInfo.carbs));
    ("fat", ofInt (selected NutritionInfo.fat));
    ("fiber", ofInt (selected NutritionInfo.fat));
    ("meal_type", VStr (mealName (mealType s)));
    ("rating", VInt ratingNumber);
    ("notes", ofString (nonEmpty (trim (notes s))));
    ("user_id", ofString (userId s)) ]%string.

Definition addFoodEntry (s : t) : prog setter unit :=
  if negb (truthyOpt (userId s))
  then set (setError (Some (str "User not authenticated")))
  else
    let trimmedName := trim (foodName s) in
    if negb (truthy trimmedName)
    then alert [Lit "Error"] [Lit "Please enter a food name"]
    else if 100 <? length trimmedName
    then alert [Lit "Error"] [Lit "Food name too long (max 100 characters)"]
    else if 500 <? length (notes s)
    then alert [Lit "Error"] [Lit "Notes too long (max 500 characters)"]
    else
      set (setInserting true);;
      set (setError None);;
      let caloriesNumber := orNumber (parseInt (calories s) 10) 0 in
      let ratingNumber :=
        Z.min 5 (Z.max 1 (orNumber (parseInt (rating s) 10) 3)) in
      if (caloriesNumber <? 0) || (10000 <? caloriesNumber)
      then
        alert [Lit "Error"]
              [Lit "Please enter a valid calorie amount (0-10000)"];;
        set (setInserting false)
      else
        r <- call (DbInsert supabase FOOD_TABLE
                     (foodRow s trimmedName caloriesNumber ratingNumber));;
        match error_of r with
        | Some insErr => set (setError (Some (message insErr)))
        | None =>
            alert [Lit "Food Logged!"]
                  [Str trimmedName; Lit " ("; Int caloriesNumber;
                   Lit " cal) added to "; Str (mealName (mealType s))];;
            set (setFoodName []);;
            set (setCalories []);;
            set (setNotes []);;
            set (setSelectedNutrition None)
        end;;
        fetchItems s;;
        set (setInserting false).

(** [clearAllEntries] only opens the confirmation; this is the [onPress]
    of its destructive button. *)
Definition clearAllEntries : prog setter unit :=
  call (Alert [Lit "Clear All Entries"]
          [Lit "Are you sure you want to delete all your food entries? This cannot be undone."]
          ["Cancel"; "Delete All"]%string).

Definition clearAllEntries_onPress (s : t) : prog setter unit :=
  r <- call (DbDelete supabase FOOD_TABLE [("user_id"%string, userId s)]);;
  match error_of r with
  | Some error => alert [Lit "Error"] [Str (message error)]
  | None =>
      alert [Lit "Success"] [Lit "All entries cleared"];;
      fetchItems s
  end.

End WithClient.

(** [selectNutritionItem]; [large] is the one of [Js.toString]. *)
Definition selectNutritionItem (large : Z -> jsstring)
  (nutrition : NutritionInfo.t) : prog setter unit :=
  set (setFoodName (NutritionInfo.name nutrition));;
  set (setCalories (toString large (NutritionInfo.calories nutrition)));;
  set (setSelectedNutrition (Some nutrition));;
  set (setShowNutritionModal false);;
  alert [Lit "Nutrition Info Applied!"]
        [Str (NutritionInfo.name nutrition); Lit ": ";
         Int (NutritionInfo.calories nutrition); Lit " cal, ";
         Int (NutritionInfo.protein nutrition); Lit "g protein, ";
         Int (NutritionInfo.carbs nutrition); Lit "g carbs, ";
         Int (NutritionInfo.fat nutrition); Lit "g fat"].

(** [searchNutrition].  [toLowerCase] stands for
    [String.prototype.toLowerCase], whose Unicode case mapping is not
    modelled; what is proved of [searchNutrition] holds for every such
    function. *)
Definition searchNutrition (toLowerCase : jsstring -> jsstring)
  (env : ProcessEnv) (s : t) : prog setter unit :=
  let query := trim (toLowerCase (foodName s)) in
  if negb (truthy query)
  then alert [Lit "Search"] [Lit "Enter a food name to search nutrition info"]
  else
    set (setNutritionResults []);;
    results <- searchFoodAPI env query;;
    set (setNutritionResults results);;
    set (setShowNutritionModal true).

(** [ratingStars] of [renderFoodItem]: the star U+2B50 repeated
    [item.rating || 0] times. *)
Definition ratingStars (item : FoodEntry.t) : option jsstring :=
  Js.repeat [11088%N] (orZeroQ (FoodEntry.rating item)).

End FoodScreen.

(* ===================================================================== *)
(** * The mood journal *)
(* ===================================================================== *)

(** What [fetchWeather] returns. *)
Record WeatherInfo : Type := {
  weather : option jsstring;
  temperature : option Q
}.

Module MoodScreen.
Import MoodState.

Definition TABLE : string := "data".

Definition set (a : setter) : prog setter unit := call (SetState a).

Section WithClient.

Variable supabase : SupabaseClient.
Variable env : ProcessEnv.

Definition getCurrentUser : prog setter unit :=
  user <- call (AuthGetUser supabase);;
  set (setUserId (asTruthy (option_map User.id user))).

Definition fetchItems (s : t) : prog setter unit :=
  if negb (truthyOpt (userId s)) then Ret tt
  else
    set (setRefreshing true);;
    set (setError None);;
    r <- call (DbSelect MoodRows supabase
                 (limit 50
                    (order "created_at" false
                       (eq "user_id" (userId s) (from_select TABLE "*")))));;
    match error_of r with
    | Some qErr => set (setError (Some (message qErr)))
    | None => Ret tt
    end;;
    set (setItems (match data_of r with Some data => data | None => [] end));;
    set (setRefreshing false).

Definition loadOnMount (s : t) : prog setter unit :=
  if truthyOpt (userId s)
  then set (setLoading true);; fetchItems s;; set (setLoading false)
  else Ret tt.

Definition WEATHER_API_KEY : option jsstring :=
  EXPO_PUBLIC_WEATHER_API_KEY env.

(** The [try] block yields [Some] of what it returns and [None] when
    control leaves it at its end or through the [catch]; the statement
    after it returns the two nulls. *)
Definition fetchWeather (lat lng : Q) : prog setter WeatherInfo :=
  match asTruthy WEATHER_API_KEY with
  | None =>
      call (Console "warn" "Weather API key not configured");;
      Ret {| weather := None; temperature := None |}
  | Some key =>
      returned <-
        try_catch
          (resp <- await "fetch"
             (Fetch OpenWeatherMap
                [Lit "https://api.openweathermap.org/data/2.5/weather?lat=";
                 Num lat; Lit "&lon="; Num lng; Lit "&appid="; Str key;
                 Lit "&units=metric"]);;
           if negb (ok resp)
           then Throw (Error [Lit "Weather API error: "; Int (status resp)])
           else
             match json resp with
             | None => Throw (Rejection "json")
             | Some data =>
                 match OpenWeather.weather data with
                 | Some (first :: _) =>
                     Ret (Some
                            {| weather := OpenWeather.main first;
                               temperature :=
                                 match OpenWeather.data_main data with
                                 | Some m => OpenWeather.temp m
                                 | None => None
                                 end |})
                 | _ => Ret None
                 end
             end)
          (fun err => call (Console "error" "Weather fetch failed:");; Ret None);;
      match returned with
      | Some w => Ret w
      | None => Ret {| weather := None; temperature := None |}
      end
  end.

(** The locals [lat], [lng], [weather], [temperature] of [addItem]. *)
Record Located : Type := {
  lat : option Q;
  lng : option Q;
  loc_weather : option jsstring;
  loc_temperature : option Q
}.

Definition nowhere : Located :=
  {| lat := None; lng := None; loc_weather := None; loc_temperature := None |}.

(** The [if (useLocation)] block.  [fetchWeather] does not throw, so the
    [catch] is only entered from [getCurrentPositionAsync], before any of
    the four locals is assigned. *)
Definition locate (s : t) : prog setter Located :=
  if useLocation s then
    status <- await "requestForegroundPermissionsAsync"
                RequestForegroundPermissions;;
    if Js.eqb status (str "granted") then
      try_catch
        (pos <- await "getCurrentPositionAsync" GetCurrentPosition;;
         w <- fetchWeather (latitude pos) (longitude pos);;
         Ret {| lat := Some (latitude pos); lng := Some (longitude pos);
                loc_weather := weather w;
                loc_temperature := temperature w |})
        (fun locationError =>
           call (Console "warn" "Location fetch failed:");;
           Ret nowhere)
    else Ret nowhere
  else Ret nowhere.

Definition moodRow (s : t) (trimmed : jsstring) (moodNumber : Z)
  (l : Located) : jsobject :=
  [ ("text", VStr trimmed);
    ("mood", VInt moodNumber);
    ("lat", ofNumber (lat l));
    ("lng", ofNumber (lng l));
    ("weather", ofString (loc_weather l));
    ("temperature", ofNumber (loc_temperature l));
    ("user_id", ofString (userId s)) ]%string.

Definition addItem (s : t) : prog setter unit :=
  if negb (truthyOpt (userId s))
  then set (setError (Some (str "User not authenticated")))
  else
    let trimmed := trim (text s) in
    if negb (truthy trimmed) then Ret tt
    else
      set (setInserting true);;
      set (setError None);;
      l <- locate s;;
      let moodNumber := Z.min 5 (Z.max 1 (orNumber (parseInt (mood s) 10) 3)) in
      r <- call (DbInsert supabase TABLE (moodRow s trimmed moodNumber l));;
      match error_of r with
      | Some insErr => set (setError (Some (message insErr)))
      | None =>
          call (Alert [Lit "Success! "; Str [9989%N]]
                  ([Lit "Mood "; Int moodNumber; Lit " entry saved"]
                   ++ match asTruthy (loc_weather l) with
                      | Some w => [Lit " with "; Str w; Lit " weather"]
                      | None => []
                      end)
                  [])
      end;;
      set (setText []);;
      fetchItems s;;
      set (setInserting false).

End WithClient.

(** The five faces of [renderItem], as surrogate pairs: U+1F622, U+1F615,
    U+1F610, U+1F60A, U+1F604. *)
Definition faces : list jsstring :=
  [[55357; 56866]; [55357; 56853]; [55357; 56848]; [55357; 56842];
   [55357; 56836]]%N.

(** [moodEmoji] of [renderItem]:
    [item.mood ? faces[item.mood - 1] : '']; [None] is [undefined]. *)
Definition moodEmoji (item : Entry.t) : option jsstring :=
  match Entry.mood item with
  | Some mood =>
      if Qnum mood =? 0 then Some []
      else at_index faces (mood - 1)%Q
  | None => Some []
  end.

End MoodScreen.

(* ===================================================================== *)
(** * The earlier mood journal *)
(* ===================================================================== *)

(** The second [HomeScreen]: no user, no temperature, a key in the source
    text, and a [fetchWeather] that returns the condition alone. *)
Module LegacyScreen.
Import LegacyState.

Definition TABLE : string := "data".

Definition set (a : setter) : prog setter unit := call (SetState a).

Definition WEATHER_API_KEY : jsstring := str "bfbe90ac8554b36605cc11902e437ef7".

Definition fetchWeather (lat lng : Q) : prog setter (option jsstring) :=
  returned <-
    try_catch
      (resp <- await "fetch"
         (Fetch OpenWeatherMap
            [Lit "https://api.openweathermap.org/data/2.5/weather?lat=";
             Num lat; Lit "&lon="; Num lng; Lit "&appid=";
             Str WEATHER_API_KEY; Lit "&units=metric"]);;
       match json resp with
       | None => Throw (Rejection "json")
       | Some data =>
           match OpenWeather.weather data with
           | Some (first :: _) => Ret (Some (OpenWeather.main first))
           | _ => Ret None
           end
       end)
      (fun err => call (Console "log" "Weather fetch failed:");; Ret None);;
  match returned with
  | Some w => Ret w
  | None => Ret None
  end.

Section WithClient.

Variable supabase : SupabaseClient.

Definition fetchItems : prog setter unit :=
  set (setRefreshing true);;
  set (setError None);;
  r <- call (DbSelect LegacyRows supabase
               (limit 50 (order "created_at" false (from_select TABLE "*"))));;
  match error_of r with
  | Some qErr => set (setError (Some (message qErr)))
  | None => Ret tt
  end;;
  set (setItems (match data_of r with Some data => data | None => [] end));;
  set (setRefreshing false).

Definition loadOnMount : prog setter unit :=
  set (setLoading true);; fetchItems;; set (setLoading false).

(** The locals [lat], [lng], [weather] of [addItem]; nothing here is inside
    a [try]. *)
Definition locate (s : t) :
  prog setter (option Q * option Q * option jsstring) :=
  if useLocation s then
    status <- await "requestForegroundPermissionsAsync"
                RequestForegroundPermissions;;
    if Js.eqb status (str "granted") then
      pos <- await "getCurrentPositionAsync" GetCurrentPosition;;
      weather <- fetchWeather (latitude pos) (longitude pos);;
      Ret (Some (latitude pos), Some (longitude pos), weather)
    else Ret (None, None, None)
  else Ret (None, None, None).

Definition legacyRow (trimmed : jsstring) (moodNumber : Z)
  (l : option Q * option Q * option jsstring) : jsobject :=
  let '(lat, lng, weather) := l in
  [ ("text", VStr trimmed);
    ("mood", VInt moodNumber);
    ("lat", ofNumber lat);
    ("lng", ofNumber lng);
    ("weather", ofString weather) ]%string.

Definition addItem (s : t) : prog setter unit :=
  let trimmed := trim (text s) in
  if negb (truthy trimmed) then Ret tt
  else
    set (setInserting true);;
    set (setError None);;
    l <- locate s;;
    let moodNumber := Z.min 5 (Z.max 1 (orNumber (parseInt (mood s) 10) 3)) in
    r <- call (DbInsert supabase TABLE (legacyRow trimmed moodNumber l));;
    match error_of r with
    | Some insErr => set (setError (Some (message insErr)))
    | None => Ret tt
    end;;
    set (setText []);;
    fetchItems;;
    set (setInserting false).

End WithClient.

End LegacyScreen.

(* ===================================================================== *)
(** * The profile screen *)
(* ===================================================================== *)

Module ProfileScreen.
Import ProfileState.

Definition set (a : setter) : prog setter unit := call (SetState a).

Section WithClient.

Variable supabase : SupabaseClient.

Definition getUser : prog setter unit :=
  user <- call (AuthGetUser supabase);;
  set (setUser user);;
  set (setLoading false).

(** [handleLogout] opens the confirmation; [handleLogout_onPress] is the
    [onPress] of its destructive button. *)
Definition handleLogout : prog setter unit :=
  call (Alert [Lit "Logout"] [Lit "Are you sure you want to logout?"]
          ["Cancel"; "Logout"]%string).

Definition handleLogout_onPress : prog setter unit :=
  error <- call (AuthSignOut supabase);;
  match error with
  | Some error => call (Alert [Lit "Error"] [Str (auth_message error)] [])
  | None => Ret tt
  end.

End WithClient.

End ProfileScreen.

(** ** The application

    Every screen imports the one [supabase] of lib/supabase.ts, so the
    screens exist only when evaluating that module completes normally. *)
Record Screens : Type := {
  client : SupabaseClient;
  food_fetchItems : FoodState.t -> prog FoodState.setter unit;
  food_addFoodEntry : FoodState.t -> prog FoodState.setter unit;
  food_getCurrentUser : prog FoodState.setter unit;
  food_clearAllEntries_onPress : FoodState.t -> prog FoodState.setter unit;
  mood_fetchItems : MoodState.t -> prog MoodState.setter unit;
  mood_addItem : MoodState.t -> prog MoodState.setter unit;
  mood_getCurrentUser : prog MoodState.setter unit;
  legacy_fetchItems : prog LegacyState.setter unit;
  legacy_addItem : LegacyState.t -> prog LegacyState.setter unit;
  profile_getUser : prog ProfileState.setter unit;
  profile_handleLogout_onPress : prog ProfileState.setter unit
}.

Definition app (sdk : SupabaseJs) (env : ProcessEnv) : completion Screens :=
  match Supabase.supabase sdk env with
  | ThrowError m => ThrowError m
  | Normal supabase =>
      Normal
        {| client := supabase;
           food_fetchItems := FoodScreen.fetchItems supabase;
           food_addFoodEntry := FoodScreen.addFoodEntry supabase;
           food_getCurrentUser := FoodScreen.getCurrentUser supabase;
           food_clearAllEntries_onPress :=
             FoodScreen.clearAllEntries_onPress supabase;
           mood_fetchItems := MoodScreen.fetchItems supabase;
           mood_addItem := MoodScreen.addItem supabase env;
           mood_getCurrentUser := MoodScreen.getCurrentUser supabase;
           legacy_fetchItems := LegacyScreen.fetchItems supabase;
           legacy_addItem := LegacyScreen.addItem supabase;
           profile_getUser := ProfileScreen.getUser supabase;
           profile_handleLogout_onPress :=
             ProfileScreen.handleLogout_onPress supabase |}
  end.

(* ===================================================================== *)
(** * A scripted world *)
(* ===================================================================== *)

(** A world that gives every call of one kind the same answer; it serves
    to run the screens on concrete inputs. *)
Record Script : Type := {
  user : option User.t;
  signedOut : option AuthError;
  foodRows : PostgrestResponse (list FoodEntry.t);
  moodRows : PostgrestResponse (list Entry.t);
  legacyRows : PostgrestResponse (list LegacyEntry.t);
  inserted : PostgrestResponse unit;
  deleted : PostgrestResponse unit;
  usda : option (Response Usda.SearchResult);
  openWeather : option (Response OpenWeather.Data);
  permission : option jsstring;
  position : option Coords;
  today : jsstring -> bool
}.

Definition answer (S : Type) (sc : Script) (R : Type) (c : cmd S R) : R :=
  match c in cmd _ R return R with
  | SetState _ => tt
  | Alert _ _ _ => tt
  | Console _ _ => tt
  | AuthGetUser _ => user sc
  | AuthSignOut _ => signedOut sc
  | DbSelect k _ _ =>
      match k return PostgrestResponse (rows k) with
      | FoodRows => foodRows sc
      | MoodRows => moodRows sc
      | LegacyRows => legacyRows sc
      end
  | DbInsert _ _ _ => inserted sc
  | DbDelete _ _ _ => deleted sc
  | Fetch a _ =>
      match a return option (Response (body a)) with
      | FoodDataCentral => usda sc
      | OpenWeatherMap => openWeather sc
      end
  | RequestForegroundPermissions => permission sc
  | GetCurrentPosition => position sc
  | Today => today sc
  end.

Definition scripted (S : Type) (sc : Script) (R : Type) (c : cmd S R)
  (x : unit) : R * unit :=
  (answer sc c, x).

(* ===================================================================== *)
(** * Vocabulary of the statements *)
(* ===================================================================== *)

(** The one query [fetchItems] can issue for user [u] on [table]. *)
Definition userQuery (table : string) (u : option jsstring) : Query :=
  {| q_table := table; q_columns := "*";
     q_eq := [("user_id"%string, u)];
     q_order := [("created_at"%string, false)];
     q_limit := Some 50 |}.

(** [caloriesNumber] and [ratingNumber] of [addFoodEntry], [moodNumber] of
    [addItem]: the expressions of the source, named. *)
Definition caloriesNumber (s : FoodState.t) : Z :=
  orNumber (parseInt (FoodState.calories s) 10) 0.

Definition clamped (raw : jsstring) : Z :=
  Z.min 5 (Z.max 1 (orNumber (parseInt raw 10) 3)).

(** The conditions the specification lists for a food entry: a user id is
    present, the trimmed name is non-empty and at most 100 code units long,
    the notes are at most 500 long, the parsed calories lie in
    [0, 10000]. *)
Definition foodFormValid (s : FoodState.t) : bool :=
  truthyOpt (FoodState.userId s)
  && truthy (trim (FoodState.foodName s))
  && (length (trim (FoodState.foodName s)) <=? 100)
  && (length (FoodState.notes s) <=? 500)
  && ((0 <=? caloriesNumber s) && (caloriesNumber s <=? 10000)).

(** The conditions it lists for a mood entry: a user id is present and the
    trimmed text is non-empty. *)
Definition moodFormValid (s : MoodState.t) : bool :=
  truthyOpt (MoodState.userId s) && truthy (trim (MoodState.text s)).

(** ** More readings of a trace *)

Definition is_alert {S : Type} (e : event S) : bool :=
  match e with Ev (Alert _ _ _) _ => true | _ => false end.

Definition is_delete {S : Type} (e : event S) : bool :=
  match e with Ev (DbDelete _ _ _) _ => true | _ => false end.

(** The filters of the delete calls. *)
Definition deleted_where {S : Type} (e : event S) :
  option (string * list (string * option jsstring)) :=
  match e with
  | Ev (DbDelete _ table filters) _ => Some (table, filters)
  | _ => None
  end.

(** The promise of [requestForegroundPermissionsAsync], respectively of
    [getCurrentPositionAsync], was awaited and rejected. *)
Definition permission_rejected {S : Type} (t : list (event S)) : bool :=
  existsb (fun e =>
    match e with
    | Ev c r =>
        match c in cmd _ R return R -> bool with
        | RequestForegroundPermissions =>
            fun r => match r with None => true | Some _ => false end
        | _ => fun _ => false
        end r
    end) t.

Definition position_rejected {S : Type} (t : list (event S)) : bool :=
  existsb (fun e =>
    match e with
    | Ev c r =>
        match c in cmd _ R return R -> bool with
        | GetCurrentPosition =>
            fun r => match r with None => true | Some _ => false end
        | _ => fun _ => false
        end r
    end) t.

(** A call into expo-location or an HTTP request. *)
Definition is_location_or_http {S : Type} (e : event S) : bool :=
  match e with
  | Ev RequestForegroundPermissions _ | Ev GetCurrentPosition _
  | Ev (Fetch _ _) _ => true
  | _ => false
  end.

(** The entries [calculateDailySummary] counts: those with a [created_at]
    that the clock's answer places on today. *)
Definition of_today (isToday : jsstring -> bool) (entries : list FoodEntry.t) :
  list FoodEntry.t :=
  filter (fun e => match FoodEntry.created_at e with
                   | Some c => truthy c && isToday c
                   | None => false
                   end) entries.

(** ** Traces of an add operation

    The add operations of the three entry screens share one outline: some
    calls that do not touch the database, then the insert, the handling of
    its answer, the refresh, and the setter that ends the operation. *)
Section AddTraces.

Context {S : Type}.

Definition setEv (a : S) : event S := Ev (SetState a) tt.

(** An event that is not a call on the Supabase client. *)
Definition silent (e : event S) : Prop := db_call_of e = None.

(** Every database and auth call of the trace is made on [c]. *)
Definition on_client (c : SupabaseClient) (t : list (event S)) : Prop :=
  Forall (fun e => match client_of e with
                   | Some c' => c' = c
                   | None => True
                   end) t.

Variable setError : option jsstring -> S.

(** Every failed database call of the trace is followed at once by the
    error setter applied to the message of its error. *)
Fixpoint error_propagated (t : list (event S)) : Prop :=
  match t with
  | [] => True
  | e :: rest =>
      match failure_of e with
      | Some err =>
          match rest with
          | next :: _ => state_set next = Some (setError (Some (message err)))
          | [] => False
          end
      | None => True
      end
      /\ error_propagated rest
  end.

Variable supabase : SupabaseClient.
Variable table : string.
Variable row_ok : jsobject -> Prop.
Variable refresh : list (event S) -> Prop.
Variable done : S.

(** What follows the insert: the error setter when it failed, calls that
    do not touch the database when it succeeded. *)
Inductive handled : PostgrestResponse unit -> list (event S) -> Prop :=
| handled_failure : forall e,
    handled (Failure e) [setEv (setError (Some (message e)))]
| handled_success : forall u l,
    Forall silent l -> handled (Success u) l.

(** The operation from the insert on; empty when it ended before. *)
Inductive add_tail : list (event S) -> Prop :=
| add_ended : add_tail []
| add_inserted : forall row ans handling between fetched,
    row_ok row ->
    handled ans handling ->
    Forall silent between ->
    refresh fetched ->
    add_tail (Ev (DbInsert supabase table row) ans
                :: handling ++ between ++ fetched ++ [setEv done]).

Inductive add_trace : list (event S) -> Prop :=
| add_trace_intro : forall before tail,
    Forall silent before -> add_tail tail -> add_trace (before ++ tail).

End AddTraces.

(** The rows the three screens build, and the traces of their refresh. *)
Definition food_row_ok (s : FoodState.t) (row : jsobject) : Prop :=
  foodFormValid s = true
  /\ row = FoodScreen.foodRow s (trim (FoodState.foodName s))
             (caloriesNumber s) (clamped (FoodState.rating s)).

Definition mood_row_ok (s : MoodState.t) (row : jsobject) : Prop :=
  moodFormValid s = true
  /\ exists l, row = MoodScreen.moodRow s (trim (MoodState.text s))
                       (clamped (MoodState.mood s)) l.

Definition legacy_row_ok (s : LegacyState.t) (row : jsobject) : Prop :=
  truthy (trim (LegacyState.text s)) = true
  /\ exists l, row = LegacyScreen.legacyRow (trim (LegacyState.text s))
                       (clamped (LegacyState.mood s)) l.

Definition food_refresh (supabase : SupabaseClient) (X : Type)
  (ext : forall R, cmd FoodState.setter R -> X -> R * X) (s : FoodState.t)
  (t : list (event FoodState.setter)) : Prop :=
  truthyOpt (FoodState.userId s) = true
  /\ exists st x,
      t = trace (run FoodState.apply ext (FoodScreen.fetchItems supabase s)
                   st x).

Definition mood_refresh (supabase : SupabaseClient) (X : Type)
  (ext : forall R, cmd MoodState.setter R -> X -> R * X) (s : MoodState.t)
  (t : list (event MoodState.setter)) : Prop :=
  truthyOpt (MoodState.userId s) = true
  /\ exists st x,
      t = trace (run MoodState.apply ext (MoodScreen.fetchItems supabase s)
                   st x).

Definition legacy_refresh (supabase : SupabaseClient) (X : Type)
  (ext : forall R, cmd LegacyState.setter R -> X -> R * X)
  (t : list (event LegacyState.setter)) : Prop :=
  exists st x,
    t = trace (run LegacyState.apply ext (LegacyScreen.fetchItems supabase)
                 st x).

(** ** The two third-party requests *)

Definition openWeatherUrl (key : jsstring) (lat lng : Q) : template :=
  [Lit "https://api.openweathermap.org/data/2.5/weather?lat="; Num lat;
   Lit "&lon="; Num lng; Lit "&appid="; Str key; Lit "&units=metric"].

Definition usdaUrl (key query : jsstring) : template :=
  [Lit "https://api.nal.usda.gov/fdc/v1/foods/search?query="; Enc query;
   Lit "&api_key="; Str key; Lit "&pageSize=10"].

Definition nulls : WeatherInfo := {| weather := None; temperature := None |}.

(** The weather the specification describes for an answer to the one
    request: the first condition's [main] and [main.temp] (or [null]) when
    the response is ok and its body has a non-empty [weather] array; two
    nulls for a request that failed, a response that is not ok, a body
    that cannot be read, and a missing or empty [weather] array. *)
Definition described_weather
  (answer : option (Response OpenWeather.Data)) : WeatherInfo :=
  match answer with
  | None => nulls
  | Some resp =>
      if ok resp then
        match json resp with
        | None => nulls
        | Some data =>
            match OpenWeather.weather data with
            | Some (first :: _) =>
                {| weather := OpenWeather.main first;
                   temperature :=
                     match OpenWeather.data_main data with
                     | Some m => OpenWeather.temp m
                     | None => None
                     end |}
            | _ => nulls
            end
        end
      else nulls
  end.

(** What the earlier [fetchWeather] returns for an answer: the first
    condition's [main] whenever the body can be read and has a non-empty
    [weather] array, whatever the status. *)
Definition described_condition
  (answer : option (Response OpenWeather.Data)) : option jsstring :=
  match answer with
  | None => None
  | Some resp =>
      match json resp with
      | None => None
      | Some data =>
          match OpenWeather.weather data with
          | Some (first :: _) => OpenWeather.main first
          | _ => None
          end
      end
  end.

(** The nutrient the specification describes: the rounded value of the
    first nutrient with the given id, 0 when there is none or it has no
    value. *)
Definition described_nutrient (id : Z) (food : Usda.Food) : Z :=
  match Usda.foodNutrients food with
  | None => 0
  | Some nutrients =>
      match find (fun n => Qeq_bool (Usda.nutrientId n) (inject_Z id))
                 nutrients with
      | None => 0
      | Some n =>
          match Usda.value n with
          | Some v => Math_round v
          | None => 0
          end
      end
  end.

Definition described_food (food : Usda.Food) : NutritionInfo.t :=
  {| NutritionInfo.name :=
       match Usda.description food with
       | Some d => if truthy d then d else str "Unknown Food"
       | None => str "Unknown Food"
       end;
     NutritionInfo.calories := described_nutrient 1008 food;
     NutritionInfo.protein := described_nutrient 1003 food;
     NutritionInfo.carbs := described_nutrient 1005 food;
     NutritionInfo.fat := described_nutrient 1004 food |}.

(** The foods in the answer to the search, if it has any to give. *)
Definition foods_of (answer : option (Response Usda.SearchResult)) :
  option (list Usda.Food) :=
  match answer with
  | None => None
  | Some resp =>
      if ok resp then
        match json resp with
        | None => None
        | Some data => Usda.foods data
        end
      else None
  end.

(** The cases in which the specification says the search returns the
    empty list, the missing key apart: the request failed, the response is
    not ok, the body cannot be read, or it has no [foods] array. *)
Definition claimed_empty (answer : option (Response Usda.SearchResult)) :
  bool :=
  match answer with
  | None => true
  | Some resp =>
      negb (ok resp)
      || match json resp with
         | None => true
         | Some data =>
             match Usda.foods data with
             | None => true
             | Some _ => false
             end
         end
  end.

Definition is_nil {A : Type} (l : list A) : bool :=
  match l with [] => true | _ :: _ => false end.

(** Every database and auth call made by a function of the screens, in
    any world and from any state, is made on [c]. *)
Definition screens_call_on (c : SupabaseClient) (scr : Screens) : Prop :=
  forall (X : Type)
    (extF : forall R, cmd FoodState.setter R -> X -> R * X)
    (extM : forall R, cmd MoodState.setter R -> X -> R * X)
    (extL : forall R, cmd LegacyState.setter R -> X -> R * X)
    (extP : forall R, cmd ProfileState.setter R -> X -> R * X)
    (x : X) (sF liveF : FoodState.t) (sM liveM : MoodState.t)
    (sL liveL : LegacyState.t) (liveP : ProfileState.t),
    on_client c
      (trace (run FoodState.apply extF (food_fetchItems scr sF) liveF x))
    /\ on_client c
         (trace (run FoodState.apply extF (food_addFoodEntry scr sF) liveF x))
    /\ on_client c
         (trace (run FoodState.apply extF (food_getCurrentUser scr) liveF x))
    /\ on_client c
         (trace (run FoodState.apply extF
                   (food_clearAllEntries_onPress scr sF) liveF x))
    /\ on_client c
         (trace (run MoodState.apply extM (mood_fetchItems scr sM) liveM x))
    /\ on_client c
         (trace (run MoodState.apply extM (mood_addItem scr sM) liveM x))
    /\ on_client c
         (trace (run MoodState.apply extM (mood_getCurrentUser scr) liveM x))
    /\ on_client c
         (trace (run LegacyState.apply extL (legacy_fetchItems scr) liveL x))
    /\ on_client c
         (trace (run LegacyState.apply extL (legacy_addItem scr sL) liveL x))
    /\ on_client c
         (trace (run ProfileState.apply extP (profile_getUser scr) liveP x))
    /\ on_client c
         (trace (run ProfileState.apply extP
                   (profile_handleLogout_onPress scr) liveP x)).

(* ===================================================================== *)
(** * Concrete worlds and states *)
(* ===================================================================== *)

(** Everything succeeds and comes back empty. *)
Definition quiet : Script :=
  {| user := None; signedOut := None;
     foodRows := Success []; moodRows := Success [];
     legacyRows := Success [];
     inserted := Success tt; deleted := Success tt;
     usda := None; openWeather := None;
     permission := Some (str "denied"); position := None;
     today := fun _ => true |}.

Definition someClient : SupabaseClient :=
  {| supabaseUrl := str "https://project.supabase.co";
     supabaseKey := str "anon" |}.

(** A library that accepts the URLs that start with 'http://' or
    'https://'. *)
Definition startsWith (prefix s : jsstring) : bool :=
  Js.eqb (firstn (List.length prefix) s) prefix.

Definition httpOnly : SupabaseJs :=
  {| acceptsUrl := fun url =>
       startsWith (str "http://") url || startsWith (str "https://") url;
     refusal := fun _ =>
       str "Invalid supabaseUrl: Must be a valid HTTP or HTTPS URL." |}.

Definition alice : FoodState.t :=
  FoodState.apply (FoodState.setUserId (Some (str "u1")))
    (FoodState.apply (FoodState.setFoodName (str "Apple"))
       (FoodState.apply (FoodState.setCalories (str "52")) FoodState.initial)).

Definition boom : PostgrestError :=
  {| message := str "permission denied for table"; code := str "42501" |}.

(** The database refuses every select, respectively every insert. *)
Definition selectFails : Script :=
  {| user := user quiet; signedOut := signedOut quiet;
     foodRows := Failure boom; moodRows := Failure boom;
     legacyRows := Failure boom;
     inserted := inserted quiet; deleted := deleted quiet;
     usda := usda quiet; openWeather := openWeather quiet;
     permission := permission quiet; position := position quiet;
     today := today quiet |}.

Definition insertFails : Script :=
  {| user := user quiet; signedOut := signedOut quiet;
     foodRows := foodRows quiet; moodRows := moodRows quiet;
     legacyRows := legacyRows quiet;
     inserted := Failure boom; deleted := deleted quiet;
     usda := usda quiet; openWeather := openWeather quiet;
     permission := permission quiet; position := position quiet;
     today := today quiet |}.

Definition yesterdaysToast : FoodEntry.t :=
  {| FoodEntry.id := str "1"; FoodEntry.food_name := str "Toast";
     FoodEntry.calories := Some 80%Q; FoodEntry.protein := None;
     FoodEntry.carbs := None; FoodEntry.fat := None;
     FoodEntry.fiber := None; FoodEntry.meal_type := breakfast;
     FoodEntry.rating := Some 4%Q; FoodEntry.notes := None;
     FoodEntry.created_at := Some (str "2025-01-01T08:00:00Z");
     FoodEntry.user_id := str "u1" |}.

(** [alice] with one entry already on screen. *)
Definition aliceListed : FoodState.t :=
  FoodState.apply (FoodState.setItems [yesterdaysToast]) alice.

Definition bob : MoodState.t :=
  MoodState.apply (MoodState.setUserId (Some (str "u2")))
    (MoodState.apply (MoodState.setText (str " fine ")) MoodState.initial).

Definition yesterdaysMood : Entry.t :=
  {| Entry.id := str "7"; Entry.text := str "tired"; Entry.mood := Some 2%Q;
     Entry.created_at := Some (str "2025-01-01T08:00:00Z");
     Entry.lat := None; Entry.lng := None; Entry.weather := None;
     Entry.temperature := None; Entry.user_id := str "u2" |}.

Definition bobListed : MoodState.t :=
  MoodState.apply (MoodState.setItems [yesterdaysMood]) bob.

Definition carol : LegacyState.t :=
  LegacyState.apply (LegacyState.setText (str "ok")) LegacyState.initial.

(** An apple as the nutrition search returns it: its 0.17 g of fat round
    to 0. *)
Definition apple : NutritionInfo.t :=
  {| NutritionInfo.name := str "Apple"; NutritionInfo.calories := 52;
     NutritionInfo.protein := 0; NutritionInfo.carbs := 14;
     NutritionInfo.fat := 0 |}.

Definition aliceWithApple : FoodState.t :=
  FoodState.apply (FoodState.setSelectedNutrition (Some apple)) alice.

Definition noKeys : ProcessEnv :=
  {| EXPO_PUBLIC_SUPABASE_URL := None; EXPO_PUBLIC_SUPABASE_KEY := None;
     EXPO_PUBLIC_FOOD_API_KEY := None; EXPO_PUBLIC_WEATHER_API_KEY := None |}.

Definition allKeys : ProcessEnv :=
  {| EXPO_PUBLIC_SUPABASE_URL := Some (str "https://project.supabase.co");
     EXPO_PUBLIC_SUPABASE_KEY := Some (str "anon");
     EXPO_PUBLIC_FOOD_API_KEY := Some (str "usda-key");
     EXPO_PUBLIC_WEATHER_API_KEY := Some (str "owm-key") |}.

(** Both variables set, the URL to something that is not one. *)
Definition notAUrl : ProcessEnv :=
  {| EXPO_PUBLIC_SUPABASE_URL := Some (str "not a url");
     EXPO_PUBLIC_SUPABASE_KEY := Some (str "anon");
     EXPO_PUBLIC_FOOD_API_KEY := None;
     EXPO_PUBLIC_WEATHER_API_KEY := None |}.

(** A server error whose body nevertheless carries a weather array. *)
Definition rainyError : Script :=
  {| user := user quiet; signedOut := signedOut quiet;
     foodRows := foodRows quiet; moodRows := moodRows quiet;
     legacyRows := legacyRows quiet;
     inserted := inserted quiet; deleted := deleted quiet;
     usda := usda quiet;
     openWeather :=
       Some {| ok := false; status := 500;
               json := Some {| OpenWeather.weather :=
                                 Some [{| OpenWeather.main :=
                                            Some (str "Rain") |}];
                               OpenWeather.data_main := None |} |};
     permission := permission quiet; position := position quiet;
     today := today quiet |}.

(** The same body with status 200 and a temperature. *)
Definition rainy : Script :=
  {| user := user quiet; signedOut := signedOut quiet;
     foodRows := foodRows quiet; moodRows := moodRows quiet;
     legacyRows := legacyRows quiet;
     inserted := inserted quiet; deleted := deleted quiet;
     usda := usda quiet;
     openWeather :=
       Some {| ok := true; status := 200;
               json := Some {| OpenWeather.weather :=
                                 Some [{| OpenWeather.main :=
                                            Some (str "Rain") |}];
                               OpenWeather.data_main :=
                                 Some {| OpenWeather.temp :=
                                           Some (25 # 2)%Q |} |} |};
     permission := Some (str "granted");
     position := Some {| latitude := 52%Q; longitude := 13%Q |};
     today := today quiet |}.

(** A search that matches nothing: status 200 and an empty [foods]
    array. *)
Definition noMatch : Script :=
  {| user := user quiet; signedOut := signedOut quiet;
     foodRows := foodRows quiet; moodRows := moodRows quiet;
     legacyRows := legacyRows quiet;
     inserted := inserted quiet; deleted := deleted quiet;
     usda := Some {| ok := true; status := 200;
                     json := Some {| Usda.foods := Some [] |} |};
     openWeather := openWeather quiet;
     permission := permission quiet; position := position quiet;
     today := today quiet |}.

(** A search that finds an apple. *)
Definition appleFound : Script :=
  {| user := user quiet; signedOut := signedOut quiet;
     foodRows := foodRows quiet; moodRows := moodRows quiet;
     legacyRows := legacyRows quiet;
     inserted := inserted quiet; deleted := deleted quiet;
     usda :=
       Some {| ok := true; status := 200;
               json :=
                 Some {| Usda.foods :=
                   Some [{| Usda.description := Some (str "Apple");
                            Usda.foodNutrients :=
                              Some [{| Usda.nutrientId := 1003%Q;
                                       Usda.value := Some (26 # 100)%Q |};
                                    {| Usda.nutrientId := 1004%Q;
                                       Usda.value := Some (17 # 100)%Q |};
                                    {| Usda.nutrientId := 1005%Q;
                                       Usda.value := Some (1381 # 100)%Q |};
                                    {| Usda.nutrientId := 1008%Q;
                                       Usda.value := Some 52%Q |}] |}] |} |};
     openWeather := openWeather quiet;
     permission := permission quiet; position := position quiet;
     today := today quiet |}.

(** [aliceListed] with a daily summary on screen. *)
Definition aliceSummarised : FoodState.t :=
  FoodState.apply
    (FoodState.setDailySummary
       (Some {| DailySummary.totalCalories := 80%Q;
                DailySummary.totalProtein := 0%Q;
                DailySummary.totalCarbs := 0%Q;
                DailySummary.totalFat := 0%Q;
                DailySummary.totalFiber := 0%Q;
                DailySummary.mealCounts :=
                  {| MealCounts.breakfast := 1; MealCounts.lunch := 0;
                     MealCounts.dinner := 0; MealCounts.snack := 0 |};
                DailySummary.averageRating := 4%Q |}))
    aliceListed.

(** An entry that was stored without a timestamp. *)
Definition undatedToast : FoodEntry.t :=
  {| FoodEntry.id := str "2"; FoodEntry.food_name := str "Toast";
     FoodEntry.calories := Some 80%Q; FoodEntry.protein := None;
     FoodEntry.carbs := None; FoodEntry.fat := None;
     FoodEntry.fiber := None; FoodEntry.meal_type := breakfast;
     FoodEntry.rating := Some 4%Q; FoodEntry.notes := None;
     FoodEntry.created_at := None;
     FoodEntry.user_id := str "u1" |}.

(** The summary of a day without entries. *)
Definition emptyDay : DailySummary.t :=
  {| DailySummary.totalCalories := 0%Q; DailySummary.totalProtein := 0%Q;
     DailySummary.totalCarbs := 0%Q; DailySummary.totalFat := 0%Q;
     DailySummary.totalFiber := 0%Q;
     DailySummary.mealCounts :=
       {| MealCounts.breakfast := 0; MealCounts.lunch := 0;
          MealCounts.dinner := 0; MealCounts.snack := 0 |};
     DailySummary.averageRating := 0%Q |}.

(** The location prompt fails. *)
Definition promptFails : Script :=
  {| user := user quiet; signedOut := signedOut quiet;
     foodRows := foodRows quiet; moodRows := moodRows quiet;
     legacyRows := legacyRows quiet;
     inserted := inserted quiet; deleted := deleted quiet;
     usda := usda quiet; openWeather := openWeather quiet;
     permission := None; position := position quiet;
     today := today quiet |}.

(** The prompt is granted and no position can be had. *)
Definition noPosition : Script :=
  {| user := user quiet; signedOut := signedOut quiet;
     foodRows := foodRows quiet; moodRows := moodRows quiet;
     legacyRows := legacyRows quiet;
     inserted := inserted quiet; deleted := deleted quiet;
     usda := usda quiet; openWeather := openWeather quiet;
     permission := Some (str "granted"); position := None;
     today := today quiet |}.

(** The delete is refused. *)
Definition deleteFails : Script :=
  {| user := user quiet; signedOut := signedOut quiet;
     foodRows := foodRows quiet; moodRows := moodRows quiet;
     legacyRows := legacyRows quiet;
     inserted := inserted quiet; deleted := Failure boom;
     usda := usda quiet; openWeather := openWeather quiet;
     permission := permission quiet; position := position quiet;
     today := today quiet |}.

Definition bobLocated : MoodState.t :=
  MoodState.apply (MoodState.setUseLocation true) bob.

Definition carolLocated : LegacyState.t :=
  LegacyState.apply (LegacyState.setUseLocation true) carol.

(** A row with both coordinates, or with neither and then without weather
    and temperature.  [fields] lists the weather columns of the table. *)
Definition unlocated (fields : list string) (row : jsobject) : Prop :=
  get "lat" row = Some VNull /\ get "lng" row = Some VNull
  /\ Forall (fun k => get k row = Some VNull) fields.

Definition location_consistent (fields : list string) (row : jsobject) :
  Prop :=
  (exists lat lng,
      get "lat" row = Some (VNum lat) /\ get "lng" row = Some (VNum lng))
  \/ unlocated fields row.

(** Entries as the add operations store them: a mood, a rating of 4. *)
Definition storedMood : Entry.t :=
  {| Entry.id := str "8"; Entry.text := str "fine";
     Entry.mood := Some (inject_Z (clamped (str "4")));
     Entry.created_at := Some (str "2025-01-02T08:00:00Z");
     Entry.lat := None; Entry.lng := None; Entry.weather := None;
     Entry.temperature := None; Entry.user_id := str "u2" |}.

Definition storedToast : FoodEntry.t :=
  {| FoodEntry.id := str "3"; FoodEntry.food_name := str "Toast";
     FoodEntry.calories := Some 80%Q; FoodEntry.protein := None;
     FoodEntry.carbs := None; FoodEntry.fat := None;
     FoodEntry.fiber := None; FoodEntry.meal_type := breakfast;
     FoodEntry.rating := Some (inject_Z (clamped (str "4")));
     FoodEntry.notes := None;
     FoodEntry.created_at := Some (str "2025-01-02T08:00:00Z");
     FoodEntry.user_id := str "u1" |}.

(** Signed-in users with an empty form. *)
Definition aliceNoName : FoodState.t :=
  FoodState.apply (FoodState.setFoodName (str "   ")) alice.

Definition bobNoText : MoodState.t :=
  MoodState.apply (MoodState.setText (str "  ")) bob.

(* ===================================================================== *)
(** * Tactics *)
(* ===================================================================== *)

(** Case analysis on whatever a run still branches on: a test of the
    state, or an answer of the world. *)
Ltac split_on e :=
  lazymatch e with
  | negb ?b => split_on b
  | andb ?a _ => split_on a
  | orb ?a _ => split_on a
  | _ => destruct e eqn:?
  end.

Ltac branch :=
  match goal with
  | |- context [match ?e with _ => _ end] =>
      lazymatch e with
      | context [match _ with _ => _ end] => fail
      | _ => split_on e
      end
  end.

Ltac reduce :=
  unfold error_of, data_of;
  cbn [run bind try_catch call await trace out final world update fst snd
       app negb andb orb rows body FoodScreen.set FoodScreen.alert MoodScreen.set
       LegacyScreen.set ProfileScreen.set].

Ltac steps := reduce; repeat (branch; reduce).

(** A call that answers with [unit] answers [tt]. *)
Ltac now_unit :=
  repeat match goal with
         | |- context [fst (?f unit ?c ?x)] => destruct (fst (f unit c x))
         end;
  reflexivity.

(** Name the [unit] answers of the world, then close the goal. *)
Ltac name_units :=
  repeat match goal with
         | |- context [fst (?f unit ?c ?x)] => destruct (fst (f unit c x))
         end.


(** The same walk through a run with the world's answers named: each
    call's answer and the world after it become variables, which keeps the
    terms small on long runs. *)
Ltac case_on e :=
  lazymatch e with
  | negb ?b => case_on b
  | andb ?a _ => case_on a
  | orb ?a _ => case_on a
  | _ => tryif is_var e then destruct e else destruct e eqn:?
  end.

Ltac branch_var :=
  match goal with
  | |- context [match ?e with _ => _ end] =>
      lazymatch e with
      | context [match _ with _ => _ end] => fail
      | _ => case_on e
      end
  end.

Ltac world_step ext :=
  first
    [ match goal with
      | H : ext ?R ?c ?x = _ |- context [ext ?R ?c ?x] => rewrite H
      end
    | match goal with
      | |- context [ext ?R ?c ?x] =>
          is_var x;
          let r := fresh "r" in
          let x' := fresh "x" in
          destruct (ext R c x) as [r x'] eqn:?;
          try (match type of r with unit => destruct r end)
      end ].

Ltac walk ext := reduce; repeat (first [world_step ext | branch_var]; reduce).

Ltac use_cases :=
  repeat (cbn [body rows fst snd] in *;
          match goal with
          | H : ?e = _ |- context [?e] =>
              tryif is_var e then fail else rewrite H
          end);
  cbn [body rows fst snd] in *.

(** [walk] on the run alone: the run is named, so that the property of
    the goal stays small while the run is taken apart, and then sees the
    cases that were made. *)
Ltac walk_run ext :=
  match goal with
  | |- context [@run ?S ?St ?X ?react ext ?A ?p ?st ?x] =>
      let rt := fresh "rt" in
      let Hrt := fresh "Hrt" in
      remember (@run S St X react ext A p st x) as rt eqn:Hrt;
      match goal with
      | |- ?G =>
          let Q := fresh "Q" in
          set (Q := G); revert Hrt; walk ext;
          intros Hrt; subst Q; use_cases; subst rt
      end
  end.

(** Closing the cases of a conjunction of implications by evaluation. *)
Ltac settle :=
  cbn [out trace final world];
  repeat match goal with
         | |- _ /\ _ => split
         | |- _ -> _ => intros ?
         end;
  try reflexivity;
  try (exfalso; match goal with
                | H : _ <> _ |- _ => apply H; reflexivity
                end);
  try match goal with
      | H : _ = _ |- _ => solve [cbn in H; discriminate H]
      end.
(* ===================================================================== *)
(** * Facts about runs *)
(* ===================================================================== *)

Section RunFacts.

Context {S St X : Type}.
Variable react : S -> St -> St.
Variable ext : forall R : Type, cmd S R -> X -> R * X.

(** A sequence runs its first part, then the rest from where that ended;
    a throw in the first part ends the run. *)
Lemma run_bind :
  forall (A B : Type) (p : prog S A) (f : A -> prog S B) (st : St) (x : X),
    run react ext (bind p f) st x =
    let r := run react ext p st x in
    match out r with
    | Returned a =>
        let r' := run react ext (f a) (final r) (world r) in
        {| trace := trace r ++ trace r'; out := out r';
           final := final r'; world := world r' |}
    | Threw e =>
        {| trace := trace r; out := Threw e;
           final := final r; world := world r |}
    end.
Proof.
  induction p as [a | e | R c k IH]; intros f st x.
  - cbn. destruct (run react ext (f a) st x); reflexivity.
  - reflexivity.
  - cbn [bind run]. rewrite IH. cbn zeta.
    destruct (out (run react ext (k (fst (ext c x))) (update react c st)
                     (snd (ext c x)))); reflexivity.
Qed.

Lemma count_app :
  forall (p : event S -> bool) (a b : list (event S)),
    count p (a ++ b) = (count p a + count p b)%nat.
Proof.
  intros p a b. unfold count. rewrite filter_app, length_app. reflexivity.
Qed.

Lemma pick_app :
  forall (B : Type) (f : event S -> option B) (a b : list (event S)),
    pick f (a ++ b) = pick f a ++ pick f b.
Proof.
  intros B f a b. unfold pick. apply flat_map_app.
Qed.

End RunFacts.

(* ===================================================================== *)
(** * Reading the list: [fetchItems] *)
(* ===================================================================== *)

Section FetchItems.

Variable supabase : SupabaseClient.
Variable X : Type.

Lemma food_fetchItems_queries :
  forall (ext : forall R, cmd FoodState.setter R -> X -> R * X) (x : X)
    (s live : FoodState.t),
    queries (trace (run FoodState.apply ext (FoodScreen.fetchItems supabase s)
                      live x)) =
    if truthyOpt (FoodState.userId s)
    then [userQuery "food_entries" (FoodState.userId s)] else [].
Proof.
  intros ext x s live.
  unfold FoodScreen.fetchItems, FoodScreen.calculateDailySummary.
  destruct (truthyOpt (FoodState.userId s)); steps; reflexivity.
Qed.

Lemma mood_fetchItems_queries :
  forall (ext : forall R, cmd MoodState.setter R -> X -> R * X) (x : X)
    (s live : MoodState.t),
    queries (trace (run MoodState.apply ext (MoodScreen.fetchItems supabase s)
                      live x)) =
    if truthyOpt (MoodState.userId s)
    then [userQuery "data" (MoodState.userId s)] else [].
Proof.
  intros ext x s live. unfold MoodScreen.fetchItems.
  destruct (truthyOpt (MoodState.userId s)); steps; reflexivity.
Qed.

Lemma food_fetchItems_idle :
  forall (ext : forall R, cmd FoodState.setter R -> X -> R * X) (x : X)
    (s live : FoodState.t),
    truthyOpt (FoodState.userId s) = false ->
    run FoodState.apply ext (FoodScreen.fetchItems supabase s) live x =
    {| trace := []; out := Returned tt; final := live; world := x |}.
Proof.
  intros ext x s live H. unfold FoodScreen.fetchItems. rewrite H.
  reflexivity.
Qed.

Lemma mood_fetchItems_idle :
  forall (ext : forall R, cmd MoodState.setter R -> X -> R * X) (x : X)
    (s live : MoodState.t),
    truthyOpt (MoodState.userId s) = false ->
    run MoodState.apply ext (MoodScreen.fetchItems supabase s) live x =
    {| trace := []; out := Returned tt; final := live; world := x |}.
Proof.
  intros ext x s live H. unfold MoodScreen.fetchItems. rewrite H.
  reflexivity.
Qed.

(** A failed select leaves the error's message in [error] and the empty
    list in [items]. *)
Lemma food_fetchItems_failed :
  forall (ext : forall R, cmd FoodState.setter R -> X -> R * X) (x : X)
    (s live : FoodState.t),
    let r := run FoodState.apply ext (FoodScreen.fetchItems supabase s)
               live x in
    select_failed (trace r) = true ->
    FoodState.items (final r) = [] /\
    exists e, failed_selects (trace r) = [e] /\
              FoodState.error (final r) = Some (message e).
Proof.
  intros ext x s live.
  unfold FoodScreen.fetchItems, FoodScreen.calculateDailySummary.
  steps; cbn; intros H; try discriminate H.
  split; [reflexivity | eexists; split; reflexivity].
Qed.

Lemma mood_fetchItems_failed :
  forall (ext : forall R, cmd MoodState.setter R -> X -> R * X) (x : X)
    (s live : MoodState.t),
    let r := run MoodState.apply ext (MoodScreen.fetchItems supabase s)
               live x in
    select_failed (trace r) = true ->
    MoodState.items (final r) = [] /\
    exists e, failed_selects (trace r) = [e] /\
              MoodState.error (final r) = Some (message e).
Proof.
  intros ext x s live. unfold MoodScreen.fetchItems.
  steps; cbn; intros H; try discriminate H.
  split; [reflexivity | eexists; split; reflexivity].
Qed.

(** [getCurrentUser] stores the id of the user the auth call answers
    with, and [null] when there is none. *)
Lemma food_getCurrentUser_userId :
  forall (ext : forall R, cmd FoodState.setter R -> X -> R * X) (x : X)
    (live : FoodState.t),
    FoodState.userId
      (final (run FoodState.apply ext (FoodScreen.getCurrentUser supabase)
                live x)) =
    asTruthy (option_map User.id (fst (ext _ (AuthGetUser supabase) x))).
Proof. reflexivity. Qed.

Lemma mood_getCurrentUser_userId :
  forall (ext : forall R, cmd MoodState.setter R -> X -> R * X) (x : X)
    (live : MoodState.t),
    MoodState.userId
      (final (run MoodState.apply ext (MoodScreen.getCurrentUser supabase)
                live x)) =
    asTruthy (option_map User.id (fst (ext _ (AuthGetUser supabase) x))).
Proof. reflexivity. Qed.

(** [fetchItems] does not throw, and its only database call is the
    select. *)
Lemma food_fetchItems_out :
  forall (ext : forall R, cmd FoodState.setter R -> X -> R * X) (x : X)
    (s live : FoodState.t),
    out (run FoodState.apply ext (FoodScreen.fetchItems supabase s) live x) =
    Returned tt.
Proof.
  intros ext x s live.
  unfold FoodScreen.fetchItems, FoodScreen.calculateDailySummary.
  steps; now_unit.
Qed.

Lemma mood_fetchItems_out :
  forall (ext : forall R, cmd MoodState.setter R -> X -> R * X) (x : X)
    (s live : MoodState.t),
    out (run MoodState.apply ext (MoodScreen.fetchItems supabase s) live x) =
    Returned tt.
Proof.
  intros ext x s live. unfold MoodScreen.fetchItems.
  steps; now_unit.
Qed.

Lemma food_fetchItems_db_calls :
  forall (ext : forall R, cmd FoodState.setter R -> X -> R * X) (x : X)
    (s live : FoodState.t),
    db_calls (trace (run FoodState.apply ext
                       (FoodScreen.fetchItems supabase s) live x)) =
    if truthyOpt (FoodState.userId s) then [CallSelect] else [].
Proof.
  intros ext x s live.
  unfold FoodScreen.fetchItems, FoodScreen.calculateDailySummary.
  destruct (truthyOpt (FoodState.userId s)); steps; reflexivity.
Qed.

Lemma mood_fetchItems_db_calls :
  forall (ext : forall R, cmd MoodState.setter R -> X -> R * X) (x : X)
    (s live : MoodState.t),
    db_calls (trace (run MoodState.apply ext
                       (MoodScreen.fetchItems supabase s) live x)) =
    if truthyOpt (MoodState.userId s) then [CallSelect] else [].
Proof.
  intros ext x s live. unfold MoodScreen.fetchItems.
  destruct (truthyOpt (MoodState.userId s)); steps; reflexivity.
Qed.

End FetchItems.

(* ===================================================================== *)
(** * Facts about traces *)
(* ===================================================================== *)

Section TraceFacts.

Context {S : Type}.

Lemma silent_facts :
  forall e : event S,
    silent e ->
    inserted_row e = None /\ selected e = None /\ failure_of e = None
    /\ client_of e = None /\ is_insert e = false /\ is_select e = false.
Proof.
  intros [R c r] H. unfold silent in H.
  destruct c; cbn in *; try discriminate H; repeat split.
Qed.

Lemma setEv_silent : forall a : S, silent (setEv a).
Proof. reflexivity. Qed.

Lemma pick_silent :
  forall (B : Type) (f : event S -> option B) (l : list (event S)),
    (forall e, silent e -> f e = None) ->
    Forall silent l -> pick f l = [].
Proof.
  intros B f l Hf Hl. induction Hl as [| e l He _ IH]; [reflexivity |].
  cbn. rewrite (Hf e He). exact IH.
Qed.

Lemma db_calls_silent :
  forall l : list (event S), Forall silent l -> db_calls l = [].
Proof. intros l. apply pick_silent. intros e He. exact He. Qed.

Lemma rows_inserted_silent :
  forall l : list (event S), Forall silent l -> rows_inserted l = [].
Proof. intros l. apply pick_silent. intros e He. apply silent_facts, He. Qed.

Lemma queries_silent :
  forall l : list (event S), Forall silent l -> queries l = [].
Proof. intros l. apply pick_silent. intros e He. apply silent_facts, He. Qed.

Lemma existsb_insert_silent :
  forall l : list (event S),
    Forall silent l -> existsb (@is_insert S) l = false.
Proof.
  intros l Hl. induction Hl as [| e l He _ IH]; [reflexivity |].
  cbn. rewrite IH. destruct (silent_facts He) as (_ & _ & _ & _ & -> & _).
  reflexivity.
Qed.

Lemma on_client_silent :
  forall (c : SupabaseClient) (l : list (event S)),
    Forall silent l -> on_client c l.
Proof.
  intros c l Hl. unfold on_client.
  induction Hl as [| e l He _ IH]; constructor; [| exact IH].
  destruct (silent_facts He) as (_ & _ & _ & -> & _). exact I.
Qed.

Lemma on_client_app :
  forall (c : SupabaseClient) (a b : list (event S)),
    on_client c a -> on_client c b -> on_client c (a ++ b).
Proof. intros c a b Ha Hb. apply Forall_app. split; assumption. Qed.

Section Propagation.

Variable setError : option jsstring -> S.

Lemma error_propagated_app :
  forall a b : list (event S),
    error_propagated setError a -> error_propagated setError b ->
    error_propagated setError (a ++ b).
Proof.
  induction a as [| e a IH]; intros b Ha Hb; [exact Hb |].
  cbn in *. destruct Ha as [He Ha]. split; [| apply IH; assumption].
  destruct (failure_of e); [| exact I].
  destruct a as [| next a']; [contradiction | exact He].
Qed.

Lemma error_propagated_silent :
  forall l : list (event S),
    Forall silent l -> error_propagated setError l.
Proof.
  intros l Hl. induction Hl as [| e l He _ IH]; [exact I |].
  cbn. destruct (silent_facts He) as (_ & _ & -> & _). split; [exact I | exact IH].
Qed.

End Propagation.

(** No insert among the database calls, no row inserted. *)
Lemma no_insert_call :
  forall t : list (event S),
    ~ In CallInsert (db_calls t) ->
    rows_inserted t = [] /\ existsb (@is_insert S) t = false.
Proof.
  induction t as [| [R c r] t IH]; intros H; [split; reflexivity |].
  destruct c; cbn in *;
    try (apply IH; exact H);
    try (apply IH; intros Hin; apply H; right; exact Hin).
  exfalso. apply H. left. reflexivity.
Qed.

Lemma db_calls_app :
  forall a b : list (event S), db_calls (a ++ b) = db_calls a ++ db_calls b.
Proof. intros a b. apply pick_app. Qed.

Lemma rows_inserted_app :
  forall a b : list (event S),
    rows_inserted (a ++ b) = rows_inserted a ++ rows_inserted b.
Proof. intros a b. apply pick_app. Qed.

Lemma db_calls_insert :
  forall (c : SupabaseClient) (table : string) (row : jsobject)
    (ans : PostgrestResponse unit) (l : list (event S)),
    db_calls (Ev (DbInsert c table row) ans :: l) = CallInsert :: db_calls l.
Proof. reflexivity. Qed.

Lemma rows_inserted_insert :
  forall (c : SupabaseClient) (table : string) (row : jsobject)
    (ans : PostgrestResponse unit) (l : list (event S)),
    rows_inserted (Ev (DbInsert c table row) ans :: l) =
    row :: rows_inserted l.
Proof. reflexivity. Qed.

Lemma existsb_insert_app :
  forall a b : list (event S),
    existsb (@is_insert S) (a ++ b) =
    existsb (@is_insert S) a || existsb (@is_insert S) b.
Proof. intros a b. apply existsb_app. Qed.

End TraceFacts.

(** ** What every add operation's trace satisfies *)

Section AddTraceFacts.

Context {S : Type}.
Variable setError : option jsstring -> S.
Variable supabase : SupabaseClient.
Variable table : string.
Variable row_ok : jsobject -> Prop.
Variable refresh : list (event S) -> Prop.
Variable done : S.

Hypothesis refresh_calls : forall f, refresh f -> db_calls f = [CallSelect].
Hypothesis refresh_errors :
  forall f, refresh f -> error_propagated setError f.
Hypothesis refresh_client : forall f, refresh f -> on_client supabase f.

Lemma add_trace_silent :
  forall t : list (event S), Forall silent t ->
    add_trace setError supabase table row_ok refresh done t.
Proof.
  intros t Ht. rewrite <- (app_nil_r t).
  apply add_trace_intro; [exact Ht | apply add_ended].
Qed.

Lemma handled_silent :
  forall ans handling,
    handled setError ans handling -> Forall silent handling.
Proof.
  intros ans handling H. destruct H as [e | u l Hl]; [| exact Hl].
  repeat constructor.
Qed.

(** Either nothing reaches the database, or exactly the insert and then
    the select of the refresh do, and the row is the one the form gives. *)
Lemma add_trace_db_calls :
  forall t : list (event S),
    add_trace setError supabase table row_ok refresh done t ->
    (existsb (@is_insert S) t = false /\ db_calls t = []
     /\ rows_inserted t = [])
    \/ (existsb (@is_insert S) t = true
        /\ db_calls t = [CallInsert; CallSelect]
        /\ exists row, row_ok row /\ rows_inserted t = [row]).
Proof.
  intros t [before tail Hb Ht].
  destruct Ht as [| row ans handling between fetched Hrow Hh Hbt Hf].
  - left. rewrite app_nil_r.
    auto using existsb_insert_silent, db_calls_silent, rows_inserted_silent.
  - right. apply handled_silent in Hh.
    pose proof (refresh_calls Hf) as Hc.
    assert (Hni : ~ In CallInsert (db_calls fetched)).
    { rewrite Hc. intros [H | []]. discriminate H. }
    destruct (no_insert_call _ Hni) as [Hr He].
    split; [| split].
    + rewrite existsb_insert_app. cbn. apply orb_true_r.
    + rewrite db_calls_app, db_calls_insert, !db_calls_app, Hc.
      rewrite !db_calls_silent by first [assumption | repeat constructor].
      reflexivity.
    + exists row. split; [exact Hrow |].
      rewrite rows_inserted_app, rows_inserted_insert, !rows_inserted_app, Hr.
      rewrite !rows_inserted_silent by first [assumption | repeat constructor].
      reflexivity.
Qed.

(** Once the insert is made, the operation goes on to the refresh and
    ends with [done], whatever the insert answered. *)
Lemma add_trace_refreshes :
  forall t : list (event S),
    add_trace setError supabase table row_ok refresh done t ->
    existsb (@is_insert S) t = true ->
    exists pre fetched,
      t = pre ++ fetched ++ [setEv done]
      /\ refresh fetched
      /\ db_calls pre = [CallInsert].
Proof.
  intros t [before tail Hb Ht] Hins.
  destruct Ht as [| row ans handling between fetched Hrow Hh Hbt Hf].
  - rewrite app_nil_r, existsb_insert_silent in Hins by exact Hb.
    discriminate Hins.
  - apply handled_silent in Hh.
    exists (before ++ Ev (DbInsert supabase table row) ans
              :: handling ++ between), fetched.
    split; [| split; [exact Hf |]].
    + rewrite <- !app_assoc. cbn. rewrite <- !app_assoc. reflexivity.
    + rewrite db_calls_app, db_calls_insert, db_calls_app.
      rewrite !db_calls_silent by assumption.
      reflexivity.
Qed.

Lemma add_trace_propagates :
  forall t : list (event S),
    add_trace setError supabase table row_ok refresh done t ->
    error_propagated setError t.
Proof.
  intros t [before tail Hb Ht].
  apply error_propagated_app; [apply error_propagated_silent, Hb |].
  destruct Ht as [| row ans handling between fetched Hrow Hh Hbt Hf];
    [exact I |].
  assert (Hrest : error_propagated setError
                    (handling ++ between ++ fetched ++ [setEv done])).
  { apply error_propagated_app;
      [apply error_propagated_silent, (handled_silent Hh) |].
    apply error_propagated_app; [apply error_propagated_silent, Hbt |].
    apply error_propagated_app; [apply refresh_errors, Hf |].
    cbn. auto. }
  cbn. split; [| exact Hrest].
  destruct Hh as [e | u l Hl]; cbn; [reflexivity | exact I].
Qed.

Lemma add_trace_client :
  forall t : list (event S),
    add_trace setError supabase table row_ok refresh done t ->
    on_client supabase t.
Proof.
  intros t [before tail Hb Ht].
  apply on_client_app; [apply on_client_silent, Hb |].
  destruct Ht as [| row ans handling between fetched Hrow Hh Hbt Hf];
    [constructor |].
  constructor; [reflexivity |].
  apply on_client_app; [apply on_client_silent, (handled_silent Hh) |].
  apply on_client_app; [apply on_client_silent, Hbt |].
  apply on_client_app; [apply refresh_client, Hf |].
  repeat constructor.
Qed.

End AddTraceFacts.

(* ===================================================================== *)
(** * The JavaScript fragment on examples *)
(* ===================================================================== *)

Example parseInt_skips_space_and_stops :
  parseInt (str "  -12abc") 10 = Some (-12).
Proof. reflexivity. Qed.

Example parseInt_of_nothing_is_NaN :
  parseInt (str "") 10 = None /\ parseInt (str "abc") 10 = None
  /\ parseInt (str "-") 10 = None.
Proof. repeat split. Qed.

Example parseInt_radix_10_keeps_0x :
  parseInt (str "0x1f") 10 = Some 0 /\ parseInt (str "0x1f") 16 = Some 31
  /\ parseInt (str "0x1f") 0 = Some 31.
Proof. repeat split. Qed.

Example parseInt_stops_at_the_point : parseInt (str "7.9") 10 = Some 7.
Proof. reflexivity. Qed.

Example trim_strips_both_ends :
  trim (10 :: 160 :: str "  a b  " ++ [8232; 65279])%N = str "a b".
Proof. reflexivity. Qed.

Example Math_round_ties_upwards :
  Math_round (5 # 2) = 3 /\ Math_round (-5 # 2) = -2
  /\ Math_round (17 # 100) = 0.
Proof. repeat split. Qed.

Example toString_then_parseInt :
  forall large : Z -> jsstring,
    parseInt (toString large 52) 10 = Some 52
    /\ parseInt (toString large (-7)) 10 = Some (-7)
    /\ toString large 0 = str "0"
    /\ toString large (10 ^ 21) = large (10 ^ 21).
Proof. intros large. repeat split. Qed.

Example isWellFormed_on_surrogates :
  isWellFormed (str "apple") = true
  /\ isWellFormed [55357; 56866]%N = true
  /\ isWellFormed [55357]%N = false
  /\ isWellFormed [56866; 55357]%N = false
  /\ isWellFormed [97; 55357; 98]%N = false.
Proof. repeat split. Qed.

(** [trim] leaves no white space at the start. *)
Lemma dropWhile_head :
  forall (p : code_unit -> bool) (s : jsstring) (c : code_unit)
    (rest : jsstring),
    dropWhile p s = c :: rest -> p c = false.
Proof.
  intros p s. induction s as [| a s IH]; intros c rest H; [discriminate H |].
  cbn in H. destruct (p a) eqn:Ha.
  - exact (IH c rest H).
  - injection H as <- _. exact Ha.
Qed.

Lemma dropWhile_unchanged :
  forall (p : code_unit -> bool) (s : jsstring) (c : code_unit),
    hd_error s = Some c -> p c = false -> dropWhile p s = s.
Proof.
  intros p [| a s] c H Hc; [discriminate H |].
  injection H as ->. cbn. rewrite Hc. reflexivity.
Qed.

Lemma trimEnd_last :
  forall (s : jsstring) (c : code_unit) (front : jsstring),
    trimEnd s = front ++ [c] -> isWhiteSpace c = false.
Proof.
  intros s c front H. unfold trimEnd in H.
  apply (f_equal (@rev code_unit)) in H.
  rewrite rev_involutive, rev_app_distr in H. cbn in H.
  eapply dropWhile_head. exact H.
Qed.

Lemma dropWhile_suffix :
  forall (p : code_unit -> bool) (s : jsstring),
    exists dropped, s = dropped ++ dropWhile p s.
Proof.
  intros p s. induction s as [| a s [d IH]]; [exists []; reflexivity |].
  cbn. destruct (p a).
  - exists (a :: d). cbn. rewrite <- IH. reflexivity.
  - exists []. reflexivity.
Qed.

(** A trimmed string neither starts nor ends with white space. *)
Lemma trim_ends :
  forall (s : jsstring),
    (forall c rest, trim s = c :: rest -> isWhiteSpace c = false)
    /\ (forall c front, trim s = front ++ [c] -> isWhiteSpace c = false).
Proof.
  intros s. split.
  - intros c rest H. unfold trim, trimEnd in H.
    destruct (dropWhile_suffix isWhiteSpace (rev (trimStart s)))
      as [dropped Hd].
    apply (f_equal (@rev code_unit)) in Hd.
    rewrite rev_involutive, rev_app_distr, H in Hd.
    unfold trimStart in Hd. cbn in Hd.
    eapply dropWhile_head. exact Hd.
  - intros c front H. eapply trimEnd_last. exact H.
Qed.

(** ** The two forms, read as propositions *)

Lemma truthy_iff : forall s : jsstring, truthy s = true <-> s <> [].
Proof.
  intros [| c s]; cbn; split; intros H; try reflexivity;
    try discriminate; congruence.
Qed.

Lemma truthyOpt_iff :
  forall o : option jsstring,
    truthyOpt o = true <-> exists u, o = Some u /\ u <> [].
Proof.
  intros [u |]; cbn.
  - rewrite truthy_iff. split.
    + intros H. exists u. split; [reflexivity | exact H].
    + intros (u' & [= <-] & H). exact H.
  - split; [discriminate | intros (u & H & _); discriminate H].
Qed.

Lemma foodFormValid_iff :
  forall s : FoodState.t,
    foodFormValid s = true <->
    (exists u, FoodState.userId s = Some u /\ u <> [])
    /\ trim (FoodState.foodName s) <> []
    /\ length (trim (FoodState.foodName s)) <= 100
    /\ length (FoodState.notes s) <= 500
    /\ 0 <= caloriesNumber s <= 10000.
Proof.
  intros s. unfold foodFormValid.
  rewrite !andb_true_iff, !Z.leb_le, truthy_iff, truthyOpt_iff. tauto.
Qed.

Lemma moodFormValid_iff :
  forall s : MoodState.t,
    moodFormValid s = true <->
    (exists u, MoodState.userId s = Some u /\ u <> [])
    /\ trim (MoodState.text s) <> [].
Proof.
  intros s. unfold moodFormValid.
  rewrite andb_true_iff, truthy_iff, truthyOpt_iff. tauto.
Qed.

(* ===================================================================== *)
(** * Traces in parts *)
(* ===================================================================== *)

Section TraceParts.

Context {S : Type}.

Lemma permission_rejected_app :
  forall a b : list (event S),
    permission_rejected (a ++ b) =
    permission_rejected a || permission_rejected b.
Proof. intros a b. apply existsb_app. Qed.

Lemma position_rejected_app :
  forall a b : list (event S),
    position_rejected (a ++ b) = position_rejected a || position_rejected b.
Proof. intros a b. apply existsb_app. Qed.

Lemma queries_app :
  forall a b : list (event S), queries (a ++ b) = queries a ++ queries b.
Proof. intros a b. apply pick_app. Qed.

Lemma count_silent :
  forall l : list (event S),
    Forall silent l -> count (@is_insert S) l = 0%nat.
Proof.
  intros l Hl. unfold count.
  induction Hl as [| e l He _ IH]; [reflexivity |].
  cbn [filter]. destruct (silent_facts He) as (_ & _ & _ & _ & -> & _).
  exact IH.
Qed.

Lemma failed_selects_app :
  forall a b : list (event S),
    failed_selects (a ++ b) = failed_selects a ++ failed_selects b.
Proof.
  intros a b. unfold failed_selects. rewrite filter_app. apply pick_app.
Qed.

Lemma failed_selects_silent :
  forall l : list (event S), Forall silent l -> failed_selects l = [].
Proof.
  intros l Hl. unfold failed_selects.
  induction Hl as [| e l He _ IH]; [reflexivity |].
  cbn [filter].
  destruct (silent_facts He) as (_ & _ & _ & _ & _ & ->). exact IH.
Qed.

End TraceParts.

(** A trace that starts with known events is cut after them, and the
    readings of the trace are taken part by part. *)
Ltac cut_trace :=
  repeat match goal with
         | |- context [?e :: ?t ++ ?r] =>
             change (e :: t ++ r) with ([e] ++ t ++ r)
         end;
  rewrite ?permission_rejected_app, ?position_rejected_app, ?count_app,
    ?existsb_app, ?db_calls_app, ?rows_inserted_app, ?queries_app,
    ?failed_selects_app.

(** The run of an add operation on a valid form is cut at its location
    block, whose run is summed up by [locate_cases] and [locate_silent]. *)
Ltac cut_at_locate locate_cases locate_silent :=
  rewrite run_bind; cbv zeta;
  match goal with
  | |- context [run ?react ?ext ?p ?st ?w] =>
      pose proof (locate_cases w st) as (Hfinal & Hfetch & Hoff & Hout);
      pose proof (locate_silent w st) as Hsilent;
      cbv zeta in Hfinal, Hfetch, Hoff, Hout;
      let tl := fresh "tl" in
      let ol := fresh "ol" in
      let fl := fresh "fl" in
      let wl := fresh "wl" in
      destruct (run react ext p st w) as [tl ol fl wl];
      cbn [out final trace world] in *; subst fl;
      pose proof (count_silent Hsilent) as Hcount;
      pose proof (existsb_insert_silent Hsilent) as Hexists;
      pose proof (db_calls_silent Hsilent) as Hcalls;
      pose proof (rows_inserted_silent Hsilent) as Hrows;
      pose proof (queries_silent Hsilent) as Hqueries;
      pose proof (failed_selects_silent Hsilent) as Hfailed
  end.

(* ===================================================================== *)
(** * The add operations *)
(* ===================================================================== *)

Section Refresh.

Variable supabase : SupabaseClient.
Variable X : Type.

Lemma food_fetchItems_propagates :
  forall (ext : forall R, cmd FoodState.setter R -> X -> R * X) (x : X)
    (s live : FoodState.t),
    error_propagated FoodState.setError
      (trace (run FoodState.apply ext (FoodScreen.fetchItems supabase s)
                live x)).
Proof.
  intros ext x s live.
  unfold FoodScreen.fetchItems, FoodScreen.calculateDailySummary.
  steps; cbn; auto 10.
Qed.

Lemma mood_fetchItems_propagates :
  forall (ext : forall R, cmd MoodState.setter R -> X -> R * X) (x : X)
    (s live : MoodState.t),
    error_propagated MoodState.setError
      (trace (run MoodState.apply ext (MoodScreen.fetchItems supabase s)
                live x)).
Proof.
  intros ext x s live. unfold MoodScreen.fetchItems.
  steps; cbn; auto 10.
Qed.

Lemma legacy_fetchItems_propagates :
  forall (ext : forall R, cmd LegacyState.setter R -> X -> R * X) (x : X)
    (live : LegacyState.t),
    error_propagated LegacyState.setError
      (trace (run LegacyState.apply ext (LegacyScreen.fetchItems supabase)
                live x)).
Proof.
  intros ext x live. unfold LegacyScreen.fetchItems.
  steps; cbn; auto 10.
Qed.

Lemma food_fetchItems_client :
  forall (ext : forall R, cmd FoodState.setter R -> X -> R * X) (x : X)
    (s live : FoodState.t),
    on_client supabase
      (trace (run FoodState.apply ext (FoodScreen.fetchItems supabase s)
                live x)).
Proof.
  intros ext x s live.
  unfold FoodScreen.fetchItems, FoodScreen.calculateDailySummary.
  steps; repeat constructor.
Qed.

Lemma mood_fetchItems_client :
  forall (ext : forall R, cmd MoodState.setter R -> X -> R * X) (x : X)
    (s live : MoodState.t),
    on_client supabase
      (trace (run MoodState.apply ext (MoodScreen.fetchItems supabase s)
                live x)).
Proof.
  intros ext x s live. unfold MoodScreen.fetchItems.
  steps; repeat constructor.
Qed.

Lemma legacy_fetchItems_client :
  forall (ext : forall R, cmd LegacyState.setter R -> X -> R * X) (x : X)
    (live : LegacyState.t),
    on_client supabase
      (trace (run LegacyState.apply ext (LegacyScreen.fetchItems supabase)
                live x)).
Proof.
  intros ext x live. unfold LegacyScreen.fetchItems.
  steps; repeat constructor.
Qed.

Lemma legacy_fetchItems_out :
  forall (ext : forall R, cmd LegacyState.setter R -> X -> R * X) (x : X)
    (live : LegacyState.t),
    out (run LegacyState.apply ext (LegacyScreen.fetchItems supabase) live x)
    = Returned tt.
Proof.
  intros ext x live. unfold LegacyScreen.fetchItems.
  steps; now_unit.
Qed.

Lemma legacy_fetchItems_db_calls :
  forall (ext : forall R, cmd LegacyState.setter R -> X -> R * X) (x : X)
    (live : LegacyState.t),
    db_calls (trace (run LegacyState.apply ext
                       (LegacyScreen.fetchItems supabase) live x)) =
    [CallSelect].
Proof.
  intros ext x live. unfold LegacyScreen.fetchItems.
  steps; reflexivity.
Qed.

End Refresh.

Section AddOperations.

Variable supabase : SupabaseClient.
Variable env : ProcessEnv.
Variable X : Type.

(** ** The food screen *)

Lemma food_add_trace :
  forall (ext : forall R, cmd FoodState.setter R -> X -> R * X) (x : X)
    (s live : FoodState.t),
    add_trace FoodState.setError supabase "food_entries" (food_row_ok s)
      (food_refresh supabase ext s) (FoodState.setInserting false)
      (trace (run FoodState.apply ext (FoodScreen.addFoodEntry supabase s)
                live x)).
Proof.
  intros ext x s live. unfold FoodScreen.addFoodEntry.
  steps;
    try solve [apply add_trace_silent; repeat constructor];
    rewrite run_bind; cbv zeta; rewrite food_fetchItems_out;
    cbn [trace run call out final world FoodScreen.set]; name_units;
    match goal with
    | |- add_trace _ _ _ _ _ _ (_ :: _ :: Ev _ (Failure _) :: _) =>
        apply (@add_trace_intro _ _ _ _ _ _ _ [_; _]); [repeat constructor |];
        apply (@add_inserted _ _ _ _ _ _ _ _ _ [_] [] _)
    | |- add_trace _ _ _ _ _ _ (_ :: _ :: Ev _ (Success _) :: _) =>
        apply (@add_trace_intro _ _ _ _ _ _ _ [_; _]); [repeat constructor |];
        apply (@add_inserted _ _ _ _ _ _ _ _ _ [_; _; _; _; _] [] _)
    end;
    try solve [constructor; repeat constructor];
    try solve [split; [assumption | eexists; eexists; reflexivity]];
    (split; [| reflexivity]);
    unfold foodFormValid, caloriesNumber; rewrite !Z.leb_antisym;
    repeat match goal with H : _ = _ |- _ => rewrite H; clear H end;
    reflexivity.
Qed.

(** ** The mood journal *)

(** Locating makes no database call. *)
Lemma mood_locate_silent :
  forall (ext : forall R, cmd MoodState.setter R -> X -> R * X) (x : X)
    (s live : MoodState.t),
    Forall silent
      (trace (run MoodState.apply ext (MoodScreen.locate env s) live x)).
Proof.
  intros ext x s live. unfold MoodScreen.locate, MoodScreen.fetchWeather.
  steps; repeat constructor.
Qed.

Lemma mood_add_trace :
  forall (ext : forall R, cmd MoodState.setter R -> X -> R * X) (x : X)
    (s live : MoodState.t),
    add_trace MoodState.setError supabase "data" (mood_row_ok s)
      (mood_refresh supabase ext s) (MoodState.setInserting false)
      (trace (run MoodState.apply ext (MoodScreen.addItem supabase env s)
                live x)).
Proof.
  intros ext x s live. unfold MoodScreen.addItem.
  steps; try solve [apply add_trace_silent; repeat constructor].
  rewrite run_bind; cbv zeta.
  match goal with
  | |- context [run _ _ (MoodScreen.locate env s) ?st ?x'] =>
      pose proof (mood_locate_silent ext x' s st) as Hl;
      destruct (out (run MoodState.apply ext (MoodScreen.locate env s) st x'))
        as [l | e]
  end.
  - steps; rewrite run_bind; cbv zeta; rewrite mood_fetchItems_out;
      cbn [trace run call out final world MoodScreen.set app]; name_units;
      refine (@add_trace_intro _ _ _ _ _ _ _ (_ :: _ :: _) _ _ _);
      try solve [repeat constructor; exact Hl].
    all: refine (@add_inserted _ _ _ _ _ _ _ _ _ [_] [_] _ _ _ _ _);
      try solve [constructor; repeat constructor];
      try solve [split; [assumption | eexists; eexists; reflexivity]].
    all: split; [unfold moodFormValid; rewrite Heqb, Heqb0; reflexivity |].
    all: eexists; reflexivity.
  - cbn [trace]. name_units. apply add_trace_silent.
    repeat constructor. exact Hl.
Qed.

(** ** The earlier mood journal *)

Lemma legacy_locate_silent :
  forall (ext : forall R, cmd LegacyState.setter R -> X -> R * X) (x : X)
    (s live : LegacyState.t),
    Forall silent
      (trace (run LegacyState.apply ext (LegacyScreen.locate s) live x)).
Proof.
  intros ext x s live. unfold LegacyScreen.locate, LegacyScreen.fetchWeather.
  steps; repeat constructor.
Qed.

Lemma legacy_add_trace :
  forall (ext : forall R, cmd LegacyState.setter R -> X -> R * X) (x : X)
    (s live : LegacyState.t),
    add_trace LegacyState.setError supabase "data" (legacy_row_ok s)
      (legacy_refresh supabase ext) (LegacyState.setInserting false)
      (trace (run LegacyState.apply ext (LegacyScreen.addItem supabase s)
                live x)).
Proof.
  intros ext x s live. unfold LegacyScreen.addItem.
  steps; try solve [apply add_trace_silent; repeat constructor].
  rewrite run_bind; cbv zeta.
  match goal with
  | |- context [run _ _ (LegacyScreen.locate s) ?st ?x'] =>
      pose proof (legacy_locate_silent ext x' s st) as Hl;
      destruct (out (run LegacyState.apply ext (LegacyScreen.locate s) st x'))
        as [l | e]
  end.
  - steps; rewrite run_bind; cbv zeta; rewrite legacy_fetchItems_out;
      cbn [trace run call out final world LegacyScreen.set app]; name_units;
      refine (@add_trace_intro _ _ _ _ _ _ _ (_ :: _ :: _) _ _ _);
      try solve [repeat constructor; exact Hl].
    all: first [ refine (@add_inserted _ _ _ _ _ _ _ _ _ [_] [_] _ _ _ _ _)
               | refine (@add_inserted _ _ _ _ _ _ _ _ _ [] [_] _ _ _ _ _) ];
      try solve [constructor; repeat constructor];
      try solve [eexists; eexists; reflexivity].
    all: split; [assumption | eexists; reflexivity].
  - cbn [trace]. name_units. apply add_trace_silent.
    repeat constructor. exact Hl.
Qed.

End AddOperations.

(** ** Consequences for the three screens *)

Section AddConsequences.

Variable supabase : SupabaseClient.
Variable env : ProcessEnv.
Variable X : Type.

Lemma count_insert_rows :
  forall (S : Type) (t : list (event S)),
    count (@is_insert S) t = List.length (rows_inserted t).
Proof.
  intros S t. unfold count, rows_inserted, pick.
  induction t as [| [R c r] t IH]; [reflexivity |].
  destruct c; cbn; try exact IH. rewrite IH. reflexivity.
Qed.

Lemma food_refresh_calls :
  forall (ext : forall R, cmd FoodState.setter R -> X -> R * X)
    (s : FoodState.t) (f : list (event FoodState.setter)),
    food_refresh supabase ext s f -> db_calls f = [CallSelect].
Proof.
  intros ext s f (Hu & st & x & ->).
  rewrite food_fetchItems_db_calls, Hu. reflexivity.
Qed.

Lemma mood_refresh_calls :
  forall (ext : forall R, cmd MoodState.setter R -> X -> R * X)
    (s : MoodState.t) (f : list (event MoodState.setter)),
    mood_refresh supabase ext s f -> db_calls f = [CallSelect].
Proof.
  intros ext s f (Hu & st & x & ->).
  rewrite mood_fetchItems_db_calls, Hu. reflexivity.
Qed.

Lemma legacy_refresh_calls :
  forall (ext : forall R, cmd LegacyState.setter R -> X -> R * X)
    (f : list (event LegacyState.setter)),
    legacy_refresh supabase ext f -> db_calls f = [CallSelect].
Proof.
  intros ext f (st & x & ->). apply legacy_fetchItems_db_calls.
Qed.

(** Calls and rows of an add operation. *)
Lemma food_add_calls :
  forall (ext : forall R, cmd FoodState.setter R -> X -> R * X) (x : X)
    (s live : FoodState.t),
    let t := trace (run FoodState.apply ext
                      (FoodScreen.addFoodEntry supabase s) live x) in
    (existsb (@is_insert _) t = false /\ db_calls t = []
     /\ rows_inserted t = [])
    \/ (existsb (@is_insert _) t = true
        /\ db_calls t = [CallInsert; CallSelect]
        /\ exists row, food_row_ok s row /\ rows_inserted t = [row]).
Proof.
  intros ext x s live t.
  unfold t. eapply add_trace_db_calls; [| apply food_add_trace].
  apply food_refresh_calls.
Qed.

Lemma mood_add_calls :
  forall (ext : forall R, cmd MoodState.setter R -> X -> R * X) (x : X)
    (s live : MoodState.t),
    let t := trace (run MoodState.apply ext
                      (MoodScreen.addItem supabase env s) live x) in
    (existsb (@is_insert _) t = false /\ db_calls t = []
     /\ rows_inserted t = [])
    \/ (existsb (@is_insert _) t = true
        /\ db_calls t = [CallInsert; CallSelect]
        /\ exists row, mood_row_ok s row /\ rows_inserted t = [row]).
Proof.
  intros ext x s live t.
  unfold t. eapply add_trace_db_calls; [| apply mood_add_trace].
  apply mood_refresh_calls.
Qed.

Lemma legacy_add_calls :
  forall (ext : forall R, cmd LegacyState.setter R -> X -> R * X) (x : X)
    (s live : LegacyState.t),
    let t := trace (run LegacyState.apply ext
                      (LegacyScreen.addItem supabase s) live x) in
    (existsb (@is_insert _) t = false /\ db_calls t = []
     /\ rows_inserted t = [])
    \/ (existsb (@is_insert _) t = true
        /\ db_calls t = [CallInsert; CallSelect]
        /\ exists row, legacy_row_ok s row /\ rows_inserted t = [row]).
Proof.
  intros ext x s live t.
  unfold t. eapply add_trace_db_calls; [| apply legacy_add_trace].
  apply legacy_refresh_calls.
Qed.

(** The food screen never ends early: a valid form is always inserted. *)
Lemma food_add_insert_count :
  forall (ext : forall R, cmd FoodState.setter R -> X -> R * X) (x : X)
    (s live : FoodState.t),
    count (@is_insert _)
      (trace (run FoodState.apply ext (FoodScreen.addFoodEntry supabase s)
                live x)) =
    if foodFormValid s then 1%nat else 0%nat.
Proof.
  intros ext x s live. unfold foodFormValid, caloriesNumber.
  rewrite !Z.leb_antisym.
  unfold FoodScreen.addFoodEntry, FoodScreen.fetchItems,
    FoodScreen.calculateDailySummary.
  steps; reflexivity.
Qed.

Lemma mood_add_insert_count :
  forall (ext : forall R, cmd MoodState.setter R -> X -> R * X) (x : X)
    (s live : MoodState.t),
    (count (@is_insert _)
       (trace (run MoodState.apply ext (MoodScreen.addItem supabase env s)
                 live x)) <=
     if moodFormValid s then 1 else 0)%nat.
Proof.
  intros ext x s live. rewrite count_insert_rows.
  destruct (mood_add_calls ext x s live)
    as [(_ & _ & ->) | (_ & _ & row & [Hv _] & ->)].
  - apply Nat.le_0_l.
  - rewrite Hv. apply Nat.le_refl.
Qed.

(** The rows, field by field. *)
Lemma food_add_rows :
  forall (ext : forall R, cmd FoodState.setter R -> X -> R * X) (x : X)
    (s live : FoodState.t),
    Forall (food_row_ok s)
      (rows_inserted
         (trace (run FoodState.apply ext (FoodScreen.addFoodEntry supabase s)
                   live x))).
Proof.
  intros ext x s live.
  destruct (food_add_calls ext x s live)
    as [(_ & _ & ->) | (_ & _ & row & Hrow & ->)].
  - constructor.
  - constructor; [exact Hrow | constructor].
Qed.

Lemma mood_add_rows :
  forall (ext : forall R, cmd MoodState.setter R -> X -> R * X) (x : X)
    (s live : MoodState.t),
    Forall (mood_row_ok s)
      (rows_inserted
         (trace (run MoodState.apply ext (MoodScreen.addItem supabase env s)
                   live x))).
Proof.
  intros ext x s live.
  destruct (mood_add_calls ext x s live)
    as [(_ & _ & ->) | (_ & _ & row & Hrow & ->)].
  - constructor.
  - constructor; [exact Hrow | constructor].
Qed.

Lemma legacy_add_rows :
  forall (ext : forall R, cmd LegacyState.setter R -> X -> R * X) (x : X)
    (s live : LegacyState.t),
    Forall (legacy_row_ok s)
      (rows_inserted
         (trace (run LegacyState.apply ext (LegacyScreen.addItem supabase s)
                   live x))).
Proof.
  intros ext x s live.
  destruct (legacy_add_calls ext x s live)
    as [(_ & _ & ->) | (_ & _ & row & Hrow & ->)].
  - constructor.
  - constructor; [exact Hrow | constructor].
Qed.

End AddConsequences.

(* ===================================================================== *)
(** * C1: validation comes before the insert *)
(* ===================================================================== *)

(** C1. [addFoodEntry] makes one insert call when a user id is present,
    the trimmed food name is non-empty and at most 100 long, the notes
    are at most 500 long and the parsed calories lie in [0, 10000], and
    none otherwise; [addItem] of the mood journal makes at most one, and
    none unless a user id is present and the trimmed text is non-empty. *)
Theorem add_validates_before_insert :
  forall (supabase : SupabaseClient) (env : ProcessEnv) (X : Type)
    (extF : forall R, cmd FoodState.setter R -> X -> R * X)
    (extM : forall R, cmd MoodState.setter R -> X -> R * X)
    (x : X) (sF liveF : FoodState.t) (sM liveM : MoodState.t),
    count (@is_insert _)
      (trace (run FoodState.apply extF (FoodScreen.addFoodEntry supabase sF)
                liveF x)) =
    (if truthyOpt (FoodState.userId sF)
        && truthy (trim (FoodState.foodName sF))
        && (length (trim (FoodState.foodName sF)) <=? 100)
        && (length (FoodState.notes sF) <=? 500)
        && ((0 <=? orNumber (parseInt (FoodState.calories sF) 10) 0)
            && (orNumber (parseInt (FoodState.calories sF) 10) 0 <=? 10000))
     then 1%nat else 0%nat)
    /\ (count (@is_insert _)
          (trace (run MoodState.apply extM
                    (MoodScreen.addItem supabase env sM) liveM x)) <=
        if truthyOpt (MoodState.userId sM) && truthy (trim (MoodState.text sM))
        then 1 else 0)%nat.
Proof.
  intros supabase env X extF extM x sF liveF sM liveM. split.
  - apply food_add_insert_count.
  - apply mood_add_insert_count.
Qed.

(* ===================================================================== *)
(** * C2: a failed call sets the error message *)
(* ===================================================================== *)

Section ErrorMessages.

Variable supabase : SupabaseClient.
Variable env : ProcessEnv.
Variable X : Type.

Lemma food_add_propagates :
  forall (ext : forall R, cmd FoodState.setter R -> X -> R * X) (x : X)
    (s live : FoodState.t),
    error_propagated FoodState.setError
      (trace (run FoodState.apply ext (FoodScreen.addFoodEntry supabase s)
                live x)).
Proof.
  intros ext x s live.
  eapply add_trace_propagates; [| apply food_add_trace].
  intros f (_ & st & x' & ->). apply food_fetchItems_propagates.
Qed.

Lemma mood_add_propagates :
  forall (ext : forall R, cmd MoodState.setter R -> X -> R * X) (x : X)
    (s live : MoodState.t),
    error_propagated MoodState.setError
      (trace (run MoodState.apply ext (MoodScreen.addItem supabase env s)
                live x)).
Proof.
  intros ext x s live.
  eapply add_trace_propagates; [| apply mood_add_trace].
  intros f (_ & st & x' & ->). apply mood_fetchItems_propagates.
Qed.

(** What is left in [error] when [addFoodEntry] has run on a valid form
    is what its refresh left there: the message of the select's error, or
    [null].  The message of a failed insert is set, and then cleared by
    the [setError(null)] that opens [fetchItems]. *)
Lemma food_add_error_after_refresh :
  forall (ext : forall R, cmd FoodState.setter R -> X -> R * X) (x : X)
    (s live : FoodState.t),
    let r := run FoodState.apply ext (FoodScreen.addFoodEntry supabase s)
               live x in
    foodFormValid s = true ->
    FoodState.error (final r) =
    option_map message (hd_error (failed_selects (trace r))).
Proof.
  intros ext x s live. unfold foodFormValid, caloriesNumber.
  rewrite !Z.leb_antisym.
  unfold FoodScreen.addFoodEntry, FoodScreen.fetchItems,
    FoodScreen.calculateDailySummary.
  steps; cbn; intros H; try discriminate H; reflexivity.
Qed.

End ErrorMessages.

(** What does hold of the error handling.  In a run of [fetchItems] or
    of the add operation, on the food screen and on the mood journal
    alike, every database call that fails is followed at once by
    [setError] applied to exactly the [message] of its error; when the
    select of [fetchItems] fails, [error] still holds its message when
    [fetchItems] returns.  No call is repeated: [fetchItems] makes at most
    the one select, an add operation at most the one insert and the one
    select. *)
Theorem backend_error_sets_message :
  forall (supabase : SupabaseClient) (env : ProcessEnv) (X : Type)
    (extF : forall R, cmd FoodState.setter R -> X -> R * X)
    (extM : forall R, cmd MoodState.setter R -> X -> R * X)
    (x : X) (sF liveF : FoodState.t) (sM liveM : MoodState.t),
    let fF := run FoodState.apply extF (FoodScreen.fetchItems supabase sF)
                liveF x in
    let aF := run FoodState.apply extF (FoodScreen.addFoodEntry supabase sF)
                liveF x in
    let fM := run MoodState.apply extM (MoodScreen.fetchItems supabase sM)
                liveM x in
    let aM := run MoodState.apply extM (MoodScreen.addItem supabase env sM)
                liveM x in
    (error_propagated FoodState.setError (trace fF)
     /\ error_propagated FoodState.setError (trace aF)
     /\ error_propagated MoodState.setError (trace fM)
     /\ error_propagated MoodState.setError (trace aM))
    /\ ((forall v st,
           FoodState.error (FoodState.apply (FoodState.setError v) st) = v)
        /\ (forall v st,
              MoodState.error (MoodState.apply (MoodState.setError v) st) = v))
    /\ (select_failed (trace fF) = true ->
        exists e, failed_selects (trace fF) = [e]
                  /\ FoodState.error (final fF) = Some (message e))
    /\ (select_failed (trace fM) = true ->
        exists e, failed_selects (trace fM) = [e]
                  /\ MoodState.error (final fM) = Some (message e))
    /\ (db_calls (trace fF) = [] \/ db_calls (trace fF) = [CallSelect])
    /\ (db_calls (trace fM) = [] \/ db_calls (trace fM) = [CallSelect])
    /\ (db_calls (trace aF) = []
        \/ db_calls (trace aF) = [CallInsert; CallSelect])
    /\ (db_calls (trace aM) = []
        \/ db_calls (trace aM) = [CallInsert; CallSelect]).
Proof.
  intros supabase env X extF extM x sF liveF sM liveM fF aF fM aM.
  split.
  { repeat split.
    - apply food_fetchItems_propagates.
    - apply food_add_propagates.
    - apply mood_fetchItems_propagates.
    - apply mood_add_propagates. }
  split; [split; intros v st; reflexivity |].
  split; [intros H; apply (food_fetchItems_failed supabase extF x sF liveF H) |].
  split; [intros H; apply (mood_fetchItems_failed supabase extM x sM liveM H) |].
  split.
  { unfold fF. rewrite food_fetchItems_db_calls.
    destruct (truthyOpt (FoodState.userId sF)); auto. }
  split.
  { unfold fM. rewrite mood_fetchItems_db_calls.
    destruct (truthyOpt (MoodState.userId sM)); auto. }
  split.
  - destruct (food_add_calls supabase extF x sF liveF)
      as [(_ & H & _) | (_ & H & _)]; auto.
  - destruct (mood_add_calls supabase env extM x sM liveM)
      as [(_ & H & _) | (_ & H & _)]; auto.
Qed.

(** A database that refuses the select leaves its message in [error]. *)
Lemma backend_error_sets_message_witness :
  FoodState.error
    (final (run FoodState.apply (scripted selectFails)
              (FoodScreen.fetchItems someClient alice) alice tt)) =
  Some (message boom)
  /\ MoodState.error
       (final (run MoodState.apply (scripted selectFails)
                 (MoodScreen.fetchItems someClient bob) bob tt)) =
     Some (message boom).
Proof.
  destruct (backend_error_sets_message someClient noKeys
              (scripted selectFails) (scripted selectFails) tt
              alice alice bob bob)
    as (_ & _ & HF & HM & _).
  split.
  - destruct HF as (e & He & Herr); [reflexivity |].
    vm_compute in He. injection He as <-. exact Herr.
  - destruct HM as (e & He & Herr); [reflexivity |].
    vm_compute in He. injection He as <-. exact Herr.
Defined.

(** C2.  The claim fails on the insert path.  In a world whose insert is
    refused and whose select is answered, the add operation on a valid
    form calls [setError] with the insert's message, and the [fetchItems]
    it awaits next opens with [setError(null)]: the values given to
    [setError] are null, the message, null, in this order, and [error] is
    null when the operation returns, although the insert failed.  This is
    so on the food screen and on the mood journal. *)
Theorem failed_insert_message_is_cleared :
  let f := run FoodState.apply (scripted insertFails)
             (FoodScreen.addFoodEntry someClient alice) alice tt in
  let m := run MoodState.apply (scripted insertFails)
             (MoodScreen.addItem someClient noKeys bob) bob tt in
  (foodFormValid alice = true
   /\ failed_inserts (trace f) = [boom]
   /\ pick (fun e => match state_set e with
                     | Some (FoodState.setError v) => Some v
                     | _ => None
                     end) (trace f)
      = [None; Some (message boom); None]
   /\ FoodState.error (final f) = None)
  /\ (moodFormValid bob = true
      /\ failed_inserts (trace m) = [boom]
      /\ pick (fun e => match state_set e with
                        | Some (MoodState.setError v) => Some v
                        | _ => None
                        end) (trace m)
         = [None; Some (message boom); None]
      /\ MoodState.error (final m) = None).
Proof. repeat split. Qed.

(* ===================================================================== *)
(** * C3: validate, insert, refresh *)
(* ===================================================================== *)

(** C3. Whenever [addFoodEntry] or [addItem] reaches the insert, the form
    had passed validation, the database calls of the whole operation are
    the insert and then one select, and that select is the one of a run of
    [fetchItems] which starts after the insert has been answered and is
    followed only by [setInserting(false)].  The world [ext] is arbitrary:
    the insert may have succeeded or failed. *)
Theorem refresh_follows_insert :
  forall (supabase : SupabaseClient) (env : ProcessEnv) (X : Type)
    (extF : forall R, cmd FoodState.setter R -> X -> R * X)
    (extM : forall R, cmd MoodState.setter R -> X -> R * X)
    (x : X) (sF liveF : FoodState.t) (sM liveM : MoodState.t),
    let tF := trace (run FoodState.apply extF
                       (FoodScreen.addFoodEntry supabase sF) liveF x) in
    let tM := trace (run MoodState.apply extM
                       (MoodScreen.addItem supabase env sM) liveM x) in
    (existsb (@is_insert _) tF = true ->
     foodFormValid sF = true
     /\ db_calls tF = [CallInsert; CallSelect]
     /\ exists pre st' x',
         tF = pre
              ++ trace (run FoodState.apply extF
                          (FoodScreen.fetchItems supabase sF) st' x')
              ++ [setEv (FoodState.setInserting false)]
         /\ db_calls pre = [CallInsert])
    /\ (existsb (@is_insert _) tM = true ->
        moodFormValid sM = true
        /\ db_calls tM = [CallInsert; CallSelect]
        /\ exists pre st' x',
            tM = pre
                 ++ trace (run MoodState.apply extM
                             (MoodScreen.fetchItems supabase sM) st' x')
                 ++ [setEv (MoodState.setInserting false)]
            /\ db_calls pre = [CallInsert]).
Proof.
  intros supabase env X extF extM x sF liveF sM liveM tF tM. split.
  - intros Hins.
    destruct (food_add_calls supabase extF x sF liveF)
      as [(Hno & _) | (_ & Hcalls & row & [Hv _] & _)].
    { fold tF in Hno. rewrite Hno in Hins. discriminate Hins. }
    split; [exact Hv |]. split; [exact Hcalls |].
    destruct (add_trace_refreshes (food_add_trace supabase extF x sF liveF)
                Hins)
      as (pre & fetched & Ht & (_ & st' & x' & ->) & Hpre).
    exists pre, st', x'. split; assumption.
  - intros Hins.
    destruct (mood_add_calls supabase env extM x sM liveM)
      as [(Hno & _) | (_ & Hcalls & row & [Hv _] & _)].
    { fold tM in Hno. rewrite Hno in Hins. discriminate Hins. }
    split; [exact Hv |]. split; [exact Hcalls |].
    destruct (add_trace_refreshes
                (mood_add_trace supabase env extM x sM liveM) Hins)
      as (pre & fetched & Ht & (_ & st' & x' & ->) & Hpre).
    exists pre, st', x'. split; assumption.
Qed.

(** The refresh follows an insert that failed as it follows one that
    succeeded. *)
Lemma refresh_follows_insert_witness :
  (insert_failed
     (trace (run FoodState.apply (scripted insertFails)
               (FoodScreen.addFoodEntry someClient alice) alice tt)) = true
   /\ db_calls
        (trace (run FoodState.apply (scripted insertFails)
                  (FoodScreen.addFoodEntry someClient alice) alice tt)) =
      [CallInsert; CallSelect])
  /\ (insert_failed
        (trace (run MoodState.apply (scripted quiet)
                  (MoodScreen.addItem someClient noKeys bob) bob tt)) = false
      /\ db_calls
           (trace (run MoodState.apply (scripted quiet)
                     (MoodScreen.addItem someClient noKeys bob) bob tt)) =
         [CallInsert; CallSelect]).
Proof.
  destruct (refresh_follows_insert someClient noKeys
              (scripted insertFails) (scripted quiet) tt
              alice alice bob bob) as [HF HM].
  split; (split; [reflexivity |]).
  - apply HF. reflexivity.
  - apply HM. reflexivity.
Defined.

(* ===================================================================== *)
(** * C4: [fetchWeather] *)
(* ===================================================================== *)

Section FetchWeather.

Variable X : Type.

Lemma mood_fetchWeather_run :
  forall (env : ProcessEnv)
    (ext : forall R, cmd MoodState.setter R -> X -> R * X) (x : X)
    (live : MoodState.t) (lat lng : Q),
    let r := run MoodState.apply ext (MoodScreen.fetchWeather env lat lng)
               live x in
    match asTruthy (EXPO_PUBLIC_WEATHER_API_KEY env) with
    | None => out r = Returned nulls /\ count (@is_fetch _) (trace r) = 0%nat
    | Some key =>
        out r =
        Returned (described_weather
                    (fst (ext _ (Fetch OpenWeatherMap
                                   (openWeatherUrl key lat lng)) x)))
        /\ count (@is_fetch _) (trace r) = 1%nat
    end.
Proof.
  intros env ext x live lat lng.
  unfold MoodScreen.fetchWeather, MoodScreen.WEATHER_API_KEY,
    described_weather, openWeatherUrl.
  destruct (asTruthy (EXPO_PUBLIC_WEATHER_API_KEY env)) as [key |];
    [| split; reflexivity].
  steps; split; reflexivity.
Qed.

Lemma legacy_fetchWeather_run :
  forall (ext : forall R, cmd LegacyState.setter R -> X -> R * X) (x : X)
    (live : LegacyState.t) (lat lng : Q),
    let r := run LegacyState.apply ext (LegacyScreen.fetchWeather lat lng)
               live x in
    out r =
    Returned (described_condition
                (fst (ext _ (Fetch OpenWeatherMap
                               (openWeatherUrl LegacyScreen.WEATHER_API_KEY
                                  lat lng)) x)))
    /\ count (@is_fetch _) (trace r) = 1%nat.
Proof.
  intros ext x live lat lng.
  unfold LegacyScreen.fetchWeather, described_condition, openWeatherUrl.
  steps; split; reflexivity.
Qed.

End FetchWeather.

(** A response that is not ok but carries a weather array: the earlier
    [fetchWeather] returns its condition, the current one the two nulls. *)
Lemma legacy_fetchWeather_ignores_status :
  option_map (@ok _) (openWeather rainyError) = Some false
  /\ out (run LegacyState.apply (scripted rainyError)
            (LegacyScreen.fetchWeather 52 13) LegacyState.initial tt) =
     Returned (Some (str "Rain"))
  /\ out (run MoodState.apply (scripted rainyError)
            (MoodScreen.fetchWeather allKeys 52 13) MoodState.initial tt) =
     Returned nulls.
Proof. repeat split. Qed.

(** C4, amended.  Both forms of [fetchWeather] make at most one request
    and never throw.  The current one makes none and returns the two nulls
    when the key is not configured; otherwise it makes exactly one and
    returns [{ weather: data.weather[0].main, temperature: data.main?.temp
    ?? null }] when the response is ok and its body has a non-empty weather
    array, and the two nulls in every other case.  The earlier one makes
    exactly one request and returns the condition alone: [data.weather[0]
    .main] whenever the body can be read and has a non-empty weather array,
    without looking at the status, and [null] otherwise. *)
Theorem fetchWeather_single_request :
  forall (env : ProcessEnv) (X : Type)
    (extM : forall R, cmd MoodState.setter R -> X -> R * X)
    (extL : forall R, cmd LegacyState.setter R -> X -> R * X)
    (x : X) (liveM : MoodState.t) (liveL : LegacyState.t) (lat lng : Q),
    let rM := run MoodState.apply extM (MoodScreen.fetchWeather env lat lng)
                liveM x in
    let rL := run LegacyState.apply extL (LegacyScreen.fetchWeather lat lng)
                liveL x in
    match asTruthy (EXPO_PUBLIC_WEATHER_API_KEY env) with
    | None =>
        out rM = Returned nulls /\ count (@is_fetch _) (trace rM) = 0%nat
    | Some key =>
        out rM =
        Returned (described_weather
                    (fst (extM _ (Fetch OpenWeatherMap
                                    (openWeatherUrl key lat lng)) x)))
        /\ count (@is_fetch _) (trace rM) = 1%nat
    end
    /\ out rL =
       Returned (described_condition
                   (fst (extL _ (Fetch OpenWeatherMap
                                   (openWeatherUrl
                                      LegacyScreen.WEATHER_API_KEY lat lng))
                           x)))
    /\ count (@is_fetch _) (trace rL) = 1%nat.
Proof.
  intros env X extM extL x liveM liveL lat lng rM rL.
  split.
  - apply mood_fetchWeather_run.
  - apply legacy_fetchWeather_run.
Qed.

(* ===================================================================== *)
(** * C5: [searchFoodAPI] *)
(* ===================================================================== *)

(** [Math.round] gives the nearest integer, the upper one at a tie. *)
Lemma Math_round_nearest :
  forall x : Q,
    (x - (1 # 2) < inject_Z (Math_round x))%Q
    /\ (inject_Z (Math_round x) <= x + (1 # 2))%Q.
Proof.
  intros x. unfold Math_round. split.
  - pose proof (Qlt_floor (x + (1 # 2))) as H.
    rewrite inject_Z_plus in H.
    apply Qplus_lt_l with (z := 1%Q).
    eapply Qle_lt_trans; [| exact H].
    ring_simplify. apply Qle_refl.
  - apply Qfloor_le.
Qed.

Lemma Math_round_integer : forall z : Z, Math_round (inject_Z z) = z.
Proof.
  intros z. unfold Math_round.
  pose proof (Qfloor_le (inject_Z z + (1 # 2))) as Hle.
  pose proof (Qlt_floor (inject_Z z + (1 # 2))) as Hlt.
  set (f := Qfloor (inject_Z z + (1 # 2))) in *.
  assert (H1 : (inject_Z f < inject_Z (z + 1))%Q).
  { eapply Qle_lt_trans; [exact Hle |].
    rewrite inject_Z_plus. apply Qplus_lt_r. reflexivity. }
  assert (H2 : (inject_Z z < inject_Z (f + 1))%Q).
  { eapply Qle_lt_trans; [| exact Hlt].
    rewrite <- (Qplus_0_r (inject_Z z)) at 1.
    apply Qplus_le_r. discriminate. }
  rewrite <- Zlt_Qlt in H1, H2. lia.
Qed.

(** The callback of [map] produces what the specification describes. *)
Lemma toNutritionInfo_described :
  forall food : Usda.Food,
    FoodScreen.toNutritionInfo food = described_food food.
Proof.
  intros food.
  unfold FoodScreen.toNutritionInfo, described_food, described_nutrient,
    FoodScreen.nutrientValue.
  assert (Hname :
    match asTruthy (Usda.description food) with
    | Some d => d
    | None => str "Unknown Food"
    end =
    match Usda.description food with
    | Some d => if truthy d then d else str "Unknown Food"
    | None => str "Unknown Food"
    end).
  { destruct (Usda.description food) as [[| c d] |]; reflexivity. }
  rewrite Hname.
  destruct (Usda.foodNutrients food) as [nutrients |]; [| reflexivity].
  f_equal;
    match goal with
    | |- context [find ?p nutrients] =>
        destruct (find p nutrients) as [n |]; [| reflexivity];
        destruct (Usda.value n); reflexivity
    end.
Qed.

Section SearchFood.

Variable X : Type.

Lemma searchFoodAPI_run :
  forall (env : ProcessEnv)
    (ext : forall R, cmd FoodState.setter R -> X -> R * X) (x : X)
    (live : FoodState.t) (query : jsstring),
    let r := run FoodState.apply ext (FoodScreen.searchFoodAPI env query)
               live x in
    match asTruthy (EXPO_PUBLIC_FOOD_API_KEY env) with
    | None => out r = Returned [] /\ count (@is_fetch _) (trace r) = 0%nat
    | Some key =>
        if isWellFormed query then
          let answer :=
            fst (ext _ (Fetch FoodDataCentral (usdaUrl key query)) x) in
          out r =
          Returned (match foods_of answer with
                    | Some foods => map FoodScreen.toNutritionInfo foods
                    | None => []
                    end)
          /\ count (@is_fetch _) (trace r) = 1%nat
        else out r = Returned [] /\ count (@is_fetch _) (trace r) = 0%nat
    end.
Proof.
  intros env ext x live query.
  unfold FoodScreen.searchFoodAPI, foods_of, usdaUrl.
  destruct (asTruthy (EXPO_PUBLIC_FOOD_API_KEY env)) as [key |];
    [| split; reflexivity].
  destruct (isWellFormed query); cbn [negb];
    steps; split; reflexivity.
Qed.

End SearchFood.

(** A search that matches nothing returns the empty list although the key
    is configured, the response is ok, its body has a [foods] array and
    nothing is thrown. *)
Lemma search_without_match_is_empty :
  asTruthy (EXPO_PUBLIC_FOOD_API_KEY allKeys) = Some (str "usda-key")
  /\ claimed_empty (usda noMatch) = false
  /\ out (run FoodState.apply (scripted noMatch)
            (FoodScreen.searchFoodAPI allKeys (str "zzz"))
            FoodState.initial tt) = Returned []
  /\ count (@is_fetch _)
       (trace (run FoodState.apply (scripted noMatch)
                 (FoodScreen.searchFoodAPI allKeys (str "zzz"))
                 FoodState.initial tt)) = 1%nat.
Proof. repeat split. Qed.

(** C5, amended.  [searchFoodAPI] never throws and makes at most one
    request.  Without a configured key it makes no request and returns the
    empty list; so it does, with a key, for a query that
    [encodeURIComponent] rejects (one with an unpaired surrogate), where
    the [URIError] is caught.  Otherwise it makes exactly one request and
    returns, for the foods of an ok response whose body has a [foods]
    array, one item per food, in order: the food's description, or
    'Unknown Food' when it is missing or empty, and for calories, protein,
    carbs and fat the rounded value of the first nutrient with id 1008,
    1003, 1005 and 1004, 0 when there is none.  The result is then empty
    exactly when the request failed, the response is not ok, the body
    cannot be read or has no [foods] array, or the [foods] array is
    empty. *)
Theorem searchFoodAPI_single_request :
  forall (env : ProcessEnv) (X : Type)
    (ext : forall R, cmd FoodState.setter R -> X -> R * X)
    (x : X) (live : FoodState.t) (query : jsstring),
    let r := run FoodState.apply ext (FoodScreen.searchFoodAPI env query)
               live x in
    (count (@is_fetch _) (trace r) <= 1)%nat
    /\ match asTruthy (EXPO_PUBLIC_FOOD_API_KEY env) with
       | None => out r = Returned [] /\ count (@is_fetch _) (trace r) = 0%nat
       | Some key =>
           if isWellFormed query then
             let answer :=
               fst (ext _ (Fetch FoodDataCentral (usdaUrl key query)) x) in
             let found :=
               match foods_of answer with
               | Some foods => map described_food foods
               | None => []
               end in
             out r = Returned found
             /\ count (@is_fetch _) (trace r) = 1%nat
             /\ is_nil found =
                (claimed_empty answer
                 || match foods_of answer with
                    | Some foods => is_nil foods
                    | None => false
                    end)
           else
             out r = Returned [] /\ count (@is_fetch _) (trace r) = 0%nat
       end.
Proof.
  intros env X ext x live query r.
  pose proof (searchFoodAPI_run env ext x live query) as H.
  cbv zeta in H. fold r in H.
  destruct (asTruthy (EXPO_PUBLIC_FOOD_API_KEY env)) as [key |];
    [| split; [rewrite (proj2 H); lia | exact H]].
  destruct (isWellFormed query);
    [| split; [rewrite (proj2 H); lia | exact H]].
  cbv zeta. destruct H as [Hout Hcount].
  split; [rewrite Hcount; lia |].
  split; [| split; [exact Hcount |]].
  - rewrite Hout. f_equal.
    destruct (foods_of _); [| reflexivity].
    apply map_ext. exact toNutritionInfo_described.
  - unfold foods_of, claimed_empty. cbn [body] in *.
    match goal with
    | |- context [fst (ext ?T ?c x)] =>
        destruct (fst (ext T c x)) as [resp |]; [| reflexivity]
    end.
    destruct (ok resp); [| reflexivity].
    destruct (json resp) as [data |]; [| reflexivity].
    cbn. destruct (Usda.foods data) as [[| f fs] |]; reflexivity.
Qed.

(* ===================================================================== *)
(** * C6, C8, C9: the row that is inserted *)
(* ===================================================================== *)

(** The earlier mood journal inserts a row without a [user_id], and the
    database accepts it. *)
Lemma legacy_row_has_no_user_id :
  let t := trace (run LegacyState.apply (scripted quiet)
                    (LegacyScreen.addItem someClient carol) carol tt) in
  insert_failed t = false
  /\ map (get "text") (rows_inserted t) = [Some (VStr (str "ok"))]
  /\ map (get "user_id") (rows_inserted t) = [None].
Proof. repeat split. Qed.

(** C6, amended.  An add operation hands at most one row to [insert].  On
    the food screen the row carries the trimmed food name, the parsed
    calories, the selected meal type, the clamped rating, the trimmed notes
    or [null] when they are empty, and the loaded user id; on the current
    mood journal it carries the trimmed text, the clamped mood and the
    loaded user id; on the earlier mood journal it carries the trimmed text
    and the clamped mood, and no [user_id] at all. *)
Theorem add_row_fields :
  forall (supabase : SupabaseClient) (env : ProcessEnv) (X : Type)
    (extF : forall R, cmd FoodState.setter R -> X -> R * X)
    (extM : forall R, cmd MoodState.setter R -> X -> R * X)
    (extL : forall R, cmd LegacyState.setter R -> X -> R * X)
    (x : X) (sF liveF : FoodState.t) (sM liveM : MoodState.t)
    (sL liveL : LegacyState.t),
    let rowsF := rows_inserted
                   (trace (run FoodState.apply extF
                             (FoodScreen.addFoodEntry supabase sF) liveF x)) in
    let rowsM := rows_inserted
                   (trace (run MoodState.apply extM
                             (MoodScreen.addItem supabase env sM) liveM x)) in
    let rowsL := rows_inserted
                   (trace (run LegacyState.apply extL
                             (LegacyScreen.addItem supabase sL) liveL x)) in
    ((List.length rowsF <= 1)%nat
     /\ Forall (fun row =>
          get "food_name" row = Some (VStr (trim (FoodState.foodName sF)))
          /\ get "calories" row =
             Some (VInt (orNumber (parseInt (FoodState.calories sF) 10) 0))
          /\ get "meal_type" row = Some (VStr (mealName (FoodState.mealType sF)))
          /\ get "rating" row =
             Some (VInt (Z.min 5 (Z.max 1
                     (orNumber (parseInt (FoodState.rating sF) 10) 3))))
          /\ get "notes" row =
             Some (ofString (nonEmpty (trim (FoodState.notes sF))))
          /\ exists u, FoodState.userId sF = Some u /\ u <> []
                       /\ get "user_id" row = Some (VStr u)) rowsF)
    /\ ((List.length rowsM <= 1)%nat
        /\ Forall (fun row =>
             get "text" row = Some (VStr (trim (MoodState.text sM)))
             /\ get "mood" row =
                Some (VInt (Z.min 5 (Z.max 1
                        (orNumber (parseInt (MoodState.mood sM) 10) 3))))
             /\ exists u, MoodState.userId sM = Some u /\ u <> []
                          /\ get "user_id" row = Some (VStr u)) rowsM)
    /\ ((List.length rowsL <= 1)%nat
        /\ Forall (fun row =>
             get "text" row = Some (VStr (trim (LegacyState.text sL)))
             /\ get "mood" row =
                Some (VInt (Z.min 5 (Z.max 1
                        (orNumber (parseInt (LegacyState.mood sL) 10) 3))))
             /\ get "user_id" row = None) rowsL).
Proof.
  intros supabase env X extF extM extL x sF liveF sM liveM sL liveL
    rowsF rowsM rowsL.
  split; [| split].
  - destruct (food_add_calls supabase extF x sF liveF)
      as [(_ & _ & H) | (_ & _ & row & [Hv ->] & H)];
      unfold rowsF; rewrite H; cbn; split; auto.
    constructor; [| constructor].
    apply foodFormValid_iff in Hv. destruct Hv as ((u & Hu & Hne) & _).
    repeat split. exists u.
    split; [exact Hu | split; [exact Hne |]]. cbn. rewrite Hu. reflexivity.
  - destruct (mood_add_calls supabase env extM x sM liveM)
      as [(_ & _ & H) | (_ & _ & row & (Hv & l & ->) & H)];
      unfold rowsM; rewrite H; cbn; split; auto.
    constructor; [| constructor].
    apply moodFormValid_iff in Hv. destruct Hv as ((u & Hu & Hne) & _).
    repeat split. exists u.
    split; [exact Hu | split; [exact Hne |]]. cbn. rewrite Hu. reflexivity.
  - destruct (legacy_add_calls supabase extL x sL liveL)
      as [(_ & _ & H) | (_ & _ & row & (Hv & [[lat lng] w] & ->) & H)];
      unfold rowsL; rewrite H; cbn; split; auto.
Qed.

(** With a selected item whose fat rounds to 0, the stored [fiber] is
    [null], not the item's fat value. *)
Lemma fiber_of_fatless_item_is_null :
  let t := trace (run FoodState.apply (scripted quiet)
                    (FoodScreen.addFoodEntry someClient aliceWithApple)
                    aliceWithApple tt) in
  insert_failed t = false
  /\ FoodState.selectedNutrition aliceWithApple = Some apple
  /\ NutritionInfo.fat apple = 0
  /\ map (get "fiber") (rows_inserted t) = [Some VNull]
  /\ map (get "fiber") (rows_inserted t)
     <> [Some (VInt (NutritionInfo.fat apple))].
Proof. repeat split. discriminate. Qed.

(** C8, amended.  In every row [addFoodEntry] inserts, [fiber] equals
    [fat]; with a nutrition item selected both hold the item's fat value
    when that value is not 0 and [null] when it is 0, and likewise
    [protein] and [carbs] hold the item's value or [null] when it is 0;
    with no item selected [protein], [carbs], [fat] and [fiber] are all
    [null]. *)
Theorem fiber_stores_fat_or_null :
  forall (supabase : SupabaseClient) (X : Type)
    (ext : forall R, cmd FoodState.setter R -> X -> R * X)
    (x : X) (s live : FoodState.t),
    Forall (fun row =>
      get "fiber" row = get "fat" row
      /\ match FoodState.selectedNutrition s with
         | Some n =>
             get "fiber" row =
             Some (if NutritionInfo.fat n =? 0 then VNull
                   else VInt (NutritionInfo.fat n))
             /\ get "protein" row =
                Some (if NutritionInfo.protein n =? 0 then VNull
                      else VInt (NutritionInfo.protein n))
             /\ get "carbs" row =
                Some (if NutritionInfo.carbs n =? 0 then VNull
                      else VInt (NutritionInfo.carbs n))
         | None =>
             get "protein" row = Some VNull /\ get "carbs" row = Some VNull
             /\ get "fat" row = Some VNull /\ get "fiber" row = Some VNull
         end)
      (rows_inserted
         (trace (run FoodState.apply ext (FoodScreen.addFoodEntry supabase s)
                   live x))).
Proof.
  intros supabase X ext x s live.
  eapply Forall_impl; [| apply food_add_rows].
  intros row [_ ->]. cbn. unfold orNull.
  destruct (FoodState.selectedNutrition s) as [n |]; [| repeat split].
  split; [reflexivity |].
  destruct (NutritionInfo.fat n =? 0), (NutritionInfo.protein n =? 0),
    (NutritionInfo.carbs n =? 0); repeat split.
Qed.

Lemma clamped_range : forall raw : jsstring, 1 <= clamped raw <= 5.
Proof. intros raw. unfold clamped. lia. Qed.

(** C9.  The mood of a row inserted by either mood journal and the rating
    of a row inserted by the food screen are [parseInt] of the raw input
    with radix 10, replaced by 3 when that is [NaN] (or 0), then raised to
    at least 1 and lowered to at most 5: an integer between 1 and 5 for
    every input string. *)
Theorem inserted_mood_and_rating_in_range :
  forall (supabase : SupabaseClient) (env : ProcessEnv) (X : Type)
    (extF : forall R, cmd FoodState.setter R -> X -> R * X)
    (extM : forall R, cmd MoodState.setter R -> X -> R * X)
    (extL : forall R, cmd LegacyState.setter R -> X -> R * X)
    (x : X) (sF liveF : FoodState.t) (sM liveM : MoodState.t)
    (sL liveL : LegacyState.t) (raw : jsstring),
    let number (input : jsstring) :=
      Z.min 5 (Z.max 1 (orNumber (parseInt input 10) 3)) in
    (1 <= number raw <= 5
     /\ (parseInt raw 10 = None -> number raw = 3))
    /\ Forall (fun row =>
         get "rating" row = Some (VInt (number (FoodState.rating sF))))
         (rows_inserted
            (trace (run FoodState.apply extF
                      (FoodScreen.addFoodEntry supabase sF) liveF x)))
    /\ Forall (fun row =>
         get "mood" row = Some (VInt (number (MoodState.mood sM))))
         (rows_inserted
            (trace (run MoodState.apply extM
                      (MoodScreen.addItem supabase env sM) liveM x)))
    /\ Forall (fun row =>
         get "mood" row = Some (VInt (number (LegacyState.mood sL))))
         (rows_inserted
            (trace (run LegacyState.apply extL
                      (LegacyScreen.addItem supabase sL) liveL x))).
Proof.
  intros supabase env X extF extM extL x sF liveF sM liveM sL liveL raw
    number.
  split; [| split; [| split]].
  - split; [apply clamped_range |].
    intros H. unfold number. rewrite H. reflexivity.
  - eapply Forall_impl; [| apply food_add_rows].
    intros row [_ ->]. reflexivity.
  - eapply Forall_impl; [| apply mood_add_rows].
    intros row (_ & l & ->). reflexivity.
  - eapply Forall_impl; [| apply legacy_add_rows].
    intros row (_ & [[lat lng] w] & ->). reflexivity.
Qed.

(** A raw input that is not a number becomes 3. *)
Lemma inserted_mood_and_rating_in_range_witness :
  Z.min 5 (Z.max 1 (orNumber (parseInt (str "good") 10) 3)) = 3.
Proof.
  apply (inserted_mood_and_rating_in_range someClient noKeys
           (scripted quiet) (scripted quiet) (scripted quiet) tt
           alice alice bob bob carol carol (str "good")).
  reflexivity.
Defined.

(* ===================================================================== *)
(** * C7: the one client *)
(* ===================================================================== *)

Section OneClient.

Variable supabase : SupabaseClient.
Variable env : ProcessEnv.
Variable X : Type.

Lemma food_add_client :
  forall (ext : forall R, cmd FoodState.setter R -> X -> R * X) (x : X)
    (s live : FoodState.t),
    on_client supabase
      (trace (run FoodState.apply ext (FoodScreen.addFoodEntry supabase s)
                live x)).
Proof.
  intros ext x s live.
  eapply add_trace_client; [| apply food_add_trace].
  intros f (_ & st & x' & ->). apply food_fetchItems_client.
Qed.

Lemma mood_add_client :
  forall (ext : forall R, cmd MoodState.setter R -> X -> R * X) (x : X)
    (s live : MoodState.t),
    on_client supabase
      (trace (run MoodState.apply ext (MoodScreen.addItem supabase env s)
                live x)).
Proof.
  intros ext x s live.
  eapply add_trace_client; [| apply mood_add_trace].
  intros f (_ & st & x' & ->). apply mood_fetchItems_client.
Qed.

Lemma legacy_add_client :
  forall (ext : forall R, cmd LegacyState.setter R -> X -> R * X) (x : X)
    (s live : LegacyState.t),
    on_client supabase
      (trace (run LegacyState.apply ext (LegacyScreen.addItem supabase s)
                live x)).
Proof.
  intros ext x s live.
  eapply add_trace_client; [| apply legacy_add_trace].
  intros f (st & x' & ->). apply legacy_fetchItems_client.
Qed.

Lemma food_clear_client :
  forall (ext : forall R, cmd FoodState.setter R -> X -> R * X) (x : X)
    (s live : FoodState.t),
    on_client supabase
      (trace (run FoodState.apply ext
                (FoodScreen.clearAllEntries_onPress supabase s) live x)).
Proof.
  intros ext x s live. unfold FoodScreen.clearAllEntries_onPress.
  steps; try solve [repeat constructor].
  unfold on_client.
  repeat (apply Forall_cons; [first [exact I | reflexivity] |]).
  apply food_fetchItems_client.
Qed.

End OneClient.

Lemma supabase_normal_iff :
  forall (sdk : SupabaseJs) (env : ProcessEnv) (c : SupabaseClient),
    Supabase.supabase sdk env = Normal c <->
    EXPO_PUBLIC_SUPABASE_URL env = Some (supabaseUrl c)
    /\ EXPO_PUBLIC_SUPABASE_KEY env = Some (supabaseKey c)
    /\ supabaseUrl c <> [] /\ supabaseKey c <> []
    /\ acceptsUrl sdk (supabaseUrl c) = true.
Proof.
  intros sdk env [u k]. unfold Supabase.supabase, createClient. cbn.
  destruct (EXPO_PUBLIC_SUPABASE_URL env) as [[| a u'] |],
    (EXPO_PUBLIC_SUPABASE_KEY env) as [[| b k'] |]; cbn;
    split; try discriminate;
    try (intros (H1 & H2 & H3 & H4 & H5); congruence).
  - destruct (acceptsUrl sdk (a :: u')) eqn:Hok; [| discriminate].
    intros [= <- <-]. repeat split; try discriminate. exact Hok.
  - intros ([= <-] & [= <-] & _ & _ & Hok). cbn in Hok. rewrite Hok.
    reflexivity.
Qed.

(** The claim as worded fails: with neither variable set the key is
    absent, and what is thrown is the message about the URL, whose guard
    comes first. *)
Lemma missing_key_is_reported_after_the_url :
  EXPO_PUBLIC_SUPABASE_KEY noKeys = None
  /\ Supabase.supabase httpOnly noKeys =
     ThrowError (str "Missing EXPO_PUBLIC_SUPABASE_URL")
  /\ Supabase.supabase httpOnly noKeys <>
     ThrowError (str "Missing EXPO_PUBLIC_SUPABASE_KEY").
Proof. repeat split. discriminate. Qed.

(** C7, amended.  Evaluating lib/supabase.ts throws 'Missing
    EXPO_PUBLIC_SUPABASE_URL' when the URL variable is absent (or empty);
    with the URL present it throws 'Missing EXPO_PUBLIC_SUPABASE_KEY' when
    the key variable is absent (or empty); with both present it completes
    as [createClient] does, which throws on a URL the library does not
    accept.  So it yields a client exactly when both are present and
    non-empty and the library accepts the URL, the client made from the
    two.  Without a client there are no screens, and when there are, every
    database and auth call of every screen function is made on that one
    client. *)
Theorem supabase_client_needs_both_variables :
  forall (sdk : SupabaseJs) (env : ProcessEnv),
    (truthyOpt (EXPO_PUBLIC_SUPABASE_URL env) = false ->
     Supabase.supabase sdk env =
     ThrowError (str "Missing EXPO_PUBLIC_SUPABASE_URL"))
    /\ (truthyOpt (EXPO_PUBLIC_SUPABASE_URL env) = true ->
        truthyOpt (EXPO_PUBLIC_SUPABASE_KEY env) = false ->
        Supabase.supabase sdk env =
        ThrowError (str "Missing EXPO_PUBLIC_SUPABASE_KEY"))
    /\ (forall url anonKey,
          asTruthy (EXPO_PUBLIC_SUPABASE_URL env) = Some url ->
          asTruthy (EXPO_PUBLIC_SUPABASE_KEY env) = Some anonKey ->
          Supabase.supabase sdk env = createClient sdk url anonKey
          /\ (acceptsUrl sdk url = false ->
              Supabase.supabase sdk env = ThrowError (refusal sdk url)))
    /\ (forall c,
          Supabase.supabase sdk env = Normal c <->
          EXPO_PUBLIC_SUPABASE_URL env = Some (supabaseUrl c)
          /\ EXPO_PUBLIC_SUPABASE_KEY env = Some (supabaseKey c)
          /\ supabaseUrl c <> [] /\ supabaseKey c <> []
          /\ acceptsUrl sdk (supabaseUrl c) = true)
    /\ (forall m, Supabase.supabase sdk env = ThrowError m ->
                  app sdk env = ThrowError m)
    /\ (forall scr, app sdk env = Normal scr ->
                    Supabase.supabase sdk env = Normal (client scr)
                    /\ screens_call_on (client scr) scr).
Proof.
  intros sdk env. split; [| split; [| split; [| split; [| split]]]].
  - unfold Supabase.supabase.
    destruct (EXPO_PUBLIC_SUPABASE_URL env) as [[| a u] |]; cbn;
      intros H; try discriminate H; reflexivity.
  - unfold Supabase.supabase.
    destruct (EXPO_PUBLIC_SUPABASE_URL env) as [[| a u] |]; cbn;
      intros H; try discriminate H.
    destruct (EXPO_PUBLIC_SUPABASE_KEY env) as [[| b k] |]; cbn;
      intros H'; try discriminate H'; reflexivity.
  - intros url anonKey Hu Hk. unfold Supabase.supabase. cbv zeta.
    rewrite Hu, Hk. split; [reflexivity |].
    intros Hno. unfold createClient. rewrite Hno. reflexivity.
  - apply supabase_normal_iff.
  - intros m H. unfold app. rewrite H. reflexivity.
  - intros scr. unfold app.
    destruct (Supabase.supabase sdk env) as [c | m]; [| discriminate].
    intros [= <-]. split; [reflexivity |].
    intros X extF extM extL extP x sF liveF sM liveM sL liveL liveP.
    cbn [client food_fetchItems food_addFoodEntry food_getCurrentUser
         food_clearAllEntries_onPress mood_fetchItems mood_addItem
         mood_getCurrentUser legacy_fetchItems legacy_addItem
         profile_getUser profile_handleLogout_onPress].
    repeat split.
    + apply food_fetchItems_client.
    + apply food_add_client.
    + repeat constructor.
    + apply food_clear_client.
    + apply mood_fetchItems_client.
    + apply mood_add_client.
    + repeat constructor.
    + apply legacy_fetchItems_client.
    + apply legacy_add_client.
    + repeat constructor.
    + unfold ProfileScreen.handleLogout_onPress. steps; repeat constructor.
Qed.

(** With only the URL set the key is reported; with both set and a URL
    the library accepts there are screens on the one client; with both
    set and a URL it refuses there are none. *)
Lemma supabase_client_needs_both_variables_witness :
  Supabase.supabase httpOnly
    {| EXPO_PUBLIC_SUPABASE_URL := Some (str "https://project.supabase.co");
       EXPO_PUBLIC_SUPABASE_KEY := None;
       EXPO_PUBLIC_FOOD_API_KEY := None;
       EXPO_PUBLIC_WEATHER_API_KEY := None |} =
  ThrowError (str "Missing EXPO_PUBLIC_SUPABASE_KEY")
  /\ Supabase.supabase httpOnly allKeys = Normal someClient
  /\ app httpOnly noKeys = ThrowError (str "Missing EXPO_PUBLIC_SUPABASE_URL")
  /\ Supabase.supabase httpOnly notAUrl =
     ThrowError (refusal httpOnly (str "not a url")).
Proof.
  split; [| split; [| split]].
  - apply (supabase_client_needs_both_variables httpOnly
             {| EXPO_PUBLIC_SUPABASE_URL :=
                  Some (str "https://project.supabase.co");
                EXPO_PUBLIC_SUPABASE_KEY := None;
                EXPO_PUBLIC_FOOD_API_KEY := None;
                EXPO_PUBLIC_WEATHER_API_KEY := None |}); reflexivity.
  - apply (supabase_client_needs_both_variables httpOnly allKeys).
    repeat split; discriminate.
  - apply (supabase_client_needs_both_variables httpOnly noKeys).
    apply (supabase_client_needs_both_variables httpOnly noKeys).
    reflexivity.
  - apply (proj2 (proj1 (proj2 (proj2
             (supabase_client_needs_both_variables httpOnly notAUrl)))
             (str "not a url") (str "anon") eq_refl eq_refl)).
    reflexivity.
Defined.

(* ===================================================================== *)
(** * C10: what [fetchItems] asks for *)
(* ===================================================================== *)

(** C10. On the food screen and on the current mood screen, [fetchItems]
    issues at most one query, and that query filters on [user_id] equal to
    the loaded user id, orders by [created_at] descending and limits to 50
    rows; the user id is the one the auth call answered with.  Without a
    loaded user id it makes no call at all and leaves the state as it was.
    When the select fails, [items] is the empty list afterwards, whatever
    was listed before. *)
Theorem fetchItems_reads_own_rows :
  forall (supabase : SupabaseClient) (X : Type)
    (extF : forall R, cmd FoodState.setter R -> X -> R * X)
    (extM : forall R, cmd MoodState.setter R -> X -> R * X)
    (x : X) (sF liveF : FoodState.t) (sM liveM : MoodState.t),
    let rF := run FoodState.apply extF (FoodScreen.fetchItems supabase sF)
                liveF x in
    let rM := run MoodState.apply extM (MoodScreen.fetchItems supabase sM)
                liveM x in
    (queries (trace rF) =
       if truthyOpt (FoodState.userId sF)
       then [userQuery "food_entries" (FoodState.userId sF)] else [])
    /\ (queries (trace rM) =
          if truthyOpt (MoodState.userId sM)
          then [userQuery "data" (MoodState.userId sM)] else [])
    /\ FoodState.userId
         (final (run FoodState.apply extF (FoodScreen.getCurrentUser supabase)
                   liveF x)) =
       asTruthy (option_map User.id (fst (extF _ (AuthGetUser supabase) x)))
    /\ MoodState.userId
         (final (run MoodState.apply extM (MoodScreen.getCurrentUser supabase)
                   liveM x)) =
       asTruthy (option_map User.id (fst (extM _ (AuthGetUser supabase) x)))
    /\ (truthyOpt (FoodState.userId sF) = false ->
        trace rF = [] /\ final rF = liveF /\ world rF = x)
    /\ (truthyOpt (MoodState.userId sM) = false ->
        trace rM = [] /\ final rM = liveM /\ world rM = x)
    /\ (select_failed (trace rF) = true -> FoodState.items (final rF) = [])
    /\ (select_failed (trace rM) = true -> MoodState.items (final rM) = []).
Proof.
  intros supabase X extF extM x sF liveF sM liveM rF rM.
  split; [apply food_fetchItems_queries |].
  split; [apply mood_fetchItems_queries |].
  split; [apply food_getCurrentUser_userId |].
  split; [apply mood_getCurrentUser_userId |].
  split.
  { intros H. subst rF. rewrite food_fetchItems_idle by exact H.
    repeat split. }
  split.
  { intros H. subst rM. rewrite mood_fetchItems_idle by exact H.
    repeat split. }
  split.
  - intros H. apply (food_fetchItems_failed supabase extF x sF liveF H).
  - intros H. apply (mood_fetchItems_failed supabase extM x sM liveM H).
Qed.

(** Before a user is loaded nothing happens; with a user and a database
    that refuses the select, the entry that was listed is gone. *)
Lemma fetchItems_reads_own_rows_witness :
  (trace (run FoodState.apply (scripted quiet)
            (FoodScreen.fetchItems someClient FoodState.initial)
            FoodState.initial tt) = []
   /\ trace (run MoodState.apply (scripted quiet)
               (MoodScreen.fetchItems someClient MoodState.initial)
               MoodState.initial tt) = [])
  /\ FoodState.items aliceListed = [yesterdaysToast]
  /\ FoodState.items
       (final (run FoodState.apply (scripted selectFails)
                 (FoodScreen.fetchItems someClient aliceListed)
                 aliceListed tt)) = []
  /\ MoodState.items bobListed = [yesterdaysMood]
  /\ MoodState.items
       (final (run MoodState.apply (scripted selectFails)
                 (MoodScreen.fetchItems someClient bobListed)
                 bobListed tt)) = [].
Proof.
  split.
  - destruct (fetchItems_reads_own_rows someClient (scripted quiet)
                (scripted quiet) tt FoodState.initial FoodState.initial
                MoodState.initial MoodState.initial)
      as (_ & _ & _ & _ & HF & HM & _).
    split.
    + apply HF. reflexivity.
    + apply HM. reflexivity.
  - destruct (fetchItems_reads_own_rows someClient (scripted selectFails)
                (scripted selectFails) tt aliceListed aliceListed
                bobListed bobListed)
      as (_ & _ & _ & _ & _ & _ & HF & HM).
    split; [reflexivity |].
    split; [apply HF; reflexivity |].
    split; [reflexivity |].
    apply HM; reflexivity.
Defined.

(* ===================================================================== *)
(** * More of the food screen: [sanitizeInput] *)
(* ===================================================================== *)

Lemma dropWhile_idempotent :
  forall (p : code_unit -> bool) (s : jsstring),
    dropWhile p (dropWhile p s) = dropWhile p s.
Proof.
  intros p s. destruct (dropWhile p s) as [| c rest] eqn:H; [reflexivity |].
  cbn. rewrite (dropWhile_head _ _ H). reflexivity.
Qed.

(** [trimEnd] keeps a prefix. *)
Lemma trimEnd_prefix :
  forall s : jsstring, exists dropped, s = trimEnd s ++ dropped.
Proof.
  intros s. unfold trimEnd.
  destruct (dropWhile_suffix isWhiteSpace (rev s)) as [d Hd].
  exists (rev d). rewrite <- rev_app_distr, <- Hd, rev_involutive.
  reflexivity.
Qed.

Lemma trimStart_of_trimmed :
  forall s : jsstring, trimStart (trim s) = trim s.
Proof.
  intros s. destruct (trim s) as [| c rest] eqn:H; [reflexivity |].
  destruct (trim_ends s) as [Hhead _].
  unfold trimStart. cbn. rewrite (Hhead c rest H). reflexivity.
Qed.

Lemma trimEnd_idempotent :
  forall s : jsstring, trimEnd (trimEnd s) = trimEnd s.
Proof.
  intros s. unfold trimEnd. rewrite rev_involutive, dropWhile_idempotent.
  reflexivity.
Qed.

Lemma trim_idempotent : forall s : jsstring, trim (trim s) = trim s.
Proof.
  intros s. unfold trim at 1. rewrite trimStart_of_trimmed.
  unfold trim. apply trimEnd_idempotent.
Qed.

Lemma dropWhile_incl :
  forall (p : code_unit -> bool) (s : jsstring) (c : code_unit),
    In c (dropWhile p s) -> In c s.
Proof.
  intros p s c. destruct (dropWhile_suffix p s) as [d Hd].
  intros H. rewrite Hd. apply in_or_app. right. exact H.
Qed.

Lemma trim_incl :
  forall (s : jsstring) (c : code_unit), In c (trim s) -> In c s.
Proof.
  intros s c H. unfold trim, trimEnd in H.
  apply in_rev, dropWhile_incl, in_rev in H.
  exact (dropWhile_incl _ _ _ H).
Qed.

Lemma dropWhile_length :
  forall (p : code_unit -> bool) (s : jsstring),
    (List.length (dropWhile p s) <= List.length s)%nat.
Proof.
  intros p s. induction s as [| a s IH]; [apply Nat.le_refl |].
  cbn. destruct (p a); [apply Nat.le_trans with (1 := IH) | ]; cbn; lia.
Qed.

Lemma trim_length : forall s : jsstring, length (trim s) <= length s.
Proof.
  intros s. unfold Js.length, trim, trimEnd, trimStart.
  rewrite length_rev.
  pose proof (dropWhile_length isWhiteSpace (rev (dropWhile isWhiteSpace s))).
  pose proof (dropWhile_length isWhiteSpace s).
  rewrite length_rev in *. lia.
Qed.

(** X1.  What [sanitizeInput] returns contains none of the five characters
    less-than, greater-than, ampersand, double quote and single quote, its
    first and its last code unit are not white space, and it is never
    longer than its input. *)
Theorem sanitizeInput_is_clean :
  forall input : jsstring,
    let clean := FoodScreen.sanitizeInput input in
    forallb (fun c => negb (existsb (N.eqb c) [60; 62; 38; 34; 39]%N)) clean
    = true
    /\ forallb (fun c => negb (isWhiteSpace c))
         (firstn 1 clean ++ firstn 1 (rev clean)) = true
    /\ length clean <= length input.
Proof.
  intros input clean. unfold clean, FoodScreen.sanitizeInput.
  split; [| split].
  - apply forallb_forall. intros c Hc.
    apply trim_incl in Hc. unfold stripMarkup in Hc.
    apply filter_In in Hc. exact (proj2 Hc).
  - destruct (trim_ends (stripMarkup input)) as [Hhead Hlast].
    rewrite forallb_app. apply andb_true_iff. split.
    + destruct (trim (stripMarkup input)) as [| c rest] eqn:H;
        [reflexivity |].
      cbn. rewrite (Hhead c rest eq_refl). reflexivity.
    + destruct (rev (trim (stripMarkup input))) as [| c rest] eqn:H;
        [reflexivity |].
      cbn. apply (f_equal (@rev code_unit)) in H.
      rewrite rev_involutive in H. cbn in H.
      rewrite (Hlast c (rev rest) H). reflexivity.
  - apply Z.le_trans with (1 := trim_length _).
    unfold Js.length, stripMarkup. apply Nat2Z.inj_le, filter_length_le.
Qed.

Lemma sanitizeInput_trimmed :
  forall input : jsstring,
    trim (FoodScreen.sanitizeInput input) = FoodScreen.sanitizeInput input.
Proof. intros input. apply trim_idempotent. Qed.

Lemma sanitizeInput_stripped :
  forall input : jsstring,
    stripMarkup (FoodScreen.sanitizeInput input) =
    FoodScreen.sanitizeInput input.
Proof.
  intros input. unfold FoodScreen.sanitizeInput.
  unfold stripMarkup at 1. apply forallb_filter_id.
  apply forallb_forall. intros c Hc. apply trim_incl in Hc.
  unfold stripMarkup in Hc. apply filter_In in Hc. apply Hc.
Qed.

(** X2.  [sanitizeInput] is idempotent, and a sanitized string is its own
    trimmed form: sanitizing or trimming again changes nothing. *)
Theorem sanitizeInput_idempotent :
  forall input : jsstring,
    FoodScreen.sanitizeInput (FoodScreen.sanitizeInput input) =
    FoodScreen.sanitizeInput input
    /\ trim (FoodScreen.sanitizeInput input) = FoodScreen.sanitizeInput input.
Proof.
  intros input. split; [| apply sanitizeInput_trimmed].
  unfold FoodScreen.sanitizeInput at 1.
  rewrite sanitizeInput_stripped. apply sanitizeInput_trimmed.
Qed.

(* ===================================================================== *)
(** * [toString] and [parseInt] *)
(* ===================================================================== *)

Lemma option_map_mul_1 :
  forall o : option Z, option_map (Z.mul 1) o = o.
Proof. intros [z |]; [| reflexivity]. cbn. destruct z; reflexivity. Qed.

(** With radix 10 nothing is stripped after the sign. *)
Lemma parseInt_unsigned :
  forall (c : code_unit) (s : jsstring),
    isWhiteSpace c = false -> (c =? 45)%N = false -> (c =? 43)%N = false ->
    parseInt (c :: s) 10 = digits 10 None (c :: s).
Proof.
  intros c s Hws Hm Hp. unfold parseInt, trimStart. cbn [dropWhile].
  rewrite Hws, Hm, Hp. cbn.
  destruct s as [| c1 rest]; cbn; apply option_map_mul_1.
Qed.

Lemma parseInt_minus :
  forall s : jsstring,
    parseInt (45%N :: s) 10 = option_map (Z.mul (-1)) (digits 10 None s).
Proof.
  intros s. unfold parseInt, trimStart. cbn.
  destruct s as [| c0 [| c1 rest]]; reflexivity.
Qed.

Ltac digit_step :=
  cbn [NilEmpty.string_of_uint str list_ascii_of_string map digits];
  match goal with
  | |- context [digitValue 10 (N_of_ascii ?a)] =>
      let v := eval vm_compute in (digitValue 10 (N_of_ascii a)) in
      change (digitValue 10 (N_of_ascii a)) with v
  end;
  cbv iota beta.

Lemma digits_from_positive :
  forall (d : Decimal.uint) (p : positive),
    digits 10 (Some (Zpos p)) (str (NilEmpty.string_of_uint d)) =
    Some (Zpos (Pos.of_uint_acc d p)).
Proof.
  induction d as [| d IH | d IH | d IH | d IH | d IH | d IH | d IH | d IH
                  | d IH | d IH]; intros p;
    [reflexivity | ..]; digit_step; cbn [Pos.of_uint_acc]; rewrite <- IH;
    do 2 f_equal; lia.
Qed.

Lemma digits_from_zero :
  forall d : Decimal.uint,
    digits 10 (Some 0) (str (NilEmpty.string_of_uint d)) =
    Some (Z.of_N (Pos.of_uint d)).
Proof.
  induction d as [| d IH | d IH | d IH | d IH | d IH | d IH | d IH | d IH
                  | d IH | d IH];
    [reflexivity | ..]; digit_step; cbn [Pos.of_uint];
    try exact IH; apply digits_from_positive.
Qed.

Lemma digits_of_numeral :
  forall d : Decimal.uint,
    d <> Decimal.Nil ->
    digits 10 None (str (NilEmpty.string_of_uint d)) =
    Some (Z.of_N (Pos.of_uint d)).
Proof.
  intros d Hd. rewrite <- digits_from_zero.
  destruct d; [contradiction | ..]; reflexivity.
Qed.

Lemma parseInt_of_numeral :
  forall d : Decimal.uint,
    d <> Decimal.Nil ->
    parseInt (str (NilEmpty.string_of_uint d)) 10 =
    Some (Z.of_N (Pos.of_uint d)).
Proof.
  intros d Hd. rewrite <- (digits_of_numeral Hd).
  destruct d; [contradiction | ..];
    cbn [NilEmpty.string_of_uint str list_ascii_of_string map];
    apply parseInt_unsigned; reflexivity.
Qed.

(** Reading back with [parseInt(_, 10)] the decimal numeral of an
    integer gives the integer again. *)
Lemma parseInt_decimal :
  forall z : Z, parseInt (decimal z) 10 = Some z.
Proof.
  intros [| p | p]; unfold decimal, Z.to_int, NilZero.string_of_int,
    NilZero.string_of_uint.
  - reflexivity.
  - pose proof (DecimalPos.Unsigned.to_uint_nonnil p) as Hn.
    destruct (Pos.to_uint p) eqn:Hd; [contradiction | ..];
      rewrite <- Hd in *; rewrite (parseInt_of_numeral Hn);
      rewrite DecimalPos.Unsigned.of_to; reflexivity.
  - pose proof (DecimalPos.Unsigned.to_uint_nonnil p) as Hn.
    assert (Hs : str (String "-"
                        match Pos.to_uint p with
                        | Decimal.Nil => "0"%string
                        | _ => NilEmpty.string_of_uint (Pos.to_uint p)
                        end) =
                 45%N :: str (NilEmpty.string_of_uint (Pos.to_uint p))).
    { destruct (Pos.to_uint p); [contradiction | ..]; reflexivity. }
    rewrite Hs, parseInt_minus, (digits_of_numeral Hn).
    rewrite DecimalPos.Unsigned.of_to. reflexivity.
Qed.

(** So does reading back what [toString] wrote, for the integers that
    [toString] prints as their decimal numeral. *)
Lemma parseInt_toString :
  forall (large : Z -> jsstring) (z : Z),
    Z.abs z <= MAX_SAFE_INTEGER ->
    parseInt (toString large z) 10 = Some z.
Proof.
  intros large z Hz. unfold toString.
  destruct (Z.leb_spec (Z.abs z) MAX_SAFE_INTEGER) as [_ | H]; [| lia].
  apply parseInt_decimal.
Qed.

(* ===================================================================== *)
(** * More of the food screen: the form and the insert *)
(* ===================================================================== *)

(** X3.  For an item whose calories are at most [Number.MAX_SAFE_INTEGER]
    in absolute value (where [toString] prints the decimal numeral): after
    [selectNutritionItem] the form holds the item, that is its name, its
    calories as a numeral that [addFoodEntry] parses back to the same
    integer, and the item itself; a row inserted from that form carries
    the item's calories, its trimmed name, and its protein, carbs and fat
    (each [null] when 0). *)
Theorem selected_item_is_what_is_inserted :
  forall (supabase : SupabaseClient) (X : Type)
    (ext : forall R, cmd FoodState.setter R -> X -> R * X)
    (x x' : X) (large : Z -> jsstring) (nutrition : NutritionInfo.t)
    (s live : FoodState.t),
    let s' := final (run FoodState.apply ext
                       (FoodScreen.selectNutritionItem large nutrition)
                       s x) in
    Z.abs (NutritionInfo.calories nutrition) <= MAX_SAFE_INTEGER ->
    FoodState.foodName s' = NutritionInfo.name nutrition
    /\ orNumber (parseInt (FoodState.calories s') 10) 0 =
       NutritionInfo.calories nutrition
    /\ FoodState.selectedNutrition s' = Some nutrition
    /\ Forall (fun row =>
         get "food_name" row = Some (VStr (trim (NutritionInfo.name nutrition)))
         /\ get "calories" row = Some (VInt (NutritionInfo.calories nutrition))
         /\ get "protein" row =
            Some (ofInt (orNull (NutritionInfo.protein nutrition)))
         /\ get "carbs" row =
            Some (ofInt (orNull (NutritionInfo.carbs nutrition)))
         /\ get "fat" row =
            Some (ofInt (orNull (NutritionInfo.fat nutrition))))
         (rows_inserted
            (trace (run FoodState.apply ext
                      (FoodScreen.addFoodEntry supabase s') live x'))).
Proof.
  intros supabase X ext x x' large nutrition s live s' Hsafe.
  assert (Hname : FoodState.foodName s' = NutritionInfo.name nutrition)
    by reflexivity.
  assert (Hcal : FoodState.calories s' =
                 toString large (NutritionInfo.calories nutrition))
    by reflexivity.
  assert (Hsel : FoodState.selectedNutrition s' = Some nutrition)
    by reflexivity.
  assert (Hnum : orNumber (parseInt (FoodState.calories s') 10) 0 =
                 NutritionInfo.calories nutrition).
  { rewrite Hcal, parseInt_toString by exact Hsafe. unfold orNumber.
    destruct (Z.eqb_spec (NutritionInfo.calories nutrition) 0) as [-> |];
      reflexivity. }
  repeat (split; [assumption |]).
  eapply Forall_impl; [| apply food_add_rows].
  intros row [_ ->]. unfold FoodScreen.foodRow, caloriesNumber.
  rewrite Hname, Hnum, Hsel. repeat split.
Qed.

(** The apple of the search, selected: its 52 calories go into the form
    as a string that reads back as 52. *)
Lemma selected_item_is_what_is_inserted_witness :
  orNumber
    (parseInt
       (FoodState.calories
          (final (run FoodState.apply (scripted quiet)
                    (FoodScreen.selectNutritionItem (fun _ => str "1e+21")
                       apple) alice tt))) 10) 0
  = 52.
Proof.
  destruct (selected_item_is_what_is_inserted someClient
              (scripted quiet) tt tt (fun _ => str "1e+21") apple
              alice alice) as (_ & H & _).
  - unfold MAX_SAFE_INTEGER. cbn. lia.
  - exact H.
Defined.

(** X4.  A name and notes typed through [handleFoodNameChange] and
    [handleNotesChange] are inserted exactly as the form shows them: the
    row's [food_name] is the sanitized text and its [notes] the sanitized
    notes ([null] when empty); [addFoodEntry]'s own [trim] changes nothing
    more. *)
Theorem typed_text_is_inserted_sanitized :
  forall (supabase : SupabaseClient) (X : Type)
    (ext : forall R, cmd FoodState.setter R -> X -> R * X)
    (x x' x'' : X) (name notes : jsstring) (s live : FoodState.t),
    let s1 := final (run FoodState.apply ext
                       (FoodScreen.handleFoodNameChange name) s x) in
    let s2 := final (run FoodState.apply ext
                       (FoodScreen.handleNotesChange notes) s1 x') in
    Forall (fun row =>
      get "food_name" row = Some (VStr (FoodScreen.sanitizeInput name))
      /\ get "notes" row =
         Some (ofString (nonEmpty (FoodScreen.sanitizeInput notes))))
      (rows_inserted
         (trace (run FoodState.apply ext
                   (FoodScreen.addFoodEntry supabase s2) live x''))).
Proof.
  intros supabase X ext x x' x'' name notes s live s1 s2.
  eapply Forall_impl; [| apply food_add_rows].
  intros row [_ ->]. unfold FoodScreen.foodRow.
  change (FoodState.foodName s2) with (FoodScreen.sanitizeInput name).
  change (FoodState.notes s2) with (FoodScreen.sanitizeInput notes).
  rewrite (sanitizeInput_trimmed name).
  rewrite (sanitizeInput_trimmed notes).
  repeat split.
Qed.

(* ===================================================================== *)
(** * More of the food screen: the list, the summary and the flags *)
(* ===================================================================== *)

Lemma countMeal_partition :
  forall l : list FoodEntry.t,
    FoodScreen.countMeal breakfast l + FoodScreen.countMeal lunch l
    + FoodScreen.countMeal dinner l + FoodScreen.countMeal snack l
    = Z.of_nat (List.length l).
Proof.
  unfold FoodScreen.countMeal.
  induction l as [| e l IH]; [reflexivity |].
  cbn [filter]. destruct (FoodEntry.meal_type e); cbn [MealType_eqb];
    cbn [List.length]; lia.
Qed.

Lemma of_today_undated :
  forall isToday entries,
    Forall (fun e => match FoodEntry.created_at e with
                     | Some c => truthy c = false
                     | None => True
                     end) entries ->
    of_today isToday entries = [].
Proof.
  intros isToday entries H. induction H as [| e l He _ IH]; [reflexivity |].
  unfold of_today in *. cbn [filter].
  destruct (FoodEntry.created_at e) as [c |]; [rewrite He |]; exact IH.
Qed.

(** X5.  [calculateDailySummary] always stores a summary; its four meal
    counts add up to the number of entries dated today; a list with no
    entry of today (in particular one whose entries carry no timestamp)
    gives the all-zero summary, with average rating 0 and no division by
    zero. *)
Theorem dailySummary_counts_todays_entries :
  forall (X : Type) (ext : forall R, cmd FoodState.setter R -> X -> R * X)
    (x : X) (entries : list FoodEntry.t) (live : FoodState.t),
    let r := run FoodState.apply ext
               (FoodScreen.calculateDailySummary entries) live x in
    let todayEntries := of_today (fst (ext _ Today x)) entries in
    option_map
      (fun d => let m := DailySummary.mealCounts d in
                MealCounts.breakfast m + MealCounts.lunch m
                + MealCounts.dinner m + MealCounts.snack m)
      (FoodState.dailySummary (final r))
    = Some (Z.of_nat (List.length todayEntries))
    /\ (todayEntries = [] ->
        FoodState.dailySummary (final r) = Some emptyDay)
    /\ (Forall (fun e => match FoodEntry.created_at e with
                         | Some c => truthy c = false
                         | None => True
                         end) entries ->
        FoodState.dailySummary (final r) = Some emptyDay).
Proof.
  intros X ext x entries live r todayEntries.
  assert (Hsum : FoodState.dailySummary (final r) =
    Some
      {| DailySummary.totalCalories :=
           FoodScreen.sumQ (fun e => orZeroQ (FoodEntry.calories e)) todayEntries;
         DailySummary.totalProtein :=
           FoodScreen.sumQ (fun e => orZeroQ (FoodEntry.protein e)) todayEntries;
         DailySummary.totalCarbs :=
           FoodScreen.sumQ (fun e => orZeroQ (FoodEntry.carbs e)) todayEntries;
         DailySummary.totalFat :=
           FoodScreen.sumQ (fun e => orZeroQ (FoodEntry.fat e)) todayEntries;
         DailySummary.totalFiber :=
           FoodScreen.sumQ (fun e => orZeroQ (FoodEntry.fiber e)) todayEntries;
         DailySummary.mealCounts :=
           {| MealCounts.breakfast := FoodScreen.countMeal breakfast todayEntries;
              MealCounts.lunch := FoodScreen.countMeal lunch todayEntries;
              MealCounts.dinner := FoodScreen.countMeal dinner todayEntries;
              MealCounts.snack := FoodScreen.countMeal snack todayEntries |};
         DailySummary.averageRating :=
           match todayEntries with
           | [] => 0%Q
           | _ :: _ =>
               (FoodScreen.sumQ (fun e => orZeroQ (FoodEntry.rating e))
                  todayEntries
                / inject_Z (Z.of_nat (List.length todayEntries)))%Q
           end |}) by reflexivity.
  assert (Hempty : todayEntries = [] ->
                   FoodState.dailySummary (final r) = Some emptyDay).
  { intros E. rewrite Hsum, E. reflexivity. }
  split; [| split].
  - rewrite Hsum. cbn [option_map DailySummary.mealCounts
                       MealCounts.breakfast MealCounts.lunch
                       MealCounts.dinner MealCounts.snack].
    f_equal. apply countMeal_partition.
  - exact Hempty.
  - intros H. apply Hempty. apply of_today_undated. exact H.
Qed.

(** X6.  The food screen's [fetchItems] always returns and never touches
    the form.  With a user id it ends with [refreshing] off; when the
    select fails the list is emptied and the error shown while the daily
    summary of the previous load stays on screen; when it succeeds the
    error is cleared and a summary is stored. *)
Theorem food_fetchItems_outcome :
  forall (supabase : SupabaseClient) (X : Type)
    (ext : forall R, cmd FoodState.setter R -> X -> R * X)
    (x : X) (s live : FoodState.t),
    let r := run FoodState.apply ext (FoodScreen.fetchItems supabase s)
               live x in
    out r = Returned tt
    /\ (FoodState.foodName (final r), FoodState.calories (final r),
        FoodState.mealType (final r), FoodState.rating (final r),
        FoodState.notes (final r), FoodState.selectedNutrition (final r),
        FoodState.userId (final r), FoodState.inserting (final r))
       = (FoodState.foodName live, FoodState.calories live,
          FoodState.mealType live, FoodState.rating live,
          FoodState.notes live, FoodState.selectedNutrition live,
          FoodState.userId live, FoodState.inserting live)
    /\ (truthyOpt (FoodState.userId s) = false ->
        trace r = [] /\ final r = live)
    /\ (truthyOpt (FoodState.userId s) = true ->
        FoodState.refreshing (final r) = false)
    /\ (select_failed (trace r) = true ->
        FoodState.items (final r) = []
        /\ FoodState.error (final r) =
           option_map message (hd_error (failed_selects (trace r)))
        /\ FoodState.error (final r) <> None
        /\ FoodState.dailySummary (final r) = FoodState.dailySummary live)
    /\ (truthyOpt (FoodState.userId s) = true ->
        select_failed (trace r) = false ->
        FoodState.error (final r) = None
        /\ FoodState.dailySummary (final r) <> None).
Proof.
  intros supabase X ext x s live.
  unfold FoodScreen.fetchItems, FoodScreen.calculateDailySummary.
  cbv zeta. walk_run ext; settle; cbn; congruence.
Qed.

(* ===================================================================== *)
(** * More of the food screen: operations around the list *)
(* ===================================================================== *)

(** X7.  [addFoodEntry] always returns, and an [inserting] flag that was
    off before is off after.  It never changes the meal type or the
    rating; it clears name, calories, notes and the selected item after an
    insert that succeeded, and leaves all four as they were when the
    insert failed or was not made. *)
Theorem food_add_flags_and_form :
  forall (supabase : SupabaseClient) (X : Type)
    (ext : forall R, cmd FoodState.setter R -> X -> R * X)
    (x : X) (s live : FoodState.t),
    let r := run FoodState.apply ext (FoodScreen.addFoodEntry supabase s)
               live x in
    let form st := (FoodState.foodName st, FoodState.calories st,
                    FoodState.notes st, FoodState.selectedNutrition st) in
    out r = Returned tt
    /\ (FoodState.inserting live = false ->
        FoodState.inserting (final r) = false)
    /\ (FoodState.mealType (final r), FoodState.rating (final r),
        FoodState.userId (final r))
       = (FoodState.mealType live, FoodState.rating live,
          FoodState.userId live)
    /\ form (final r) =
       (if existsb (@is_insert _) (trace r) && negb (insert_failed (trace r))
        then ([], [], [], None)
        else form live).
Proof.
  intros supabase X ext x s live.
  unfold FoodScreen.addFoodEntry, FoodScreen.fetchItems,
    FoodScreen.calculateDailySummary.
  cbv zeta. walk_run ext; settle; assumption.
Qed.

(** X8.  The [onPress] of Delete All makes exactly one delete call, on
    [food_entries] with the single filter [user_id = userId] of the
    render, and always one alert.  When the delete fails the alert carries
    the error's message and nothing else happens: no select, no state
    change.  When it succeeds the list is reloaded with the user's query,
    if there is a user id. *)
Theorem clearAllEntries_deletes_own_rows :
  forall (supabase : SupabaseClient) (X : Type)
    (ext : forall R, cmd FoodState.setter R -> X -> R * X)
    (x : X) (s live : FoodState.t),
    let r := run FoodState.apply ext
               (FoodScreen.clearAllEntries_onPress supabase s) live x in
    let failure := pick (@failure_of _) (filter (@is_delete _) (trace r)) in
    out r = Returned tt
    /\ pick (@deleted_where _) (trace r) =
       [("food_entries"%string, [("user_id"%string, FoodState.userId s)])]
    /\ count (@is_alert _) (trace r) = 1%nat
    /\ rows_inserted (trace r) = []
    /\ (failure <> [] ->
        queries (trace r) = [] /\ final r = live
        /\ exists e,
             failure = [e]
             /\ In (Ev (Alert [Lit "Error"] [Str (message e)] []) tt)
                  (trace r))
    /\ (failure = [] ->
        queries (trace r) =
        if truthyOpt (FoodState.userId s)
        then [userQuery "food_entries" (FoodState.userId s)]
        else []).
Proof.
  intros supabase X ext x s live.
  unfold FoodScreen.clearAllEntries_onPress, FoodScreen.fetchItems,
    FoodScreen.calculateDailySummary, FoodScreen.alert.
  cbv zeta. walk_run ext; settle;
    eexists; split; [reflexivity | cbn; tauto].
Qed.

Lemma toNutritionInfo_named :
  forall foods : list Usda.Food,
    forallb (fun n => truthy (NutritionInfo.name n))
      (map FoodScreen.toNutritionInfo foods) = true.
Proof.
  induction foods as [| food foods IH]; [reflexivity |].
  cbn [map forallb]. rewrite IH, andb_true_r.
  unfold FoodScreen.toNutritionInfo. cbn [NutritionInfo.name].
  destruct (Usda.description food) as [[| c d] |]; reflexivity.
Qed.

(** [searchFoodAPI] returns a list, leaves the state alone and makes at
    most one request. *)
Lemma searchFoodAPI_returns :
  forall (env : ProcessEnv) (X : Type)
    (ext : forall R, cmd FoodState.setter R -> X -> R * X)
    (x : X) (live : FoodState.t) (query : jsstring),
    let r := run FoodState.apply ext (FoodScreen.searchFoodAPI env query)
               live x in
    final r = live
    /\ (count (@is_fetch _) (trace r) <= 1)%nat
    /\ exists found,
         out r = Returned found
         /\ forallb (fun n => truthy (NutritionInfo.name n)) found = true.
Proof.
  intros env X ext x live query.
  unfold FoodScreen.searchFoodAPI, FoodScreen.alert.
  cbv zeta.
  destruct (asTruthy (EXPO_PUBLIC_FOOD_API_KEY env)) as [key |];
    [destruct (isWellFormed query); cbn [negb] |];
    walk_run ext; settle;
    try (cbn; lia);
    eexists; (split; [reflexivity |]);
    first [reflexivity | apply toNutritionInfo_named].
Qed.

(** X9.  [searchNutrition] always returns and leaves the form alone.
    When the lower-cased, trimmed name is empty it shows one alert, makes
    no request and changes no state.  Otherwise it makes at most one
    request, stores what [searchFoodAPI] returned for that query and opens
    the modal, also when the search found nothing or failed. *)
Theorem searchNutrition_opens_modal :
  forall (toLowerCase : jsstring -> jsstring) (env : ProcessEnv) (X : Type)
    (ext : forall R, cmd FoodState.setter R -> X -> R * X)
    (x : X) (s live : FoodState.t),
    let r := run FoodState.apply ext
               (FoodScreen.searchNutrition toLowerCase env s) live x in
    let query := trim (toLowerCase (FoodState.foodName s)) in
    let search :=
      run FoodState.apply ext (FoodScreen.searchFoodAPI env query)
        (FoodState.apply (FoodState.setNutritionResults []) live)
        (snd (ext unit (SetState (FoodState.setNutritionResults [])) x)) in
    out r = Returned tt
    /\ (FoodState.foodName (final r), FoodState.calories (final r),
        FoodState.notes (final r), FoodState.selectedNutrition (final r))
       = (FoodState.foodName live, FoodState.calories live,
          FoodState.notes live, FoodState.selectedNutrition live)
    /\ (count (@is_fetch _) (trace r) <= 1)%nat
    /\ (truthy query = false ->
        count (@is_alert _) (trace r) = 1%nat
        /\ count (@is_fetch _) (trace r) = 0%nat
        /\ final r = live)
    /\ (truthy query = true ->
        FoodState.showNutritionModal (final r) = true
        /\ out search = Returned (FoodState.nutritionResults (final r))
        /\ count (@is_alert _) (trace r) = count (@is_alert _) (trace search)).
Proof.
  intros toLowerCase env X ext x s live.
  unfold FoodScreen.searchNutrition, FoodScreen.alert. cbv zeta.
  generalize (trim (toLowerCase (FoodState.foodName s))). intros query.
  destruct (truthy query) eqn:Hq; cbn [negb].
  - reduce. rewrite run_bind. cbv zeta.
    pose proof (searchFoodAPI_returns env ext
                  (snd (ext unit (SetState (FoodState.setNutritionResults [])) x))
                  (FoodState.apply (FoodState.setNutritionResults []) live)
                  query) as (Hfinal & Hfetch & found & Hout & _).
    cbv zeta in Hfinal, Hfetch, Hout.
    destruct (run FoodState.apply ext (FoodScreen.searchFoodAPI env query)
                (FoodState.apply (FoodState.setNutritionResults []) live)
                (snd (ext unit (SetState (FoodState.setNutritionResults [])) x)))
      as [t o f w].
    cbn [out final trace] in *. subst o f. reduce.
    repeat match goal with
           | |- _ /\ _ => split
           | |- _ -> _ => intros ?
           end;
      try reflexivity; try discriminate; try now_unit.
    + unfold count in *. cbn [filter is_fetch]. rewrite filter_app.
      cbn [filter is_fetch]. rewrite app_nil_r. exact Hfetch.
    + unfold count. cbn [filter is_alert]. rewrite filter_app.
      cbn [filter is_alert]. rewrite app_nil_r. reflexivity.
  - walk_run ext; settle. cbn; lia.
Qed.

(** X10.  [searchFoodAPI] never changes the state.  It shows one alert
    exactly when the key is missing, the query is one that
    [encodeURIComponent] rejects, the request failed, the response is not
    ok or its body cannot be read, and then returns the empty list; an ok
    response without a [foods] array gives the empty list without any
    alert.  Every item it returns has a non-empty name. *)
Theorem searchFoodAPI_alerts :
  forall (env : ProcessEnv) (X : Type)
    (ext : forall R, cmd FoodState.setter R -> X -> R * X)
    (x : X) (live : FoodState.t) (query : jsstring),
    let r := run FoodState.apply ext (FoodScreen.searchFoodAPI env query)
               live x in
    let unanswered :=
      match asTruthy (EXPO_PUBLIC_FOOD_API_KEY env) with
      | None => true
      | Some key =>
          negb (isWellFormed query)
          || match fst (ext _ (Fetch FoodDataCentral (usdaUrl key query)) x)
             with
             | None => true
             | Some resp =>
                 negb (ok resp)
                 || match json resp with None => true | Some _ => false end
             end
      end in
    final r = live
    /\ count (@is_alert _) (trace r) = (if unanswered then 1%nat else 0%nat)
    /\ (unanswered = true -> out r = Returned [])
    /\ (isWellFormed query = false -> count (@is_fetch _) (trace r) = 0%nat)
    /\ exists found,
         out r = Returned found
         /\ forallb (fun n => truthy (NutritionInfo.name n)) found = true.
Proof.
  intros env X ext x live query r unanswered.
  split; [apply searchFoodAPI_returns |].
  split; [| split; [| split; [| apply searchFoodAPI_returns]]];
    subst r unanswered;
    unfold FoodScreen.searchFoodAPI, FoodScreen.alert, usdaUrl;
    cbv zeta;
    (destruct (asTruthy (EXPO_PUBLIC_FOOD_API_KEY env)) as [key |];
     [destruct (isWellFormed query) eqn:Hwf; cbn [negb orb] |]);
    walk_run ext; settle.
Qed.

(* ===================================================================== *)
(** * More of the mood journal: location and the add operation *)
(* ===================================================================== *)

Section MoodLocate.

Variable env : ProcessEnv.
Variable X : Type.
Variable ext : forall R, cmd MoodState.setter R -> X -> R * X.

(** What the [if (useLocation)] block of [addItem] does: it changes no
    state; it throws only when the permission prompt is rejected; what it
    yields has both coordinates or none of the four values. *)
Lemma mood_locate_cases :
  forall (x : X) (s live : MoodState.t),
    let r := run MoodState.apply ext (MoodScreen.locate env s) live x in
    final r = live
    /\ (count (@is_fetch _) (trace r) <= 1)%nat
    /\ (MoodState.useLocation s = false ->
        trace r = [] /\ out r = Returned MoodScreen.nowhere)
    /\ match out r with
       | Returned l =>
           permission_rejected (trace r) = false
           /\ (position_rejected (trace r) = true -> l = MoodScreen.nowhere)
           /\ match MoodScreen.lat l, MoodScreen.lng l with
              | Some _, Some _ => True
              | None, None =>
                  MoodScreen.loc_weather l = None
                  /\ MoodScreen.loc_temperature l = None
              | _, _ => False
              end
       | Threw e =>
           e = Rejection "requestForegroundPermissionsAsync"
           /\ permission_rejected (trace r) = true
           /\ position_rejected (trace r) = false
       end.
Proof.
  intros x s live.
  unfold MoodScreen.locate, MoodScreen.fetchWeather.
  cbv zeta. walk_run ext; settle;
    try (cbn; lia); try exact I; repeat split.
Qed.

End MoodLocate.

(** X11.  The mood journal's [addItem] makes its one insert exactly when
    the form is valid and the permission prompt was not rejected.  Unless
    that prompt is rejected it returns, with an [inserting] flag that was
    off before off again; a rejected prompt makes it throw before any
    database call, and [inserting] is left on.  Once the insert is reached
    the text field is emptied, whether the insert succeeded or not; mood,
    location switch and user id are never changed. *)
Theorem mood_add_outcome :
  forall (supabase : SupabaseClient) (env : ProcessEnv) (X : Type)
    (ext : forall R, cmd MoodState.setter R -> X -> R * X)
    (x : X) (s live : MoodState.t),
    let r := run MoodState.apply ext (MoodScreen.addItem supabase env s)
               live x in
    let t := trace r in
    count (@is_insert _) t =
    (if moodFormValid s && negb (permission_rejected t) then 1%nat else 0%nat)
    /\ (permission_rejected t = false ->
        out r = Returned tt
        /\ (MoodState.inserting live = false ->
            MoodState.inserting (final r) = false))
    /\ (permission_rejected t = true ->
        out r = Threw (Rejection "requestForegroundPermissionsAsync")
        /\ MoodState.inserting (final r) = true
        /\ db_calls t = [])
    /\ MoodState.text (final r) =
       (if existsb (@is_insert _) t then [] else MoodState.text live)
    /\ (MoodState.mood (final r), MoodState.useLocation (final r),
        MoodState.userId (final r))
       = (MoodState.mood live, MoodState.useLocation live,
          MoodState.userId live).
Proof.
  intros supabase env X ext x s live.
  unfold moodFormValid, MoodScreen.addItem. cbv zeta.
  destruct (truthyOpt (MoodState.userId s)) eqn:Hu; cbn [negb andb];
    [| walk_run ext; settle; assumption].
  destruct (truthy (trim (MoodState.text s))) eqn:Ht; cbn [negb];
    [| walk_run ext; settle; assumption].
  walk_run ext.
  cut_at_locate (fun w st => mood_locate_cases env ext w s st)
                (fun w st => mood_locate_silent env ext w s st).
  destruct ol as [l | e].
  - destruct Hout as (Hperm & _).
    unfold MoodScreen.fetchItems. rewrite Hu. cbn [negb].
    walk_run ext; cbn [trace out final]; cut_trace;
      rewrite ?Hperm, ?Hcount, ?Hexists, ?Hcalls; settle; assumption.
  - destruct Hout as (-> & Hperm & _).
    cbn [trace out final].
    match goal with
    | |- context [?a :: ?b :: tl] =>
        change (a :: b :: tl) with ([a; b] ++ tl)
    end.
    cut_trace.
    rewrite ?Hperm, ?Hcount, ?Hexists, ?Hcalls, ?app_nil_r. settle.
Qed.

Lemma moodRow_location :
  forall (s : MoodState.t) (trimmed : jsstring) (moodNumber : Z)
    (l : MoodScreen.Located),
    match MoodScreen.lat l, MoodScreen.lng l with
    | Some _, Some _ => True
    | None, None =>
        MoodScreen.loc_weather l = None
        /\ MoodScreen.loc_temperature l = None
    | _, _ => False
    end ->
    location_consistent ["weather"; "temperature"]%string
      (MoodScreen.moodRow s trimmed moodNumber l).
Proof.
  intros s trimmed moodNumber [[lat |] [lng |] w tmp];
    cbn [MoodScreen.lat MoodScreen.lng MoodScreen.loc_weather
         MoodScreen.loc_temperature]; intros H; try contradiction.
  - left. exists lat, lng. split; reflexivity.
  - destruct H as [-> ->]. right. repeat constructor.
Qed.

Lemma moodRow_nowhere :
  forall (s : MoodState.t) (trimmed : jsstring) (moodNumber : Z),
    unlocated ["weather"; "temperature"]%string
      (MoodScreen.moodRow s trimmed moodNumber MoodScreen.nowhere).
Proof. intros s trimmed moodNumber. repeat constructor. Qed.

(** X12.  A row the mood journal inserts has both coordinates or neither,
    and without coordinates it has neither weather nor temperature.  With
    the location switch off nothing is asked of the location service or
    the weather API and the row has none of the four values.  When the
    position cannot be had the entry is still inserted, without them.  At
    most one weather request is made. *)
Theorem mood_row_location :
  forall (supabase : SupabaseClient) (env : ProcessEnv) (X : Type)
    (ext : forall R, cmd MoodState.setter R -> X -> R * X)
    (x : X) (s live : MoodState.t),
    let r := run MoodState.apply ext (MoodScreen.addItem supabase env s)
               live x in
    let t := trace r in
    let weather_columns := ["weather"; "temperature"]%string in
    Forall (location_consistent weather_columns) (rows_inserted t)
    /\ (MoodState.useLocation s = false ->
        count (@is_location_or_http _) t = 0%nat
        /\ Forall (unlocated weather_columns) (rows_inserted t))
    /\ (position_rejected t = true ->
        count (@is_insert _) t = 1%nat
        /\ Forall (unlocated weather_columns) (rows_inserted t))
    /\ (count (@is_fetch _) t <= 1)%nat.
Proof.
  intros supabase env X ext x s live.
  unfold MoodScreen.addItem. cbv zeta.
  destruct (truthyOpt (MoodState.userId s)) eqn:Hu; cbn [negb andb];
    [| walk_run ext; settle; try constructor; cbn; lia].
  destruct (truthy (trim (MoodState.text s))) eqn:Ht; cbn [negb];
    [| walk_run ext; settle; try constructor; cbn; lia].
  walk_run ext.
  cut_at_locate (fun w st => mood_locate_cases env ext w s st)
                (fun w st => mood_locate_silent env ext w s st).
  destruct ol as [l | e].
  - destruct Hout as (Hperm & Hpos & Hl).
    unfold MoodScreen.fetchItems. rewrite Hu. cbn [negb].
    walk_run ext; cbn [trace out final]; cut_trace;
      rewrite ?Hperm, ?Hcount, ?Hexists, ?Hcalls, ?Hrows.
    all: cbn [rows_inserted pick flat_map inserted_row List.app].
    all: repeat match goal with
                | |- _ /\ _ => split
                | |- _ -> _ => intros ?
                end.
    all: try solve [constructor; [apply moodRow_location; exact Hl
                                 | constructor]].
    all: try solve [rewrite Hcount; reflexivity].
    all: try solve [cbn; lia].
    all: try solve [match goal with
                    | H : MoodState.useLocation _ = false |- _ =>
                        destruct (Hoff H) as [-> E]; injection E as ->;
                        first [reflexivity
                              | constructor; [apply moodRow_nowhere
                                             | constructor]]
                    end].
    all: try solve [match goal with
                    | H : _ = true |- _ =>
                        cbn in H; rewrite orb_false_r in H;
                        rewrite (Hpos H);
                        constructor; [apply moodRow_nowhere | constructor]
                    end].
  - destruct Hout as (-> & Hperm & Hpos).
    cbn [trace out final].
    match goal with
    | |- context [?a :: ?b :: tl] =>
        change (a :: b :: tl) with ([a; b] ++ tl)
    end.
    cut_trace.
    rewrite ?Hperm, ?Hpos, ?Hcount, ?Hexists, ?Hcalls, ?Hrows, ?app_nil_r.
    assert (Hon : MoodState.useLocation s = false -> False).
    { intros H. destruct (Hoff H) as [_ E]. discriminate E. }
    repeat match goal with
           | |- _ /\ _ => split
           | |- _ -> _ => intros ?
           end.
    all: try solve [constructor].
    all: try solve [exfalso; auto].
    all: try solve [cbn; lia].
    all: try solve [match goal with
                    | H : _ = true |- _ => cbn in H; discriminate H
                    end].
Qed.


(* ===================================================================== *)
(** * More of the earlier mood journal *)
(* ===================================================================== *)

Section LegacyLocate.

Variable X : Type.
Variable ext : forall R, cmd LegacyState.setter R -> X -> R * X.

(** The location block of the earlier [addItem], which has no [try]: it
    throws when the prompt or the position request is rejected. *)
Lemma legacy_locate_cases :
  forall (x : X) (s live : LegacyState.t),
    let r := run LegacyState.apply ext (LegacyScreen.locate s) live x in
    final r = live
    /\ (count (@is_fetch _) (trace r) <= 1)%nat
    /\ (LegacyState.useLocation s = false ->
        trace r = [] /\ out r = Returned (None, None, None))
    /\ match out r with
       | Returned (lat, lng, weather) =>
           permission_rejected (trace r) = false
           /\ position_rejected (trace r) = false
           /\ match lat, lng with
              | Some _, Some _ => True
              | None, None => weather = None
              | _, _ => False
              end
       | Threw e =>
           permission_rejected (trace r) || position_rejected (trace r) = true
       end.
Proof.
  intros x s live.
  unfold LegacyScreen.locate, LegacyScreen.fetchWeather.
  cbv zeta. walk_run ext; settle;
    try (cbn; lia); try exact I; repeat split.
Qed.

End LegacyLocate.

Lemma legacyRow_location :
  forall (trimmed : jsstring) (moodNumber : Z)
    (l : option Q * option Q * option jsstring),
    (let '(lat, lng, weather) := l in
     match lat, lng with
     | Some _, Some _ => True
     | None, None => weather = None
     | _, _ => False
     end) ->
    location_consistent ["weather"]%string
      (LegacyScreen.legacyRow trimmed moodNumber l).
Proof.
  intros trimmed moodNumber [[[lat |] [lng |]] w]; intros H;
    try contradiction.
  - left. exists lat, lng. split; reflexivity.
  - cbv beta iota in H. subst w. right. repeat constructor.
Qed.

(** X13.  The earlier [addItem] has no [try] around its location block:
    it makes its one insert exactly when the trimmed text is non-empty and
    neither the permission prompt nor the position request was rejected.
    After a rejection it throws before any database call and leaves
    [inserting] on; otherwise it returns with the flag as it found it.  A
    row it inserts has both coordinates, or neither and then no weather.
    The text field is emptied once the insert is reached. *)
Theorem legacy_add_outcome :
  forall (supabase : SupabaseClient) (X : Type)
    (ext : forall R, cmd LegacyState.setter R -> X -> R * X)
    (x : X) (s live : LegacyState.t),
    let r := run LegacyState.apply ext (LegacyScreen.addItem supabase s)
               live x in
    let t := trace r in
    let rejected := permission_rejected t || position_rejected t in
    count (@is_insert _) t =
    (if truthy (trim (LegacyState.text s)) && negb rejected
     then 1%nat else 0%nat)
    /\ (rejected = false ->
        out r = Returned tt
        /\ (LegacyState.inserting live = false ->
            LegacyState.inserting (final r) = false))
    /\ (rejected = true ->
        (exists e, out r = Threw e)
        /\ LegacyState.inserting (final r) = true
        /\ db_calls t = [])
    /\ Forall (location_consistent ["weather"]%string) (rows_inserted t)
    /\ LegacyState.text (final r) =
       (if existsb (@is_insert _) t then [] else LegacyState.text live).
Proof.
  intros supabase X ext x s live.
  unfold LegacyScreen.addItem. cbv zeta.
  destruct (truthy (trim (LegacyState.text s))) eqn:Ht; cbn [negb andb];
    [| walk_run ext; settle; first [assumption | constructor]].
  walk_run ext.
  cut_at_locate (fun w st => legacy_locate_cases ext w s st)
                (fun w st => legacy_locate_silent ext w s st).
  destruct ol as [l | e].
  - assert (Hperm : permission_rejected tl = false)
      by (destruct l as [[lat lng] w]; apply Hout).
    assert (Hpos : position_rejected tl = false)
      by (destruct l as [[lat lng] w]; apply Hout).
    assert (Hl : let '(lat, lng, weather) := l in
                 match lat, lng with
                 | Some _, Some _ => True
                 | None, None => weather = None
                 | _, _ => False
                 end)
      by (destruct l as [[lat lng] w]; apply Hout).
    unfold LegacyScreen.fetchItems.
    walk_run ext; cbn [trace out final]; cut_trace;
      rewrite ?Hperm, ?Hpos, ?Hcount, ?Hexists, ?Hcalls, ?Hrows;
      cbn [rows_inserted pick flat_map inserted_row List.app];
      settle; try assumption;
      (constructor; [apply legacyRow_location; exact Hl | constructor]).
  - cbn [trace out final].
    match goal with
    | |- context [?a :: ?b :: tl] =>
        change (a :: b :: tl) with ([a; b] ++ tl)
    end.
    cut_trace.
    rewrite ?Hcount, ?Hexists, ?Hcalls, ?Hrows, ?app_nil_r.
    cbn [permission_rejected position_rejected existsb orb].
    fold (permission_rejected tl). fold (position_rejected tl).
    rewrite Hout. settle;
      first [eexists; reflexivity | constructor].
Qed.

(** X14.  The earlier [fetchItems] always makes exactly one select, of the
    fifty newest rows of [data] without any filter, so of every user's
    rows, and returns with [refreshing] off.  When the select fails the
    list is emptied and [error] holds the message; otherwise [error] is
    cleared.  It never touches the form. *)
Theorem legacy_fetchItems_unfiltered :
  forall (supabase : SupabaseClient) (X : Type)
    (ext : forall R, cmd LegacyState.setter R -> X -> R * X)
    (x : X) (live : LegacyState.t),
    let r := run LegacyState.apply ext (LegacyScreen.fetchItems supabase)
               live x in
    out r = Returned tt
    /\ queries (trace r) =
       [{| q_table := "data"; q_columns := "*"; q_eq := [];
           q_order := [("created_at"%string, false)];
           q_limit := Some 50 |}]
    /\ LegacyState.refreshing (final r) = false
    /\ LegacyState.error (final r) =
       option_map message (hd_error (failed_selects (trace r)))
    /\ (select_failed (trace r) = true -> LegacyState.items (final r) = [])
    /\ (LegacyState.text (final r), LegacyState.mood (final r),
        LegacyState.useLocation (final r), LegacyState.inserting (final r))
       = (LegacyState.text live, LegacyState.mood live,
          LegacyState.useLocation live, LegacyState.inserting live).
Proof.
  intros supabase X ext x live.
  unfold LegacyScreen.fetchItems.
  cbv zeta. walk_run ext; settle.
Qed.

(* ===================================================================== *)
(** * What the lists render *)
(* ===================================================================== *)

Lemma clamped_cases :
  forall raw : jsstring,
    clamped raw = 1 \/ clamped raw = 2 \/ clamped raw = 3
    \/ clamped raw = 4 \/ clamped raw = 5.
Proof. intros raw. pose proof (clamped_range raw). lia. Qed.

(** X15.  A mood as [addItem] stores it always renders as one of the five
    faces of [renderItem], the one at index mood - 1, never as
    [undefined]. *)
Theorem stored_mood_renders_a_face :
  forall (raw : jsstring) (item : Entry.t),
    Entry.mood item = Some (inject_Z (clamped raw)) ->
    exists face,
      MoodScreen.moodEmoji item = Some face
      /\ nth_error MoodScreen.faces (Z.to_nat (clamped raw - 1)) = Some face
      /\ Js.length face = 2.
Proof.
  intros raw item H. unfold MoodScreen.moodEmoji. rewrite H.
  destruct (clamped_cases raw) as [E | [E | [E | [E | E]]]]; rewrite E;
    eexists; repeat split.
Qed.

Lemma stored_mood_renders_a_face_witness :
  MoodScreen.moodEmoji storedMood = Some [55357; 56842]%N.
Proof.
  destruct (stored_mood_renders_a_face (str "4") storedMood)
    as (face & Hface & Hnth & _); [reflexivity |].
  rewrite Hface. vm_compute in Hnth. symmetry. exact Hnth.
Defined.

(** X16.  A rating as [addFoodEntry] stores it renders as that many
    stars: [ratingStars] throws no [RangeError] and yields a string of
    exactly [rating] code units, each the star. *)
Theorem stored_rating_renders_stars :
  forall (raw : jsstring) (item : FoodEntry.t),
    FoodEntry.rating item = Some (inject_Z (clamped raw)) ->
    exists stars,
      FoodScreen.ratingStars item = Some stars
      /\ Js.length stars = clamped raw
      /\ Forall (fun c => c = 11088%N) stars.
Proof.
  intros raw item H. unfold FoodScreen.ratingStars. rewrite H.
  destruct (clamped_cases raw) as [E | [E | [E | [E | E]]]]; rewrite E;
    eexists; repeat split; repeat constructor.
Qed.

Lemma stored_rating_renders_stars_witness :
  exists stars,
    FoodScreen.ratingStars storedToast = Some stars
    /\ Js.length stars = 4
    /\ Forall (fun c => c = 11088%N) stars.
Proof.
  apply (stored_rating_renders_stars (str "4") storedToast). reflexivity.
Defined.

(* ===================================================================== *)
(** * After an add, on mount, and on the profile screen *)
(* ===================================================================== *)

(** X17.  When an add operation has run on a valid form, what [error]
    holds at the end is what the refresh left there: the message of a
    failed select, or [null].  The message of a failed insert is set and
    then cleared by the [setError(null)] that opens [fetchItems], on the
    food screen and on the mood journal alike. *)
Theorem insert_error_is_overwritten_by_refresh :
  forall (supabase : SupabaseClient) (env : ProcessEnv) (X : Type)
    (extF : forall R, cmd FoodState.setter R -> X -> R * X)
    (extM : forall R, cmd MoodState.setter R -> X -> R * X)
    (x : X) (sF liveF : FoodState.t) (sM liveM : MoodState.t),
    let aF := run FoodState.apply extF (FoodScreen.addFoodEntry supabase sF)
                liveF x in
    let aM := run MoodState.apply extM (MoodScreen.addItem supabase env sM)
                liveM x in
    foodFormValid sF = true ->
    moodFormValid sM = true ->
    FoodState.error (final aF) =
    option_map message (hd_error (failed_selects (trace aF)))
    /\ MoodState.error (final aM) =
       option_map message (hd_error (failed_selects (trace aM))).
Proof.
  intros supabase env X extF extM x sF liveF sM liveM aF aM HF HM.
  split; [apply food_add_error_after_refresh; exact HF |].
  subst aM. clear HF aF. revert HM.
  unfold moodFormValid, MoodScreen.addItem. cbv zeta.
  destruct (truthyOpt (MoodState.userId sM)) eqn:Hu; cbn [negb andb];
    [| discriminate].
  destruct (truthy (trim (MoodState.text sM))) eqn:Ht; cbn [negb];
    [| discriminate].
  intros _. walk_run extM.
  cut_at_locate (fun w st => mood_locate_cases env extM w sM st)
                (fun w st => mood_locate_silent env extM w sM st).
  destruct ol as [l | e].
  - unfold MoodScreen.fetchItems. rewrite Hu. cbn [negb].
    walk_run extM; cbn [trace out final]; cut_trace;
      rewrite ?Hfailed; reflexivity.
  - cbn [trace out final].
    match goal with
    | |- context [?a :: ?b :: tl] =>
        change (a :: b :: tl) with ([a; b] ++ tl)
    end.
    cut_trace. rewrite ?Hfailed. reflexivity.
Qed.

(** A database that refuses the insert and answers the select: no message
    is left on either screen. *)
Lemma insert_error_is_overwritten_by_refresh_witness :
  (insert_failed
     (trace (run FoodState.apply (scripted insertFails)
               (FoodScreen.addFoodEntry someClient alice) alice tt)) = true
   /\ FoodState.error
        (final (run FoodState.apply (scripted insertFails)
                  (FoodScreen.addFoodEntry someClient alice) alice tt)) = None)
  /\ (insert_failed
        (trace (run MoodState.apply (scripted insertFails)
                  (MoodScreen.addItem someClient noKeys bob) bob tt)) = true
      /\ MoodState.error
           (final (run MoodState.apply (scripted insertFails)
                     (MoodScreen.addItem someClient noKeys bob) bob tt))
         = None).
Proof.
  destruct (insert_error_is_overwritten_by_refresh someClient noKeys
              (scripted insertFails) (scripted insertFails) tt
              alice alice bob bob) as [HF HM]; [reflexivity | reflexivity |].
  split; (split; [reflexivity |]).
  - rewrite HF. reflexivity.
  - rewrite HM. reflexivity.
Defined.

(** X18.  The effect that loads the list on mount always returns.  On the
    food screen and the mood journal it does nothing at all without a user
    id, and with one makes exactly one select and ends with [loading] and
    [refreshing] off; on the earlier mood journal it always makes its one
    select. *)
Theorem mount_effect_loads_once :
  forall (supabase : SupabaseClient) (X : Type)
    (extF : forall R, cmd FoodState.setter R -> X -> R * X)
    (extM : forall R, cmd MoodState.setter R -> X -> R * X)
    (extL : forall R, cmd LegacyState.setter R -> X -> R * X)
    (x : X) (sF liveF : FoodState.t) (sM liveM : MoodState.t)
    (liveL : LegacyState.t),
    let rF := run FoodState.apply extF (FoodScreen.loadOnMount supabase sF)
                liveF x in
    let rM := run MoodState.apply extM (MoodScreen.loadOnMount supabase sM)
                liveM x in
    let rL := run LegacyState.apply extL (LegacyScreen.loadOnMount supabase)
                liveL x in
    (out rF = Returned tt
     /\ (if truthyOpt (FoodState.userId sF)
         then db_calls (trace rF) = [CallSelect]
              /\ FoodState.loading (final rF) = false
              /\ FoodState.refreshing (final rF) = false
         else trace rF = [] /\ final rF = liveF))
    /\ (out rM = Returned tt
        /\ (if truthyOpt (MoodState.userId sM)
            then db_calls (trace rM) = [CallSelect]
                 /\ MoodState.loading (final rM) = false
                 /\ MoodState.refreshing (final rM) = false
            else trace rM = [] /\ final rM = liveM))
    /\ (out rL = Returned tt
        /\ db_calls (trace rL) = [CallSelect]
        /\ LegacyState.loading (final rL) = false
        /\ LegacyState.refreshing (final rL) = false).
Proof.
  intros supabase X extF extM extL x sF liveF sM liveM liveL.
  cbv zeta. split; [| split].
  - unfold FoodScreen.loadOnMount, FoodScreen.fetchItems,
      FoodScreen.calculateDailySummary.
    cbv zeta. walk_run extF; settle.
  - unfold MoodScreen.loadOnMount, MoodScreen.fetchItems.
    walk_run extM; settle.
  - unfold LegacyScreen.loadOnMount, LegacyScreen.fetchItems.
    walk_run extL; settle.
Qed.

(** X19.  On the profile screen [getUser] makes the one auth call, stores
    its answer and ends [loading]; the [onPress] of Logout makes the one
    [signOut] call, shows an alert with the error's message exactly when
    it failed, and changes no state: the user shown is not cleared by the
    screen itself. *)
Theorem profile_calls :
  forall (supabase : SupabaseClient) (X : Type)
    (ext : forall R, cmd ProfileState.setter R -> X -> R * X)
    (x : X) (live : ProfileState.t),
    let g := run ProfileState.apply ext (ProfileScreen.getUser supabase)
               live x in
    let o := run ProfileState.apply ext
               (ProfileScreen.handleLogout_onPress supabase) live x in
    (out g = Returned tt
     /\ db_calls (trace g) = [CallGetUser]
     /\ ProfileState.user (final g) = fst (ext _ (AuthGetUser supabase) x)
     /\ ProfileState.loading (final g) = false)
    /\ (out o = Returned tt
        /\ db_calls (trace o) = [CallSignOut]
        /\ final o = live
        /\ pick (fun e => match e with
                          | Ev (Alert title message _) _ =>
                              Some (title, message)
                          | _ => None
                          end) (trace o)
           = match fst (ext _ (AuthSignOut supabase) x) with
             | Some error => [([Lit "Error"], [Str (auth_message error)])]
             | None => []
             end).
Proof.
  intros supabase X ext x live.
  cbv zeta. split.
  - unfold ProfileScreen.getUser. walk_run ext; settle.
  - unfold ProfileScreen.handleLogout_onPress. walk_run ext; settle.
Qed.

(* ===================================================================== *)
(** * What a rejected form does *)
(* ===================================================================== *)

(** X20.  An add operation on a form that fails validation makes no
    database or auth call and always returns.  The food screen then shows
    exactly one alert when a user id is present and none when it is
    missing, where it sets [error] to 'User not authenticated' instead.
    The mood journal shows no alert at all, and with a user id present an
    empty text is ignored without a trace: no call, no state change. *)
Theorem rejected_form_feedback :
  forall (supabase : SupabaseClient) (env : ProcessEnv) (X : Type)
    (extF : forall R, cmd FoodState.setter R -> X -> R * X)
    (extM : forall R, cmd MoodState.setter R -> X -> R * X)
    (x : X) (sF liveF : FoodState.t) (sM liveM : MoodState.t),
    let aF := run FoodState.apply extF (FoodScreen.addFoodEntry supabase sF)
                liveF x in
    let aM := run MoodState.apply extM (MoodScreen.addItem supabase env sM)
                liveM x in
    foodFormValid sF = false ->
    moodFormValid sM = false ->
    (out aF = Returned tt
     /\ db_calls (trace aF) = []
     /\ count (@is_alert _) (trace aF) =
        (if truthyOpt (FoodState.userId sF) then 1%nat else 0%nat)
     /\ (truthyOpt (FoodState.userId sF) = false ->
         FoodState.error (final aF) = Some (str "User not authenticated"))
     /\ FoodState.items (final aF) = FoodState.items liveF)
    /\ (out aM = Returned tt
        /\ db_calls (trace aM) = []
        /\ count (@is_alert _) (trace aM) = 0%nat
        /\ (if truthyOpt (MoodState.userId sM)
            then trace aM = [] /\ final aM = liveM
            else MoodState.error (final aM) =
                 Some (str "User not authenticated"))).
Proof.
  intros supabase env X extF extM x sF liveF sM liveM.
  cbv zeta. unfold foodFormValid, moodFormValid, caloriesNumber.
  rewrite !Z.leb_antisym. intros HF HM. split.
  - clear HM. revert HF.
    unfold FoodScreen.addFoodEntry, FoodScreen.alert. cbv zeta.
    walk_run extF; settle.
  - clear HF. revert HM.
    unfold MoodScreen.addItem. cbv zeta.
    destruct (truthyOpt (MoodState.userId sM)) eqn:Hu; cbn [negb andb];
      [| intros _; walk_run extM; settle].
    destruct (truthy (trim (MoodState.text sM))) eqn:Ht; cbn [negb];
      [discriminate |].
    intros _. walk_run extM; settle.
Qed.

(** A signed-in user who submits blanks: one alert on the food screen,
    nothing at all on the mood journal. *)
Lemma rejected_form_feedback_witness :
  pick (fun e => match e with
                 | Ev (Alert _ message _) _ => Some message
                 | _ => None
                 end)
    (trace (run FoodState.apply (scripted quiet)
              (FoodScreen.addFoodEntry someClient aliceNoName)
              aliceNoName tt))
  = [[Lit "Please enter a food name"]]
  /\ trace (run MoodState.apply (scripted quiet)
              (MoodScreen.addItem someClient noKeys bobNoText)
              bobNoText tt) = [].
Proof.
  destruct (rejected_form_feedback someClient noKeys
              (scripted quiet) (scripted quiet) tt
              aliceNoName aliceNoName bobNoText bobNoText)
    as [_ (_ & _ & _ & HM)]; [reflexivity | reflexivity |].
  split; [reflexivity | exact (proj1 HM)].
Defined.

(* ===================================================================== *)
(** * Runs in scripted worlds *)
(* ===================================================================== *)

(** A refused select empties the list and leaves the summary of the
    previous load on screen. *)
Example stale_summary_after_failed_select :
  let r := run FoodState.apply (scripted selectFails)
             (FoodScreen.fetchItems someClient aliceSummarised)
             aliceSummarised tt in
  FoodState.items (final r) = []
  /\ FoodState.error (final r) = Some (message boom)
  /\ FoodState.dailySummary (final r) = FoodState.dailySummary aliceSummarised
  /\ FoodState.dailySummary aliceSummarised <> None.
Proof. repeat split. discriminate. Qed.

(** An entry without a timestamp is in nobody's day. *)
Example undated_entry_is_not_counted :
  FoodState.dailySummary
    (final (run FoodState.apply (scripted quiet)
              (FoodScreen.calculateDailySummary [undatedToast])
              FoodState.initial tt))
  = Some emptyDay.
Proof. reflexivity. Qed.

(** A rejected permission prompt: [addItem] throws on both journals, and
    [inserting] stays on. *)
Example rejected_prompt_leaves_inserting_on :
  let m := run MoodState.apply (scripted promptFails)
             (MoodScreen.addItem someClient noKeys bobLocated)
             bobLocated tt in
  let l := run LegacyState.apply (scripted promptFails)
             (LegacyScreen.addItem someClient carolLocated)
             carolLocated tt in
  (out m = Threw (Rejection "requestForegroundPermissionsAsync")
   /\ MoodState.inserting (final m) = true
   /\ db_calls (trace m) = [])
  /\ (out l = Threw (Rejection "requestForegroundPermissionsAsync")
      /\ LegacyState.inserting (final l) = true
      /\ db_calls (trace l) = []).
Proof. repeat split. Qed.

(** No position: the current journal saves the entry without location,
    the earlier one throws and saves nothing. *)
Example missing_position_on_both_journals :
  let m := run MoodState.apply (scripted noPosition)
             (MoodScreen.addItem someClient noKeys bobLocated)
             bobLocated tt in
  let l := run LegacyState.apply (scripted noPosition)
             (LegacyScreen.addItem someClient carolLocated)
             carolLocated tt in
  (out m = Returned tt
   /\ position_rejected (trace m) = true
   /\ map (get "lat") (rows_inserted (trace m)) = [Some VNull]
   /\ MoodState.inserting (final m) = false)
  /\ (out l = Threw (Rejection "getCurrentPositionAsync")
      /\ rows_inserted (trace l) = []
      /\ LegacyState.inserting (final l) = true).
Proof. repeat split. Qed.

(** A refused delete: its message is shown and the list is not reloaded. *)
Example refused_delete_is_reported :
  let r := run FoodState.apply (scripted deleteFails)
             (FoodScreen.clearAllEntries_onPress someClient aliceListed)
             aliceListed tt in
  pick (fun e => match e with
                 | Ev (Alert _ message _) _ => Some message
                 | _ => None
                 end) (trace r)
  = [[Str (message boom)]]
  /\ queries (trace r) = []
  /\ FoodState.items (final r) = [yesterdaysToast].
Proof. repeat split. Qed.

(** A query with half a surrogate pair: [encodeURIComponent] throws inside
    the [try], so no request is made, the alert is shown and nothing is
    found, although the world would have answered with an apple. *)
Example malformed_query_makes_no_request :
  let r := run FoodState.apply (scripted appleFound)
             (FoodScreen.searchFoodAPI allKeys [55357]%N)
             FoodState.initial tt in
  out r = Returned []
  /\ count (@is_fetch _) (trace r) = 0%nat
  /\ count (@is_alert _) (trace r) = 1%nat.
Proof. repeat split. Qed.
